(** * dd-benchmark: the benchmark orchestration engine

    A shallow embedding of the audit runner ([src/runner/audit-runner.ts]),
    the benchmark runner and the command line of [src/index.ts], the
    scheduler ([src/scheduler/benchmark-scheduler.ts]) and the dataset
    command line ([src/dataset/index.ts]), followed by the
    properties the specification states about them and by further
    properties of the same code.

    Conventions of the embedding.
    - A JavaScript string is a [string]; [toLowerCase] acts on the letters
      [A]-[Z], which is what [String.prototype.toLowerCase] does on the
      ASCII range.
    - [Date.now()] is the field [clock] of the world, in milliseconds.  A
      timer advances it by its delay, a remote call by the latency the
      backend script assigns to it.
    - An [async] method is a function in the monad [M]: it returns a value,
      throws, or never settles ([Diverged]).
    - The remote backend is a script of responses ([Backend]); the ground
      truth collaborator and the signal source are oracles.  Every request
      settles, after the time [latency] gives it; [res_json] holds the body
      of a response when it parses to a value of the shape the source
      asserts for it.
    - The file system is an oracle of the host ([writeError]): it accepts
      a write or rejects it with an error, and a rejected write leaves no
      file. *)

From Stdlib Require Import Ascii String.
From stdpp Require Import strings gmap list sorting pretty numbers.

Set Warnings "-clear-no-such-hyp".

Local Open Scope string_scope.
Local Open Scope Z_scope.

(** ** JavaScript strings *)

Module Js.

Definition lowerChar (c : ascii) : ascii :=
  let n := nat_of_ascii c in
  if ((65 <=? n)%nat && (n <=? 90)%nat)%bool then ascii_of_nat (n + 32) else c.

(** [s.toLowerCase()] *)
Fixpoint toLowerCase (s : string) : string :=
  match s with
  | EmptyString => EmptyString
  | String c s' => String (lowerChar c) (toLowerCase s')
  end.

(** [s.startsWith(p)] *)
Fixpoint startsWith (s p : string) {struct p} : bool :=
  match p, s with
  | EmptyString, _ => true
  | String _ _, EmptyString => false
  | String a p', String b s' => if Ascii.eqb a b then startsWith s' p' else false
  end.

(** [s.includes(needle)] *)
Fixpoint includes (s needle : string) : bool :=
  match s with
  | EmptyString => startsWith EmptyString needle
  | String _ s' => startsWith s needle || includes s' needle
  end.

(** Truthiness of a string: every string but the empty one. *)
Definition truthy (s : string) : bool :=
  match s with EmptyString => false | _ => true end.

(** [s || d] on strings. *)
Definition orElse (s d : string) : string := if truthy s then s else d.

(** [parts.join('')] *)
Definition join (parts : list string) : string := foldr String.append "" parts.

(** [Math.round(x / 1000)] for an integer [x]: halves round up. *)
Definition roundDiv1000 (x : Z) : Z := (x + 500) `div` 1000.

(** [Set.prototype.add], the set kept in insertion order. *)
Definition setAdd (x : string) (s : list string) : list string :=
  if bool_decide (x ∈ s) then s else s ++ [x].

(** [s.split(sep)] for a separator of one character. *)
Fixpoint split (sep : ascii) (s : string) : list string :=
  match s with
  | EmptyString => [EmptyString]
  | String c s' =>
      if Ascii.eqb c sep then EmptyString :: split sep s'
      else match split sep s' with
           | x :: xs => String c x :: xs
           | [] => [String c EmptyString]
           end
  end.

(** [xs.sort((a, b) => key(a) - key(b))]: the sort of an array is stable,
    so the result is the one of insertion from the right, each element put
    before the first one that does not come before it. *)
Fixpoint insertBy {A} (key : A -> Z) (x : A) (sorted : list A) : list A :=
  match sorted with
  | [] => [x]
  | y :: sorted' =>
      if key x <=? key y then x :: y :: sorted' else y :: insertBy key x sorted'
  end.

Definition sortBy {A} (key : A -> Z) (xs : list A) : list A :=
  foldr (insertBy key) [] xs.

End Js.

(** ** Core types ([src/types.ts]) *)

Inductive Severity := critical | high | medium | low | info.

Definition Severity_str (s : Severity) : string :=
  match s with
  | critical => "critical"
  | high => "high"
  | medium => "medium"
  | low => "low"
  | info => "info"
  end.

Definition all_severities : list Severity := [critical; high; medium; low; info].

Inductive Framework := foundry | hardhat | brownie | unknown.

Definition Framework_str (f : Framework) : string :=
  match f with
  | foundry => "foundry"
  | hardhat => "hardhat"
  | brownie => "brownie"
  | unknown => "unknown"
  end.

Inductive ProjectStatus :=
  pending | queued | running | completed | failed | skipped.

Record C4Project := {
  name : string;
  repo : string;
  status : ProjectStatus;
  priority : Z;
  findingsFile : option string;
  findingsFiles : option (list string);
  scopeFile : option string;
  framework : Framework;
  notes : option string;
  lastRun : option string
}.

Record AnalysisMetadata := {
  process : option (list string);
  tools : option (list string);
  methods : option (list string);
  methodology : option string;
  duration : option Z;
  severityReasoning : option string
}.

Inductive Source := ground_truth_source | dd_audit.

Record Finding := {
  id : string;
  title : string;
  severity : Severity;
  description : string;
  category : option string;
  file : option string;
  function : option string;
  lines : option (list Z);
  targets : list string;
  rootCause : option string;
  impact : option string;
  recommendation : option string;
  source : Source;
  detector : option string;
  confidence : option string;
  raw : option string;
  markdown : option string;
  analysis : option AnalysisMetadata
}.

Record GroundTruth := {
  gt_total : nat;
  by_severity : gmap string nat;
  gt_findings : list Finding
}.

Record DdFindings := {
  dd_total : nat;
  dd_list : list Finding
}.

Record Metadata := {
  dd_version : string;
  benchmark_version : string;
  tools_used : list string;
  methods_used : list string;
  audit_session_id : option string
}.

Record RunResult := {
  project : string;
  timestamp : string;
  duration_seconds : Z;
  ground_truth : GroundTruth;
  dd_findings : DdFindings;
  metadata : Metadata;
  run_error : option string
}.

Record Checkpoint := {
  currentProject : option string;
  completedProjects : list string;
  failedProjects : list string;
  lastCheckpoint : string
}.

Inductive BenchmarkEvent :=
| project_started (project : string) (timestamp : string)
| audit_completed (project : string) (ddFindingsCount groundTruthCount : nat)
| project_completed (project : string)
| checkpoint_saved (checkpoint : Checkpoint)
| error (message : string) (project : string).

(** ** The world and the monad of asynchronous methods *)

Inductive LogLine := Log (s : string) | Warn (s : string) | Err (s : string).

Inductive Body :=
| NoBody
| ProjectBody (name repoUrl framework : string)
| SessionBody (name projectId : string)
| ChatBody (content : string).

Record Request := { method : string; url : string; body : Body }.

Record Part := { type : string; text : option string }.

Record Message := { role : string; content : option (list Part) }.

Inductive FileData :=
| FindingsJson (findings : list Finding)
| RunResultJson (result : RunResult)
| CheckpointJson (checkpoint : Checkpoint).

Record FileWrite := { path : string; data : FileData }.

Record World := {
  clock : Z;                      (* Date.now() *)
  requests : list Request;        (* remote calls issued, oldest first *)
  console : list LogLine;         (* console output, oldest first *)
  disk : list FileWrite;          (* files written, oldest first *)
  lastSessionLogs : list Message  (* the field of the AuditRunner instance *)
}.

Inductive Outcome (A : Type) :=
| Returned (a : A)
| Thrown (e : string)
| Diverged.
Arguments Returned {A} a.
Arguments Thrown {A} e.
Arguments Diverged {A}.

Definition M (S A : Type) : Type := S -> Outcome A * S.

Definition ret {S A} (a : A) : M S A := fun s => (Returned a, s).

Definition throw {S A} (e : string) : M S A := fun s => (Thrown e, s).

Definition bind {S A B} (m : M S A) (k : A -> M S B) : M S B :=
  fun s =>
    match m s with
    | (Returned a, s') => k a s'
    | (Thrown e, s') => (Thrown e, s')
    | (Diverged, s') => (Diverged, s')
    end.

(** [try { m } catch (e) { handler e }] *)
Definition tryCatch {S A} (m : M S A) (handler : string -> M S A) : M S A :=
  fun s =>
    match m s with
    | (Thrown e, s') => handler e s'
    | r => r
    end.

Notation "x <~ m ;~ k" := (bind m (fun x => k))
  (at level 20, m at level 100, k at level 200, only parsing).
Notation "'perform' m ;~ k" := (bind m (fun _ => k))
  (at level 20, m at level 100, k at level 200, only parsing).

Definition advance (ms : Z) (w : World) : World :=
  {| clock := clock w + ms; requests := requests w; console := console w;
     disk := disk w; lastSessionLogs := lastSessionLogs w |}.

Definition addRequest (r : Request) (w : World) : World :=
  {| clock := clock w; requests := requests w ++ [r]; console := console w;
     disk := disk w; lastSessionLogs := lastSessionLogs w |}.

Definition addLine (l : LogLine) (w : World) : World :=
  {| clock := clock w; requests := requests w; console := console w ++ [l];
     disk := disk w; lastSessionLogs := lastSessionLogs w |}.

Definition addFile (f : FileWrite) (w : World) : World :=
  {| clock := clock w; requests := requests w; console := console w;
     disk := disk w ++ [f]; lastSessionLogs := lastSessionLogs w |}.

Definition setLogs (l : list Message) (w : World) : World :=
  {| clock := clock w; requests := requests w; console := console w;
     disk := disk w; lastSessionLogs := l |}.

(** [Date.now()] *)
Definition now : M World Z := fun w => (Returned (clock w), w).

(** [await new Promise(resolve => setTimeout(resolve, ms))] *)
Definition sleep (ms : Z) : M World unit := fun w => (Returned tt, advance ms w).

Definition consoleLog (s : string) : M World unit := fun w => (Returned tt, addLine (Log s) w).
Definition consoleWarn (s : string) : M World unit := fun w => (Returned tt, addLine (Warn s) w).
Definition consoleError (s : string) : M World unit := fun w => (Returned tt, addLine (Err s) w).

(** [fs.readFile]: what was last written at [p]; it rejects when nothing
    was. *)
Definition readFile (p : string) : M World FileData :=
  fun w =>
    match List.find (fun f => String.eqb (path f) p) (reverse (disk w)) with
    | Some f => (Returned (data f), w)
    | None => (Thrown "ENOENT: no such file or directory", w)
    end.

(** [path.join] of two segments *)
Definition pathJoin (a b : string) : string := a +:+ "/" +:+ b.

(** What the host gives: the calendar rendering of an instant, the process
    environment, and the file system, where [writeError w f] is the error,
    if any, with which the write [f] is rejected when it is attempted in
    the world [w]. *)
Record Host := {
  toISOString : Z -> string;      (* new Date(ms).toISOString() *)
  DD_VERSION : option string;     (* process.env.DD_VERSION *)
  writeError : World -> FileWrite -> option string
}.

(** [fs.mkdir] followed by [fs.writeFile]: the promise of either may
    reject. *)
Definition writeFile (h : Host) (p : string) (d : FileData) : M World unit :=
  fun w =>
    let f := {| path := p; data := d |} in
    match writeError h w f with
    | Some e => (Thrown e, w)
    | None => (Returned tt, addFile f w)
    end.

(** [s.replace(/[:.]/g, '-')] *)
Fixpoint dashed (s : string) : string :=
  match s with
  | EmptyString => EmptyString
  | String c s' =>
      String (if (Ascii.eqb c ":" || Ascii.eqb c ".")%bool then "-"%char else c) (dashed s')
  end.

(** ** The remote backend *)

Record Response (A : Type) := {
  res_status : Z;
  statusText : string;
  res_text : string;              (* the body as text *)
  res_json : option A             (* the body parsed, when it is well formed *)
}.
Arguments res_status {A} _.
Arguments statusText {A} _.
Arguments res_text {A} _.
Arguments res_json {A} _.

(** [response.ok] *)
Definition ok {A} (r : Response A) : bool :=
  ((200 <=? res_status r) && (res_status r <=? 299))%bool.

Inductive FetchResult (A : Type) :=
| Rejected (reason : string)      (* the promise of [fetch] rejects *)
| Responded (r : Response A).
Arguments Rejected {A} reason.
Arguments Responded {A} r.

Record ContainerData := {
  containerId : string;
  wasCreated : bool;
  wasRestarted : bool
}.

Record StartData := { started_runningId : string; eventStreamUrl : string }.

Record SessionData := { session_status : string; runningId : option string }.

Record RemoteMeta := {
  meta_id : string;
  meta_title : string;
  meta_severity : option string;
  meta_file : option string;
  meta_function : option string;
  meta_category : option string;
  meta_detector : option string;
  meta_confidence : option string;
  meta_analysis : option AnalysisMetadata
}.

Record RemoteFinding := { meta : RemoteMeta; finding_content : string }.

(** The answers of the backend during one audit.  The two endpoints polled
    by the completion detector answer by poll number; [latency n] is the
    time the [n]-th request of the world takes. *)
Record Backend := {
  createProject_res : FetchResult string;
  ensureContainer_res : FetchResult ContainerData;
  createSession_res : FetchResult string;
  chatStream_res : FetchResult StartData;
  session_res : nat -> FetchResult SessionData;
  messagesCheck_res : nat -> FetchResult (list Message);
  messages_res : FetchResult (list Message);
  findings_res : FetchResult (list RemoteFinding);
  latency : nat -> N
}.

(** [await fetch(url, { signal: AbortSignal.timeout(limit) })]: the request
    is recorded, time passes, and the promise settles; with a [limit], it
    rejects at the limit when the answer takes that long. *)
Definition fetch {A} (b : Backend) (limit : option Z) (req : Request)
    (res : FetchResult A) : M World (Response A) :=
  fun w =>
    let d := Z.of_N (latency b (length (requests w))) in
    let w1 := addRequest req w in
    match limit with
    | Some t =>
        if t <=? d then (Thrown "TimeoutError: The operation was aborted due to timeout", advance t w1)
        else match res with
             | Rejected reason => (Thrown reason, advance d w1)
             | Responded r => (Returned r, advance d w1)
             end
    | None =>
        match res with
        | Rejected reason => (Thrown reason, advance d w1)
        | Responded r => (Returned r, advance d w1)
        end
    end.

(** [await response.json()] *)
Definition jsonOf {A} (r : Response A) : M World A :=
  match res_json r with
  | Some a => ret a
  | None => throw "SyntaxError: Unexpected token in JSON"
  end.

(** [await response.text()] *)
Definition textOf {A} (r : Response A) : M World string := ret (res_text r).

Definition GET (u : string) : Request := {| method := "GET"; url := u; body := NoBody |}.
Definition POST (u : string) (b : Body) : Request := {| method := "POST"; url := u; body := b |}.

(** ** The audit runner ([src/runner/audit-runner.ts]) *)

Module AuditRunner.

Record DDApiConfig := { baseUrl : string; timeout : Z }.

(** The fields of an instance; [lastSessionLogs] lives in the world. *)
Record t := { config : DDApiConfig; outputDir : string }.

Definition dq : string := String (ascii_of_nat 34) EmptyString.

Definition boolStr (b : bool) : string := if b then "true" else "false".

(** The instruction sent in step 4, a template in the repository URL. *)
Definition instruction (repoUrl : string) : string :=
  Js.join [
    "IMPORTANT: Call tools immediately - do NOT just describe what you will do.

Run a comprehensive security audit on this GitHub repository: ";
    repoUrl;
    "

Execute these steps in order:

STEP 1 - Clone repository:
cloneRepository({ url: ";
    dq;
    repoUrl;
    dq;
    " })

STEP 2 - Detect project type:
detectProjectType({})

STEP 3 - Install dependencies:
installDependencies({})

STEP 4 - Run static analysis:
runSlither({})
runAderyn({})

STEP 5 - Analyze findings:
Review the Slither and Aderyn results. For each real vulnerability:
- Use readContract to examine the vulnerable code
- Verify it's a real issue, not a false positive

STEP 6 - Create findings:
For each confirmed vulnerability, use createFinding with:
- severity: ";
    dq;
    "high";
    dq;
    ", ";
    dq;
    "medium";
    dq;
    ", or ";
    dq;
    "low";
    dq;
    "
- title: Brief description of the vulnerability
- description: Full explanation with code location
- recommendation: How to fix it
- analysisProcess: Array of steps you took to find this (e.g., [";
    dq;
    "ran slither";
    dq;
    ", ";
    dq;
    "reviewed tainted variables";
    dq;
    ", ";
    dq;
    "verified exploit path";
    dq;
    "])
- tools: Tools you used (e.g., [";
    dq;
    "slither";
    dq;
    ", ";
    dq;
    "manual review";
    dq;
    "])
- methods: Analysis methods applied (e.g., [";
    dq;
    "taint analysis";
    dq;
    ", ";
    dq;
    "control flow";
    dq;
    "])
- severityReasoning: Why you assigned this severity level

Focus on HIGH and MEDIUM severity issues:
- Reentrancy attacks
- Access control bypasses
- Integer overflow/underflow
- Oracle/price manipulation
- Token handling issues
- Logic errors

START NOW by calling cloneRepository.
    "
  ].

(** Normalize severity string *)
Definition normalizeSeverity (severity : option string) : Severity :=
  match severity with
  | None => medium
  | Some s =>
      if negb (Js.truthy s) then medium
      else
        let lower := Js.toLowerCase s in
        if Js.includes lower "crit" then critical
        else if Js.includes lower "high" then high
        else if Js.includes lower "med" then medium
        else if Js.includes lower "low" then low
        else info
  end.

Section Instance.

Variable h : Host.
Variable b : Backend.
Variable this : t.

Let base : string := baseUrl (config this).

(** Create a DD project *)
Definition createProject (project : C4Project) : M World string :=
  response <~ fetch b None
    (POST (base +:+ "/api/projects")
       (ProjectBody (name project) ("https://github.com/" +:+ repo project)
          (Js.orElse (Framework_str (framework project)) "unknown")))
    (createProject_res b);~
  if negb (ok response) then
    errorText <~ textOf response;~
    throw ("Failed to create project: " +:+ pretty (res_status response) +:+ " " +:+ errorText)
  else
    jsonOf response.

(** Ensure container is initialized for the project *)
Definition ensureContainer (projectId : string) : M World unit :=
  perform consoleLog ("[AuditRunner] Ensuring container for project " +:+ projectId +:+ "...");~
  response <~ fetch b (Some 300000)
    (POST (base +:+ "/api/projects/" +:+ projectId +:+ "/ensure-container") NoBody)
    (ensureContainer_res b);~
  if negb (ok response) then
    errorText <~ textOf response;~
    throw ("Failed to ensure container: " +:+ pretty (res_status response) +:+ " " +:+ errorText)
  else
    data <~ jsonOf response;~
    perform consoleLog ("[AuditRunner] Container ready: " +:+ containerId data
                +:+ " (created: " +:+ boolStr (wasCreated data)
                +:+ ", restarted: " +:+ boolStr (wasRestarted data) +:+ ")");~
    sleep 2000.

(** Create a new audit session for a project *)
Definition createSession (project : C4Project) (projectId : string) : M World string :=
  response <~ fetch b None
    (POST (base +:+ "/api/agent/sessions")
       (SessionBody ("Benchmark: " +:+ name project) projectId))
    (createSession_res b);~
  if negb (ok response) then
    throw ("Failed to create session: " +:+ statusText response)
  else
    jsonOf response.

(** How one turn of the polling loop ends. *)
Inductive Next := Continue (lastStatus : string) | Break.

Definition isAssistant (m : Message) : bool := String.eqb (role m) "assistant".

(** [lastMsg.content?.map(c => c.text || '').join('') || ''] *)
Definition msgTextOf (lastMsg : Message) : string :=
  match content lastMsg with
  | Some parts => Js.join (map (fun c => default "" (text c)) parts)
  | None => ""
  end.

Definition needsMoreInfo (msgText : string) : bool :=
  Js.includes msgText "repository URL" || Js.includes msgText "no repository"
  || Js.includes msgText "Could you please provide".

Definition analysisPerformed (msgText : string) : bool :=
  Js.includes (Js.toLowerCase msgText) "slither"
  || Js.includes (Js.toLowerCase msgText) "aderyn"
  || Js.includes (Js.toLowerCase msgText) "vulnerabilit"
  || Js.includes (Js.toLowerCase msgText) "finding".

(** The part of a turn that looks at the assistant messages; [None] when
    control falls through to the code after it. *)
Definition inspectMessages (pollCount : nat) (lastStatus : string)
    (messages : list Message) : M World (option Next) :=
  let assistantMsgs := List.filter isAssistant messages in
  match list.last assistantMsgs with
  | Some lastMsg =>
      let msgText := msgTextOf lastMsg in
      if ((pollCount <? 6)%nat && needsMoreInfo msgText)%bool then
        perform consoleLog "[AuditRunner] Agent needs more info, waiting for tools to execute...";~
        perform sleep 15000;~
        ret (Some (Continue lastStatus))
      else if (analysisPerformed msgText || (12 <=? pollCount)%nat)%bool then
        perform consoleLog ("[AuditRunner] Session completed with "
                    +:+ pretty (length assistantMsgs) +:+ " assistant messages");~
        ret (Some Break)
      else
        perform consoleLog ("[AuditRunner] Waiting for analysis to complete (poll "
                    +:+ pretty pollCount +:+ ")...");~
        perform sleep 15000;~
        ret (Some (Continue lastStatus))
  | None => ret None
  end.

(** The body of the [while] loop of [sendMessage], entered with
    [pollCount] already incremented. *)
Definition pollBody (sessionId : string) (pollCount : nat) (lastStatus : string)
    : M World Next :=
  statusResponse <~ fetch b (Some 10000)
    (GET (base +:+ "/api/agent/sessions/" +:+ sessionId)) (session_res b pollCount);~
  if negb (ok statusResponse) then
    perform consoleWarn "[AuditRunner] Status check failed, continuing...";~
    perform sleep 5000;~
    ret (Continue lastStatus)
  else
    sessionData <~ jsonOf statusResponse;~
    let shown := Js.orElse (default "" (runningId sessionData)) "none" in
    let currentStatus := session_status sessionData +:+ ":" +:+ shown in
    lastStatus <~ (if negb (String.eqb currentStatus lastStatus) then
                     perform consoleLog ("[AuditRunner] Session status: "
                                 +:+ session_status sessionData
                                 +:+ ", runningId: " +:+ shown);~
                     ret currentStatus
                   else ret lastStatus);~
    if (String.eqb (session_status sessionData) "idle"
        && bool_decide (runningId sessionData = None))%bool then
      msgCheckResponse <~ fetch b (Some 10000)
        (GET (base +:+ "/api/agent/sessions/" +:+ sessionId +:+ "/messages"))
        (messagesCheck_res b pollCount);~
      decided <~ (if ok msgCheckResponse then
                    messages <~ jsonOf msgCheckResponse;~
                    inspectMessages pollCount lastStatus messages
                  else ret None);~
      match decided with
      | Some next => ret next
      | None =>
          if (pollCount <? 6)%nat then
            perform consoleLog "[AuditRunner] No response yet, waiting for agent to process...";~
            perform sleep 15000;~
            ret (Continue lastStatus)
          else
            perform consoleLog "[AuditRunner] Session appears complete";~
            ret Break
      end
    else
      perform sleep 10000;~
      ret (Continue lastStatus).

(** How the loop was left: by [break], or by its condition. *)
Inductive LoopExit := Broke | TimedOut.

(** [while (Date.now() - startTime < timeout) { pollCount++; ... }];
    the result carries the final [pollCount].  [fuel] bounds the number of
    turns; see [pollFuel]. *)
Fixpoint pollLoop (fuel : nat) (sessionId : string) (startTime timeout : Z)
    (pollCount : nat) (lastStatus : string) : M World (LoopExit * nat) :=
  fun w =>
    if clock w - startTime <? timeout then
      match fuel with
      | O => (Diverged, w)
      | S fuel' =>
          match pollBody sessionId (S pollCount) lastStatus w with
          | (Returned (Continue lastStatus'), w') =>
              pollLoop fuel' sessionId startTime timeout (S pollCount) lastStatus' w'
          | (Returned Break, w') => (Returned (Broke, S pollCount), w')
          | (Thrown e, w') => (Thrown e, w')
          | (Diverged, w') => (Diverged, w')
          end
      end
    else (Returned (TimedOut, pollCount), w).

(** A turn that does not leave the loop sleeps for 5 seconds or more, and
    the loop is entered 10 seconds after [startTime]: this many turns are
    enough. *)
Definition pollFuel (timeout : Z) : nat := Z.to_nat (timeout `div` 5000).

(** [fullResponse] built from the last assistant message. *)
Definition fullResponseOf (messages : list Message) : string :=
  match List.find isAssistant (reverse messages) with
  | Some lastAssistant =>
      match content lastAssistant with
      | Some parts =>
          foldl (fun acc part =>
                   match text part with
                   | Some txt =>
                       if (String.eqb (type part) "text" && Js.truthy txt)%bool
                       then acc +:+ txt else acc
                   | None => acc
                   end) "" parts
      | None => ""
      end
  | None => ""
  end.

(** Send a message to the audit session *)
Definition sendMessage (sessionId : string) (message : string) : M World string :=
  startResponse <~ fetch b (Some 30000)
    (POST (base +:+ "/api/agent/sessions/" +:+ sessionId +:+ "/chat/stream")
       (ChatBody message))
    (chatStream_res b);~
  if negb (ok startResponse) then
    errorText <~ textOf startResponse;~
    throw ("Failed to start chat: " +:+ pretty (res_status startResponse) +:+ " " +:+ errorText)
  else
    startData <~ jsonOf startResponse;~
    perform consoleLog ("[AuditRunner] Started run: " +:+ started_runningId startData);~
    startTime <~ now;~
    let timeout := timeout (config this) in
    perform consoleLog "[AuditRunner] Waiting for agent to start processing...";~
    perform sleep 10000;~
    polled <~ pollLoop (pollFuel timeout) sessionId startTime timeout 0 "";~
    finished <~ now;~
    let elapsed := Js.roundDiv1000 (finished - startTime) in
    perform consoleLog ("[AuditRunner] Polling completed after " +:+ pretty elapsed
                +:+ "s (" +:+ pretty (snd polled) +:+ " checks)");~
    messagesResponse <~ fetch b (Some 10000)
      (GET (base +:+ "/api/agent/sessions/" +:+ sessionId +:+ "/messages"))
      (messages_res b);~
    if negb (ok messagesResponse) then
      throw "Failed to get messages"
    else
      messages <~ jsonOf messagesResponse;~
      perform (fun w => (Returned tt, setLogs messages w));~
      let fullResponse := fullResponseOf messages in
      perform consoleLog ("[AuditRunner] Response received ("
                  +:+ pretty (String.length fullResponse) +:+ " chars), "
                  +:+ pretty (length messages) +:+ " messages logged");~
      ret fullResponse.

(** Get the session logs from the last audit *)
Definition getSessionLogs : M World (list Message) :=
  fun w => (Returned (lastSessionLogs w), w).

Definition toFinding (f : RemoteFinding) : Finding :=
  {| id := Js.orElse (meta_id (meta f)) "unknown";
     title := Js.orElse (meta_title (meta f)) "Untitled";
     severity := normalizeSeverity (meta_severity (meta f));
     description := Js.orElse (finding_content f) "";
     category := meta_category (meta f);
     file := meta_file (meta f);
     function := meta_function (meta f);
     lines := None;
     targets := match meta_file (meta f) with
                | Some p => if Js.truthy p then [p] else []
                | None => []
                end;
     rootCause := None;
     impact := None;
     recommendation := None;
     source := dd_audit;
     detector := meta_detector (meta f);
     confidence := meta_confidence (meta f);
     raw := None;
     markdown := None;
     analysis := meta_analysis (meta f) |}.

(** Get findings from project via DD API *)
Definition getFindingsFromProject (projectId : string) : M World (list Finding) :=
  tryCatch
    (response <~ fetch b (Some 30000)
       (GET (base +:+ "/api/projects/" +:+ projectId +:+ "/findings"))
       (findings_res b);~
     if negb (ok response) then
       perform consoleWarn ("[AuditRunner] Failed to get findings: " +:+ pretty (res_status response));~
       ret []
     else
       data <~ jsonOf response;~
       ret (map toFinding data))
    (fun e =>
       perform consoleWarn ("[AuditRunner] Error getting findings: " +:+ e);~
       ret []).

(** Save audit results *)
Definition saveResults (projectName : string) (findings : list Finding) : M World unit :=
  let resultsDir := pathJoin (pathJoin (outputDir this) "runs") projectName in
  t <~ now;~
  let timestamp := dashed (toISOString h t) in
  let filePath := pathJoin resultsDir ("findings-" +:+ timestamp +:+ ".json") in
  perform writeFile h filePath (FindingsJson findings);~
  consoleLog ("[AuditRunner] Saved " +:+ pretty (length findings)
              +:+ " findings to " +:+ filePath).

(** Run a full DD audit on a project *)
Definition runAudit (project : C4Project) : M World (list Finding) :=
  perform consoleLog ("[AuditRunner] Starting audit for " +:+ name project);~
  perform (fun w => (Returned tt, setLogs [] w));~
  projectId <~ createProject project;~
  perform consoleLog ("[AuditRunner] Created project: " +:+ projectId);~
  perform ensureContainer projectId;~
  perform consoleLog ("[AuditRunner] Container initialized for project: " +:+ projectId);~
  sessionId <~ createSession project projectId;~
  perform consoleLog ("[AuditRunner] Created session: " +:+ sessionId);~
  let repoUrl := "https://github.com/" +:+ repo project in
  perform sendMessage sessionId (instruction repoUrl);~
  findings <~ getFindingsFromProject projectId;~
  perform consoleLog ("[AuditRunner] Retrieved " +:+ pretty (length findings)
              +:+ " findings from project");~
  perform saveResults (name project) findings;~
  ret findings.

End Instance.

End AuditRunner.

(** ** The benchmark runner ([src/index.ts]) *)

Module BenchmarkRunner.

(** The ground truth collaborator ([C4Indexer.getGroundTruth]): what it
    settles with for a project, and the time it takes. *)
Record Indexer := {
  getGroundTruth : C4Project -> Outcome (list Finding);
  groundTruthTime : C4Project -> N
}.

Record t := {
  indexer : Indexer;
  auditRunner : AuditRunner.t;
  DATA_DIR : string
}.

(** [bySeverity[f.severity] = (bySeverity[f.severity] || 0) + 1] *)
Definition countSeverity (bySeverity : gmap string nat) (f : Finding) : gmap string nat :=
  <[Severity_str (severity f) := (default 0 (bySeverity !! Severity_str (severity f)) + 1)%nat]>
    bySeverity.

Definition addAll (xs : list string) (s : list string) : list string :=
  foldl (fun acc x => Js.setAdd x acc) s xs.

(** One turn of the loop that collects tools and methods. *)
Definition collect (acc : list string * list string) (f : Finding)
    : list string * list string :=
  let toolsUsed := fst acc in
  let methodsUsed := snd acc in
  let toolsUsed :=
    match detector f with
    | Some d => if Js.truthy d then Js.setAdd d toolsUsed else toolsUsed
    | None => toolsUsed
    end in
  let toolsUsed :=
    match analysis f with
    | Some a => match tools a with Some ts => addAll ts toolsUsed | None => toolsUsed end
    | None => toolsUsed
    end in
  let methodsUsed :=
    match analysis f with
    | Some a => match methods a with Some ms => addAll ms methodsUsed | None => methodsUsed end
    | None => methodsUsed
    end in
  (toolsUsed, methodsUsed).

(** Build RunResult with raw data only; [instant] is what [new Date()]
    reads. *)
Definition buildRunResult (h : Host) (instant : Z) (project : C4Project)
    (groundTruth ddFindings : list Finding) (duration : Z) : RunResult :=
  let bySeverity := foldl countSeverity ∅ groundTruth in
  let used := foldl collect ([], []) ddFindings in
  {| project := name project;
     timestamp := toISOString h instant;
     duration_seconds := duration;
     ground_truth :=
       {| gt_total := length groundTruth;
          by_severity := bySeverity;
          gt_findings := groundTruth |};
     dd_findings :=
       {| dd_total := length ddFindings;
          dd_list := ddFindings |};
     metadata :=
       {| dd_version := Js.orElse (default "" (DD_VERSION h)) "1.0.0";
          benchmark_version := "2.0.0";
          tools_used := fst used;
          methods_used := snd used;
          audit_session_id := None |};
     run_error := None |}.

Section Instance.

Variable h : Host.
Variable backendOf : C4Project -> Backend.
Variable this : t.

(** Save run result to disk *)
Definition saveRunResult (result : RunResult) : M World unit :=
  let runDir := pathJoin (pathJoin (DATA_DIR this) "runs") (project result) in
  let fileName := "run-" +:+ dashed (timestamp result) +:+ ".json" in
  writeFile h (pathJoin runDir fileName) (RunResultJson result).

(** [await this.indexer.getGroundTruth(project)] *)
Definition fetchGroundTruth (project : C4Project) : M World (list Finding) :=
  fun w => (getGroundTruth (indexer this) project,
            advance (Z.of_N (groundTruthTime (indexer this) project)) w).

(** Run a single audit for a project *)
Definition runAudit (project : C4Project) : M World RunResult :=
  startTime <~ now;~
  perform consoleLog ("[Benchmark] Running audit for " +:+ name project);~
  perform consoleLog "[Benchmark] Fetching ground truth...";~
  groundTruth <~ fetchGroundTruth project;~
  perform consoleLog ("[Benchmark] Ground truth: " +:+ pretty (length groundTruth) +:+ " findings");~
  perform consoleLog "[Benchmark] Running DD audit...";~
  ddFindings <~ AuditRunner.runAudit h (backendOf project) (auditRunner this) project;~
  perform consoleLog ("[Benchmark] DD found: " +:+ pretty (length ddFindings) +:+ " findings");~
  finished <~ now;~
  let duration := Js.roundDiv1000 (finished - startTime) in
  instant <~ now;~
  let result := buildRunResult h instant project groundTruth ddFindings duration in
  perform saveRunResult result;~
  ret result.

(** Handle scheduler events *)
Definition handleEvent (event : BenchmarkEvent) : M World unit :=
  match event with
  | project_started p _ =>
      perform consoleLog "
========================================";~
      perform consoleLog ("Project: " +:+ p);~
      consoleLog "========================================
"
  | audit_completed _ dd gt =>
      consoleLog ("Audit completed. DD: " +:+ pretty dd
                  +:+ " findings, Ground Truth: " +:+ pretty gt +:+ " findings")
  | project_completed _ => consoleLog "
Project completed!"
  | error message _ => consoleError ("Error: " +:+ message)
  | checkpoint_saved _ => ret tt
  end.

End Instance.

End BenchmarkRunner.

(** ** The scheduler ([src/scheduler/benchmark-scheduler.ts]) *)

Module BenchmarkScheduler.

Record SchedulerSettings := {
  maxConcurrentProjects : Z;
  checkpointInterval : Z;
  auditTimeout : Z;
  maxRetries : Z;
  retryDelay : Z
}.

(** The fields of an instance.  [audited] is not a field of the class: it
    records, in order, the projects [runAudit] was called for. *)
Record t := {
  settings : SchedulerSettings;
  dataDir : string;
  checkpoint : Checkpoint;
  isRunning : bool;
  shouldStop : bool;
  audited : list string
}.

Definition EventHandler : Type := BenchmarkEvent -> M World unit.

(** Create initial checkpoint *)
Definition createInitialCheckpoint (h : Host) (instant : Z) : Checkpoint :=
  {| currentProject := None;
     completedProjects := [];
     failedProjects := [];
     lastCheckpoint := toISOString h instant |}.

(** [new BenchmarkScheduler(settings, dataDir)] at the instant [instant] *)
Definition create (h : Host) (instant : Z) (settings : SchedulerSettings)
    (dataDir : string) : t :=
  {| settings := settings;
     dataDir := dataDir;
     checkpoint := createInitialCheckpoint h instant;
     isRunning := false;
     shouldStop := false;
     audited := [] |}.

Definition withCheckpoint (c : Checkpoint) (s : t) : t :=
  {| settings := settings s; dataDir := dataDir s; checkpoint := c;
     isRunning := isRunning s; shouldStop := shouldStop s; audited := audited s |}.

Definition withRunning (r : bool) (s : t) : t :=
  {| settings := settings s; dataDir := dataDir s; checkpoint := checkpoint s;
     isRunning := r; shouldStop := shouldStop s; audited := audited s |}.

Definition withStop (r : bool) (s : t) : t :=
  {| settings := settings s; dataDir := dataDir s; checkpoint := checkpoint s;
     isRunning := isRunning s; shouldStop := r; audited := audited s |}.

Definition noteAudit (p : string) (s : t) : t :=
  {| settings := settings s; dataDir := dataDir s; checkpoint := checkpoint s;
     isRunning := isRunning s; shouldStop := shouldStop s; audited := audited s ++ [p] |}.

Definition setCurrent (p : option string) (c : Checkpoint) : Checkpoint :=
  {| currentProject := p; completedProjects := completedProjects c;
     failedProjects := failedProjects c; lastCheckpoint := lastCheckpoint c |}.

Definition pushCompleted (p : string) (c : Checkpoint) : Checkpoint :=
  {| currentProject := currentProject c; completedProjects := completedProjects c ++ [p];
     failedProjects := failedProjects c; lastCheckpoint := lastCheckpoint c |}.

Definition pushFailed (p : string) (c : Checkpoint) : Checkpoint :=
  {| currentProject := currentProject c; completedProjects := completedProjects c;
     failedProjects := failedProjects c ++ [p]; lastCheckpoint := lastCheckpoint c |}.

Definition setLastCheckpoint (l : string) (c : Checkpoint) : Checkpoint :=
  {| currentProject := currentProject c; completedProjects := completedProjects c;
     failedProjects := failedProjects c; lastCheckpoint := l |}.

(** A method of the scheduler acts on the instance and on the world. *)
Definition inWorld {A} (m : M World A) : M (t * World) A :=
  fun sw =>
    match m (snd sw) with
    | (o, w') => (o, (fst sw, w'))
    end.

Definition self : M (t * World) t := fun sw => (Returned (fst sw), sw).

Definition update (f : t -> t) : M (t * World) unit :=
  fun sw => (Returned tt, (f (fst sw), snd sw)).

(** [try { m } finally { fin }] *)
Definition tryFinally {S A} (m : M S A) (fin : M S unit) : M S A :=
  fun s =>
    match m s with
    | (Returned a, s') =>
        match fin s' with
        | (Returned _, s'') => (Returned a, s'')
        | (Thrown e, s'') => (Thrown e, s'')
        | (Diverged, s'') => (Diverged, s'')
        end
    | (Thrown e, s') =>
        match fin s' with
        | (Returned _, s'') => (Thrown e, s'')
        | (Thrown e', s'') => (Thrown e', s'')
        | (Diverged, s'') => (Diverged, s'')
        end
    | (Diverged, s') => (Diverged, s')
    end.

Section Instance.

Variable h : Host.
(** The registered handlers ([onEvent]), in registration order. *)
Variable eventHandlers : list EventHandler.
(** The overridable method [runAudit]. *)
Variable runAudit : C4Project -> M World RunResult.
(** [signalled n]: whether SIGINT or SIGTERM is delivered (or [stop] is
    called) while the audit started after [n] earlier ones is in flight. *)
Variable signalled : nat -> bool.

(** Emit an event to all handlers *)
Fixpoint emitTo (handlers : list EventHandler) (event : BenchmarkEvent) : M World unit :=
  match handlers with
  | [] => ret tt
  | handler :: handlers' =>
      perform tryCatch (handler event)
        (fun e => consoleError ("[Scheduler] Event handler error: " +:+ e));~
      emitTo handlers' event
  end.

Definition emit (event : BenchmarkEvent) : M (t * World) unit :=
  inWorld (emitTo eventHandlers event).

(** Stop the benchmark gracefully *)
Definition stop : M (t * World) unit :=
  perform inWorld (consoleLog "[Scheduler] Stop requested, will stop after current project");~
  update (withStop true).

(** Save checkpoint to disk *)
Definition saveCheckpoint : M (t * World) unit :=
  instant <~ inWorld now;~
  perform update (fun s => withCheckpoint (setLastCheckpoint (toISOString h instant) (checkpoint s)) s);~
  this <~ self;~
  let checkpointPath := pathJoin (dataDir this) "checkpoint.json" in
  perform inWorld (writeFile h checkpointPath (CheckpointJson (checkpoint this)));~
  perform emit (checkpoint_saved (checkpoint this));~
  inWorld (consoleLog ("[Scheduler] Checkpoint saved: " +:+ lastCheckpoint (checkpoint this))).

(** [await this.runAudit(project)], with the signals that arrive meanwhile. *)
Definition awaitAudit (project : C4Project) : M (t * World) RunResult :=
  this <~ self;~
  perform update (noteAudit (name project));~
  perform (if signalled (length (audited this)) then stop else ret tt);~
  inWorld (runAudit project).

(** One turn of the loop of [runBenchmark] for a project that is neither
    skipped nor cut off by a stop request. *)
Definition attempt (project : C4Project) : M (t * World) unit :=
  perform update (fun s => withCheckpoint (setCurrent (Some (name project)) (checkpoint s)) s);~
  instant <~ inWorld now;~
  perform emit (project_started (name project) (toISOString h instant));~
  perform tryCatch
    (result <~ awaitAudit project;~
     perform emit (audit_completed (name project)
                     (dd_total (dd_findings result)) (gt_total (ground_truth result)));~
     perform emit (project_completed (name project));~
     update (fun s => withCheckpoint (pushCompleted (name project) (checkpoint s)) s))
    (fun e =>
     perform inWorld (consoleError ("[Scheduler] Project failed: " +:+ name project +:+ " " +:+ e));~
     perform update (fun s => withCheckpoint (pushFailed (name project) (checkpoint s)) s);~
     emit (error e (name project)));~
  perform update (fun s => withCheckpoint (setCurrent None (checkpoint s)) s);~
  saveCheckpoint.

(** [for (const project of projects) { ... }] *)
Fixpoint loop (projects : list C4Project) : M (t * World) unit :=
  match projects with
  | [] => ret tt
  | project :: rest =>
      this <~ self;~
      if shouldStop this then ret tt
      else if bool_decide (name project ∈ completedProjects (checkpoint this)) then
        perform inWorld (consoleLog ("[Scheduler] Skipping completed project: " +:+ name project));~
        loop rest
      else
        perform attempt project;~
        loop rest
  end.

(** Main benchmark loop - runs each project once *)
Definition runBenchmark (projects : list C4Project) : M (t * World) unit :=
  perform loop projects;~
  this <~ self;~
  perform inWorld (consoleLog "[Scheduler] Benchmark completed");~
  perform inWorld (consoleLog ("[Scheduler] Completed: "
                               +:+ pretty (length (completedProjects (checkpoint this)))));~
  inWorld (consoleLog ("[Scheduler] Failed: "
                       +:+ pretty (length (failedProjects (checkpoint this))))).

(** Start benchmark run.  The handlers that [setupSignalHandlers] installs
    call [stop]; their calls are what [signalled] stands for. *)
Definition start (projects : list C4Project) : M (t * World) unit :=
  this <~ self;~
  if isRunning this then throw "Benchmark is already running"
  else
    perform update (withRunning true);~
    perform update (withStop false);~
    perform inWorld (consoleLog ("[Scheduler] Starting benchmark with "
                                 +:+ pretty (length projects) +:+ " projects"));~
    tryFinally (runBenchmark projects) (update (withRunning false)).

(** Get current checkpoint *)
Definition getCheckpoint : M (t * World) Checkpoint :=
  this <~ self;~ ret (checkpoint this).

End Instance.

(** Load checkpoint from disk: the parsed content of the file, whatever it
    is, or [None] when the file cannot be read. *)
Definition loadCheckpoint : M (t * World) (option FileData) :=
  this <~ self;~
  let checkpointPath := pathJoin (dataDir this) "checkpoint.json" in
  tryCatch
    (content <~ inWorld (readFile checkpointPath);~
     ret (Some content))
    (fun _ => ret None).

(** Run audit for a single project: the placeholder of the base class. *)
Definition runAuditBase (h : Host) (project : C4Project) : M World RunResult :=
  perform consoleLog ("[Scheduler] Running audit for " +:+ name project);~
  perform sleep 1000;~
  instant <~ now;~
  ret {| project := name project;
         timestamp := toISOString h instant;
         duration_seconds := 1;
         ground_truth := {| gt_total := 0; by_severity := ∅; gt_findings := [] |};
         dd_findings := {| dd_total := 0; dd_list := [] |};
         metadata := {| dd_version := "1.0.0"; benchmark_version := "2.0.0";
                        tools_used := []; methods_used := [];
                        audit_session_id := None |};
         run_error := None |}.

End BenchmarkScheduler.

(** [ExtendedScheduler]: the scheduler whose [runAudit] is the benchmark
    runner's, listening with the runner's [handleEvent]. *)
Module ExtendedScheduler.

Definition start (h : Host) (backendOf : C4Project -> Backend) (runner : BenchmarkRunner.t)
    (signalled : nat -> bool) (projects : list C4Project)
    : M (BenchmarkScheduler.t * World) unit :=
  BenchmarkScheduler.start h [BenchmarkRunner.handleEvent]
    (BenchmarkRunner.runAudit h backendOf runner) signalled projects.

End ExtendedScheduler.

(** ** The severity vocabulary of the indexer ([src/indexer/c4-indexer.ts]) *)

Module C4Indexer.

(** Normalize severity string *)
Definition normalizeSeverity (severity : option string) : Severity :=
  match severity with
  | None => medium
  | Some s =>
      if negb (Js.truthy s) then medium
      else
        let lower := Js.toLowerCase s in
        if String.eqb lower "critical" then critical
        else if String.eqb lower "high" then high
        else if String.eqb lower "medium" then medium
        else if String.eqb lower "low" then low
        else info
  end.

End C4Indexer.

(** ** The command line ([src/index.ts]) *)

Module Index.

Record GithubSettings := {
  organization : string;
  projectPattern : string;
  requireFindings : bool
}.

Record Settings := {
  scheduler : BenchmarkScheduler.SchedulerSettings;
  github : GithubSettings
}.

(** What the process finds around it: the two configuration files as
    [loadSettings] and [loadProjects] read them, the environment, the data
    directory, the indexer built on it, and what the discovery of
    [runner.discover()] does. *)
Record Setup := {
  loadSettings : Outcome Settings;
  loadProjects : Outcome (list C4Project);
  DD_API_URL : option string;
  DATA_DIR : string;
  indexer : BenchmarkRunner.Indexer;
  discover : M World unit
}.

(** How [main] leaves the process: by returning, or by [process.exit]. *)
Inductive Exit := Completed | Exited (code : Z).

(** [args.find((a) => a.startsWith('--project='))?.split('=')[1]] *)
Definition projectFilterOf (args : list string) : option string :=
  match List.find (fun a => Js.startsWith a "--project=") args with
  | Some a => Js.split "=" a !! 1%nat
  | None => None
  end.

Section Process.

Variable h : Host.
Variable setup : Setup.
Variable backendOf : C4Project -> Backend.
Variable signalled : nat -> bool.

(** [new BenchmarkRunner(settings, ddApiConfig)], but for its scheduler *)
Definition newBenchmarkRunner (ddApiConfig : AuditRunner.DDApiConfig) : BenchmarkRunner.t :=
  {| BenchmarkRunner.indexer := indexer setup;
     BenchmarkRunner.auditRunner :=
       {| AuditRunner.config := ddApiConfig; AuditRunner.outputDir := DATA_DIR setup |};
     BenchmarkRunner.DATA_DIR := DATA_DIR setup |}.

(** Run benchmark on all configured projects.  [registered] holds the
    handlers that earlier calls of [onEvent] left in the scheduler. *)
Definition run (runner : BenchmarkRunner.t)
    (registered : list BenchmarkScheduler.EventHandler)
    (projectFilter : option string) : M (BenchmarkScheduler.t * World) unit :=
  perform BenchmarkScheduler.inWorld (consoleLog "[Benchmark] Starting benchmark run...");~
  projects <~ BenchmarkScheduler.inWorld (fun w => (loadProjects setup, w));~
  projects <~ match projectFilter with
              | Some wanted =>
                  if Js.truthy wanted then
                    let projects := List.filter (fun p => String.eqb (name p) wanted) projects in
                    if (length projects =? 0)%nat
                    then throw ("Project not found: " +:+ wanted)
                    else ret projects
                  else ret projects
              | None => ret projects
              end;~
  let projects := Js.sortBy priority projects in
  perform BenchmarkScheduler.inWorld
    (consoleLog ("[Benchmark] Running " +:+ pretty (length projects) +:+ " projects"));~
  BenchmarkScheduler.start h (registered ++ [BenchmarkRunner.handleEvent])
    (BenchmarkRunner.runAudit h backendOf runner) signalled projects.

(** CLI entry point.  An error is shown by its message. *)
Definition main (args : list string) : M World Exit :=
  let command := Js.orElse (default "" (head args)) "run" in
  tryCatch
    (settings <~ (fun w => (loadSettings setup, w));~
     let ddApiConfig :=
       {| AuditRunner.baseUrl := Js.orElse (default "" (DD_API_URL setup)) "http://localhost:3001";
          AuditRunner.timeout := BenchmarkScheduler.auditTimeout (scheduler settings) * 1000 |} in
     instant <~ now;~
     let runner := newBenchmarkRunner ddApiConfig in
     let instance := BenchmarkScheduler.create h instant (scheduler settings) (DATA_DIR setup) in
     if String.eqb command "run" then
       let projectFilter := projectFilterOf args in
       fun w =>
         match run runner [] projectFilter (instance, w) with
         | (Returned _, (_, w')) => (Returned Completed, w')
         | (Thrown e, (_, w')) => (Thrown e, w')
         | (Diverged, (_, w')) => (Diverged, w')
         end
     else if String.eqb command "discover" then
       perform discover setup;~
       ret Completed
     else if String.eqb command "report" then
       perform consoleLog "Report generation not yet implemented";~
       ret Completed
     else
       perform consoleLog "Usage: pnpm run [--project=<name>]";~
       perform consoleLog "       pnpm discover";~
       perform consoleLog "       pnpm report";~
       ret (Exited 1))
    (fun e =>
       perform consoleError ("Fatal error: " +:+ e);~
       ret (Exited 1)).

End Process.

End Index.

(** ** The dataset command line ([src/dataset/index.ts]) *)

Module DatasetCli.

(** The fields of a dataset that [prepareProject] reads; the entries of
    [bySeverity] come in the order of [Object.entries]. *)
Record DatasetMetadata := {
  findingsCount : nat;
  bySeverity : list (string * nat)
}.

Record PreparedDataset := { metadata : DatasetMetadata }.

(** The collaborator [DatasetPreparer]. *)
Record DatasetPreparer := {
  prepare : C4Project -> M World PreparedDataset;
  hasDataset : string -> M World bool
}.

(** [args.find(a => a.startsWith(prefix))?.split('=')[1]] *)
Definition getArg (args : list string) (prefix : string) : option string :=
  match List.find (fun a => Js.startsWith a prefix) args with
  | Some a => Js.split "=" a !! 1%nat
  | None => None
  end.

(** [args.includes(flag)] *)
Definition hasFlag (args : list string) (flag : string) : bool :=
  bool_decide (flag ∈ args).

(** [!projectName] *)
Definition missing (projectName : option string) : bool :=
  negb (Js.truthy (default "" projectName)).

Section Process.

Variable preparer : DatasetPreparer.
(** What [loadProjects] settles with. *)
Variable loadProjects : Outcome (list C4Project).
(** The two functions that print datasets, whose output is left open. *)
Variable listDatasets : M World unit.
Variable showDataset : string -> M World unit.

Fixpoint logEntries (entries : list (string * nat)) : M World unit :=
  match entries with
  | [] => ret tt
  | (sev, count) :: rest =>
      perform consoleLog ("    - " +:+ sev +:+ ": " +:+ pretty count);~
      logEntries rest
  end.

(** Prepare dataset for a single project *)
Definition prepareProject (project : C4Project) : M World bool :=
  tryCatch
    (perform consoleLog "
========================================";~
     perform consoleLog ("Preparing: " +:+ name project);~
     perform consoleLog ("Repo: " +:+ repo project);~
     perform consoleLog "========================================
";~
     dataset <~ prepare preparer project;~
     perform consoleLog "
[Summary]";~
     perform consoleLog ("  Total findings: " +:+ pretty (findingsCount (metadata dataset)));~
     perform consoleLog "  By severity:";~
     perform logEntries (bySeverity (metadata dataset));~
     ret true)
    (fun e =>
       perform consoleError ("[Error] Failed to prepare " +:+ name project +:+ ": " +:+ e);~
       ret false).

(** [for (const project of projects) { ... success++ / failed++ }] *)
Fixpoint prepareEach (projects : list C4Project) (success failed : nat)
    : M World (nat * nat) :=
  match projects with
  | [] => ret (success, failed)
  | project :: rest =>
      ok <~ prepareProject project;~
      if ok then prepareEach rest (S success) failed
      else prepareEach rest success (S failed)
  end.

Fixpoint logNames (projects : list C4Project) : M World unit :=
  match projects with
  | [] => ret tt
  | p :: rest =>
      perform consoleLog ("  - " +:+ name p);~
      logNames rest
  end.

Definition complete (counts : nat * nat) : M World Index.Exit :=
  perform consoleLog "
=== Complete ===";~
  perform consoleLog ("Success: " +:+ pretty (fst counts));~
  perform consoleLog ("Failed: " +:+ pretty (snd counts));~
  ret Index.Completed.

(** Main CLI.  An error is shown by its message. *)
Definition main (args : list string) : M World Index.Exit :=
  let command := Js.orElse (default "" (head args)) "help" in
  tryCatch
    (if String.eqb command "prepare" then
       let projectName := getArg args "--project=" in
       let all := hasFlag args "--all" in
       let withReports := hasFlag args "--with-reports" in
       if (missing projectName && negb all && negb withReports)%bool then
         perform consoleLog "Usage: pnpm dataset prepare --project=<name>";~
         perform consoleLog "       pnpm dataset prepare --all";~
         perform consoleLog "       pnpm dataset prepare --with-reports";~
         ret (Index.Exited 1)
       else
         projects <~ (fun w => (loadProjects, w));~
         if all then
           perform consoleLog ("Preparing all " +:+ pretty (length projects) +:+ " projects...");~
           counts <~ prepareEach projects 0 0;~
           complete counts
         else if withReports then
           let reportProjects := List.filter (fun p => priority p <? 10) projects in
           perform consoleLog ("Preparing " +:+ pretty (length reportProjects)
                               +:+ " projects with C4 reports...");~
           counts <~ prepareEach reportProjects 0 0;~
           complete counts
         else
           match List.find (fun p => String.eqb (name p) (default "" projectName)) projects with
           | None =>
               perform consoleError ("Project not found: " +:+ default "" projectName);~
               perform consoleLog "
Available projects:";~
               perform logNames (take 10 projects);~
               ret (Index.Exited 1)
           | Some project =>
               perform prepareProject project;~
               ret Index.Completed
           end
     else if String.eqb command "list" then
       perform listDatasets;~
       ret Index.Completed
     else if String.eqb command "show" then
       let projectName := getArg args "--project=" in
       if missing projectName then
         perform consoleLog "Usage: pnpm dataset show --project=<name>";~
         ret (Index.Exited 1)
       else
         perform showDataset (default "" projectName);~
         ret Index.Completed
     else if String.eqb command "check" then
       let projectName := getArg args "--project=" in
       if missing projectName then
         perform consoleLog "Usage: pnpm dataset check --project=<name>";~
         ret (Index.Exited 1)
       else
         exists_ <~ hasDataset preparer (default "" projectName);~
         perform consoleLog (if exists_ then "exists" else "not_found");~
         ret (Index.Exited (if exists_ then 0 else 1))
     else
       perform consoleLog "
Dataset Preparer CLI

Commands:
  prepare   Prepare ground truth dataset from C4 reports
  list      List all prepared datasets
  show      Show dataset details
  check     Check if dataset exists

Examples:
  pnpm dataset prepare --project=2024-07-loopfi
  pnpm dataset prepare --with-reports
  pnpm dataset prepare --all
  pnpm dataset list
  pnpm dataset show --project=2024-07-loopfi
  pnpm dataset check --project=2024-07-loopfi
";~
       ret Index.Completed)
    (fun e =>
       perform consoleError ("Fatal error: " +:+ e);~
       ret (Index.Exited 1)).

End Process.

End DatasetCli.

(** * Vocabulary of the properties *)

(** [n] occurs in [s] *)
Definition substring (n s : string) : Prop :=
  exists pre post, s = pre +:+ n +:+ post.

(** The input carries no severity text. *)
Definition absent (o : option string) : Prop := o = None \/ o = Some "".

(** [s] contains none of the four fragments, whatever its case. *)
Definition unrecognized (s : string) : Prop :=
  ~ substring "crit" (Js.toLowerCase s) /\ ~ substring "high" (Js.toLowerCase s) /\
  ~ substring "med" (Js.toLowerCase s) /\ ~ substring "low" (Js.toLowerCase s).

#[global] Instance Severity_eq_dec : EqDecision Severity.
Proof. solve_decision. Defined.

(** The number of findings of [G] with severity [s]. *)
Definition countOf (s : Severity) (G : list Finding) : nat :=
  length (List.filter (fun f => bool_decide (severity f = s)) G).

(** The sum of the counts of a histogram. *)
Definition histogramTotal (m : gmap string nat) : nat :=
  map_fold (fun _ n acc => (n + acc)%nat) 0%nat m.

(** The instance with the time of its checkpoint set to [l]. *)
Definition stamped (l : string) (s : BenchmarkScheduler.t) : BenchmarkScheduler.t :=
  BenchmarkScheduler.withCheckpoint
    (BenchmarkScheduler.setLastCheckpoint l (BenchmarkScheduler.checkpoint s)) s.

(** What an attempt leaves in the instance: the project is noted as
    audited, a signal sets the flag, the name goes to one of the two
    lists, and the current project is cleared. *)
Definition attempted (signalled : nat -> bool) (p : C4Project) (succeeded : bool)
    (s : BenchmarkScheduler.t) : BenchmarkScheduler.t :=
  let s1 := BenchmarkScheduler.noteAudit (name p)
              (BenchmarkScheduler.withCheckpoint
                 (BenchmarkScheduler.setCurrent (Some (name p)) (BenchmarkScheduler.checkpoint s)) s) in
  let s2 := if signalled (length (BenchmarkScheduler.audited s))
            then BenchmarkScheduler.withStop true s1 else s1 in
  let c := if succeeded
           then BenchmarkScheduler.pushCompleted (name p) (BenchmarkScheduler.checkpoint s2)
           else BenchmarkScheduler.pushFailed (name p) (BenchmarkScheduler.checkpoint s2) in
  BenchmarkScheduler.withCheckpoint (BenchmarkScheduler.setCurrent None c) s2.


(** Some registered handler never settles on some event. *)
Definition handler_diverges (hs : list BenchmarkScheduler.EventHandler) : Prop :=
  exists hd ev w0, hd ∈ hs /\ fst (hd ev w0) = Diverged.

(** The audit of [p] never settles in some world. *)
Definition audit_diverges (runAudit : C4Project -> M World RunResult) (p : C4Project) : Prop :=
  exists w0, fst (runAudit p w0) = Diverged.

(** The file system rejects, with the error [e], a write of the checkpoint
    file of [s]. *)
Definition checkpoint_rejected (h : Host) (s : BenchmarkScheduler.t) (e : string) : Prop :=
  exists w0 c,
    writeError h w0 {| path := pathJoin (BenchmarkScheduler.dataDir s) "checkpoint.json";
                       data := CheckpointJson c |} = Some e.

(** What can be said of the result of an attempt on [p] from [s]. *)
Definition attempt_post (h : Host) (hs : list BenchmarkScheduler.EventHandler)
    (runAudit : C4Project -> M World RunResult)
    (signalled : nat -> bool) (p : C4Project) (s : BenchmarkScheduler.t)
    (r : Outcome unit * (BenchmarkScheduler.t * World)) : Prop :=
  match r with
  | (Returned _, (s', _)) =>
      exists succeeded l w1 w2,
        s' = stamped l (attempted signalled p succeeded s) /\
        if succeeded then exists res, runAudit p w1 = (Returned res, w2)
        else exists e, runAudit p w1 = (Thrown e, w2)
  | (Thrown e, (s', _)) =>
      (exists succeeded l w1 w2,
         s' = stamped l (attempted signalled p succeeded s) /\
         if succeeded then exists res, runAudit p w1 = (Returned res, w2)
         else exists e', runAudit p w1 = (Thrown e', w2)) /\
      checkpoint_rejected h s e
  | (Diverged, (s', _)) =>
      (BenchmarkScheduler.audited s' = BenchmarkScheduler.audited s \/
       BenchmarkScheduler.audited s' = (BenchmarkScheduler.audited s ++ [name p])%list) /\
      (completedProjects (BenchmarkScheduler.checkpoint s')
         = completedProjects (BenchmarkScheduler.checkpoint s) \/
       completedProjects (BenchmarkScheduler.checkpoint s')
         = (completedProjects (BenchmarkScheduler.checkpoint s) ++ [name p])%list) /\
      (audit_diverges runAudit p \/ handler_diverges hs)
  end.

(** Every polled request takes [L] milliseconds or less, counting a
    request that is cut off after 10 seconds as taking 10 seconds. *)
Definition latency_within (b : Backend) (L : Z) : Prop :=
  forall n, Z.min (Z.of_N (latency b n)) 10000 <= L.

(** The answer is a response, and one that parses when it is a success. *)
Definition answered {A} (res : FetchResult A) : Prop :=
  exists r, res = Responded r /\ (ok r = true -> res_json r <> None).

(** Every request of the polling loop is answered, and in time. *)
Definition responsive (b : Backend) : Prop :=
  (forall n, Z.of_N (latency b n) < 10000) /\
  (forall k, answered (session_res b k)) /\
  (forall k, answered (messagesCheck_res b k)).

(** A request of the polling loop: a read below the sessions of the agent. *)
Definition isPoll (this : AuditRunner.t) (r : Request) : Prop :=
  method r = "GET" /\
  exists rest, url r = AuditRunner.baseUrl (AuditRunner.config this) +:+ "/api/agent/sessions/" +:+ rest.

(** The request is answered with a success that carries [a]. *)
Definition succeeds {A} (res : FetchResult A) (a : A) : Prop :=
  exists r, res = Responded r /\ ok r = true /\ res_json r = Some a.

(** The request is answered with the non-success response [r]. *)
Definition fails {A} (res : FetchResult A) (r : Response A) : Prop :=
  res = Responded r /\ ok r = false.

(** Every request is answered in less than 10 seconds. *)
Definition in_time (b : Backend) : Prop :=
  forall n, Z.of_N (latency b n) < 10000.

(** What finding retrieval gives when its request is answered in time. *)
Definition retrieved (b : Backend) : list Finding :=
  match findings_res b with
  | Responded r =>
      if ok r then
        match res_json r with
        | Some data => map AuditRunner.toFinding data
        | None => []
        end
      else []
  | Rejected _ => []
  end.

(** The file is a finding artifact. *)
Definition isFindingArtifact (f : FileWrite) : Prop :=
  exists findings, data f = FindingsJson findings.

(** The requests of the audit runner for a project. *)
Definition projectRequest (this : AuditRunner.t) (p : C4Project) : Request :=
  POST (AuditRunner.baseUrl (AuditRunner.config this) +:+ "/api/projects")
    (ProjectBody (name p) ("https://github.com/" +:+ repo p)
       (Js.orElse (Framework_str (framework p)) "unknown")).

Definition containerRequest (this : AuditRunner.t) (projectId : string) : Request :=
  POST (AuditRunner.baseUrl (AuditRunner.config this) +:+ "/api/projects/" +:+ projectId
        +:+ "/ensure-container") NoBody.

Definition sessionRequest (this : AuditRunner.t) (p : C4Project) (projectId : string) : Request :=
  POST (AuditRunner.baseUrl (AuditRunner.config this) +:+ "/api/agent/sessions")
    (SessionBody ("Benchmark: " +:+ name p) projectId).

Definition chatRequest (this : AuditRunner.t) (sessionId message : string) : Request :=
  POST (AuditRunner.baseUrl (AuditRunner.config this) +:+ "/api/agent/sessions/" +:+ sessionId
        +:+ "/chat/stream") (ChatBody message).

Definition messagesRequest (this : AuditRunner.t) (sessionId : string) : Request :=
  GET (AuditRunner.baseUrl (AuditRunner.config this) +:+ "/api/agent/sessions/" +:+ sessionId
       +:+ "/messages").

Definition findingsRequest (this : AuditRunner.t) (projectId : string) : Request :=
  GET (AuditRunner.baseUrl (AuditRunner.config this) +:+ "/api/projects/" +:+ projectId
       +:+ "/findings").

(** * Sample data *)

Module Sample.

Definition host : Host :=
  {| toISOString := fun _ => "2026-01-01T00:00:00.000Z"; DD_VERSION := None;
     writeError := fun _ _ => None |}.

(** A host whose file system rejects every write of a checkpoint. *)
Definition readOnly : Host :=
  {| toISOString := fun _ => "2026-01-01T00:00:00.000Z"; DD_VERSION := None;
     writeError := fun _ f =>
       match data f with
       | CheckpointJson _ => Some "EROFS: read-only file system"
       | _ => None
       end |}.

(** A host whose file system rejects every write of a run result. *)
Definition noResults : Host :=
  {| toISOString := fun _ => "2026-01-01T00:00:00.000Z"; DD_VERSION := None;
     writeError := fun _ f =>
       match data f with
       | RunResultJson _ => Some "ENOSPC: no space left on device"
       | _ => None
       end |}.

Definition world : World :=
  {| clock := 0; requests := []; console := []; disk := []; lastSessionLogs := [] |}.

Definition project (n : string) : C4Project :=
  {| name := n; repo := "code-423n4/" +:+ n; status := pending; priority := 1;
     findingsFile := None; findingsFiles := None; scopeFile := None;
     framework := foundry; notes := None; lastRun := None |}.

Definition demo : C4Project := project "demo-proj".
Definition other : C4Project := project "other-proj".

Definition success {A} (a : A) : FetchResult A :=
  Responded {| res_status := 200; statusText := "OK"; res_text := ""; res_json := Some a |}.

Definition failure {A} (code : Z) : FetchResult A :=
  Responded {| res_status := code; statusText := "Internal Server Error";
               res_text := "boom"; res_json := None |}.

Definition said (who what : string) : Message :=
  {| role := who; content := Some [{| type := "text"; text := Some what |}] |}.

Definition runningSession : SessionData :=
  {| session_status := "running"; runningId := Some "run-1" |}.

Definition idleSession : SessionData :=
  {| session_status := "idle"; runningId := None |}.

Definition remoteFinding : RemoteFinding :=
  {| meta := {| meta_id := "f-1"; meta_title := "Reentrancy in withdraw";
                meta_severity := Some "High"; meta_file := Some "Vault.sol";
                meta_function := Some "withdraw"; meta_category := Some "reentrancy";
                meta_detector := Some "slither"; meta_confidence := Some "high";
                meta_analysis := None |};
     finding_content := "withdraw sends before it updates the balance" |}.

(** A backend that answers at once; its steps up to the chat succeed. *)
Definition script (ensure : FetchResult ContainerData)
    (session : nat -> FetchResult SessionData)
    (check : nat -> FetchResult (list Message))
    (final : FetchResult (list Message))
    (found : FetchResult (list RemoteFinding)) : Backend :=
  {| createProject_res := success "project-1";
     ensureContainer_res := ensure;
     createSession_res := success "session-1";
     chatStream_res := success {| started_runningId := "run-1"; eventStreamUrl := "/events" |};
     session_res := session;
     messagesCheck_res := check;
     messages_res := final;
     findings_res := found;
     latency := fun _ => 0%N |}.

Definition container : FetchResult ContainerData :=
  success {| containerId := "container-1"; wasCreated := true; wasRestarted := false |}.

Definition report : list Message :=
  [said "user" "audit"; said "assistant" "Slither reported 1 finding."].

Definition question : list Message :=
  [said "user" "audit";
   said "assistant" "Could you please provide the repository URL? Slither needs it."].

(** Running for two polls, then idle with a report. *)
Definition backend : Backend :=
  script container
    (fun k => if (k <? 3)%nat then success runningSession else success idleSession)
    (fun _ => success report) (success report) (success [remoteFinding]).

Definition containerDown : Backend :=
  script (failure 500)
    (fun k => if (k <? 3)%nat then success runningSession else success idleSession)
    (fun _ => success report) (success report) (success [remoteFinding]).

Definition findingsDown : Backend :=
  script container
    (fun k => if (k <? 3)%nat then success runningSession else success idleSession)
    (fun _ => success report) (success report) (failure 500).

(** Idle from the start, the agent asking for the repository. *)
Definition asksForRepository : Backend :=
  script container (fun _ => success idleSession)
    (fun _ => success question) (success question) (success []).



(** The status endpoint fails at the first poll. *)
Definition flaky : Backend :=
  script container
    (fun k => if (k =? 1)%nat then failure 503 else success idleSession)
    (fun _ => success report) (success report) (success [remoteFinding]).

Definition auditRunner (timeout : Z) : AuditRunner.t :=
  {| AuditRunner.config := {| AuditRunner.baseUrl := "http://localhost:3001";
                              AuditRunner.timeout := timeout |};
     AuditRunner.outputDir := "data" |}.

Definition groundTruthFinding (s : Severity) : Finding :=
  {| id := "gt"; title := "reported"; severity := s; description := "";
     category := None; file := None; function := None; lines := None; targets := [];
     rootCause := None; impact := None; recommendation := None;
     source := ground_truth_source; detector := None; confidence := None;
     raw := None; markdown := None; analysis := None |}.

Definition indexer : BenchmarkRunner.Indexer :=
  {| BenchmarkRunner.getGroundTruth :=
       fun _ => Returned [groundTruthFinding high; groundTruthFinding medium];
     BenchmarkRunner.groundTruthTime := fun _ => 0%N |}.

Definition benchmarkRunner : BenchmarkRunner.t :=
  {| BenchmarkRunner.indexer := indexer;
     BenchmarkRunner.auditRunner := auditRunner 30000;
     BenchmarkRunner.DATA_DIR := "data" |}.

Definition settings : BenchmarkScheduler.SchedulerSettings :=
  {| BenchmarkScheduler.maxConcurrentProjects := 1;
     BenchmarkScheduler.checkpointInterval := 300;
     BenchmarkScheduler.auditTimeout := 30;
     BenchmarkScheduler.maxRetries := 0;
     BenchmarkScheduler.retryDelay := 0 |}.

(** A scheduler just constructed. *)
Definition fresh : BenchmarkScheduler.t :=
  BenchmarkScheduler.create host 0 settings "data".

(** A scheduler whose checkpoint lists the names [done] as completed and
    the names [lost] as failed. *)
Definition resumed (done lost : list string) : BenchmarkScheduler.t :=
  BenchmarkScheduler.withCheckpoint
    {| currentProject := None; completedProjects := done; failedProjects := lost;
       lastCheckpoint := "2026-01-01T00:00:00.000Z" |} fresh.

Definition never : nat -> bool := fun _ => false.
Definition always : nat -> bool := fun _ => true.

(** An audit that fails for [other] and succeeds for every other project. *)
Definition audit (p : C4Project) : M World RunResult :=
  if String.eqb (name p) "other-proj" then throw "audit failed"
  else BenchmarkScheduler.runAuditBase host p.


(** A listener that fails on every event. *)
Definition grumpy : BenchmarkScheduler.EventHandler := fun _ => throw "listener failed".

(** The second request, the status request of the first poll when the
    world starts empty, takes 10 seconds. *)
Definition stalled : Backend :=
  {| createProject_res := success "project-1";
     ensureContainer_res := container;
     createSession_res := success "session-1";
     chatStream_res := success {| started_runningId := "run-1"; eventStreamUrl := "/events" |};
     session_res := fun _ => success idleSession;
     messagesCheck_res := fun _ => success report;
     messages_res := success report;
     findings_res := success [remoteFinding];
     latency := fun n => if (n =? 1)%nat then 10000%N else 0%N |}.

(** An indexer that finds no report. *)
Definition brokenIndexer : BenchmarkRunner.Indexer :=
  {| BenchmarkRunner.getGroundTruth := fun _ => Thrown "no report";
     BenchmarkRunner.groundTruthTime := fun _ => 0%N |}.

Definition blindRunner : BenchmarkRunner.t :=
  {| BenchmarkRunner.indexer := brokenIndexer;
     BenchmarkRunner.auditRunner := auditRunner 30000;
     BenchmarkRunner.DATA_DIR := "data" |}.

Definition ranked (n : string) (p : Z) : C4Project :=
  {| name := n; repo := "code-423n4/" +:+ n; status := pending; priority := p;
     findingsFile := None; findingsFiles := None; scopeFile := None;
     framework := foundry; notes := None; lastRun := None |}.

(** Two configured projects, the second of which comes first by priority. *)
Definition setup : Index.Setup :=
  {| Index.loadSettings :=
       Returned {| Index.scheduler := settings;
                   Index.github := {| Index.organization := "code-423n4";
                                      Index.projectPattern := "*";
                                      Index.requireFindings := true |} |};
     Index.loadProjects := Returned [ranked "late-proj" 2; demo];
     Index.DD_API_URL := None;
     Index.DATA_DIR := "data";
     Index.indexer := indexer;
     Index.discover := ret tt |}.

(** A preparer that finds no report for [other]. *)
Definition preparer : DatasetCli.DatasetPreparer :=
  {| DatasetCli.prepare :=
       fun p =>
         if String.eqb (name p) "other-proj" then throw "no report"
         else ret {| DatasetCli.metadata :=
                       {| DatasetCli.findingsCount := 2;
                          DatasetCli.bySeverity := [("high", 1%nat); ("medium", 1%nat)] |} |};
     DatasetCli.hasDataset := fun n => ret (String.eqb n "demo-proj") |}.

End Sample.

(** * Vocabulary of the further properties *)

(** The listeners write no file. *)
Definition leave_files (hs : list BenchmarkScheduler.EventHandler) : Prop :=
  forall hd ev w, hd ∈ hs -> disk (snd (hd ev w)) = disk w.

(** No listener fails to settle on [ev]. *)
Definition settle_on (ev : BenchmarkEvent) (hs : list BenchmarkScheduler.EventHandler) : Prop :=
  forall hd w, hd ∈ hs -> fst (hd ev w) <> Diverged.

(** What one listener makes of the world on [ev], its error reported. *)
Definition heard (ev : BenchmarkEvent) (w : World) (hd : BenchmarkScheduler.EventHandler) : World :=
  match hd ev w with
  | (Thrown e, w') => addLine (Err ("[Scheduler] Event handler error: " +:+ e)) w'
  | (_, w') => w'
  end.

(** The checkpoint file of the instance holds its checkpoint. *)
Definition checkpoint_on_disk (s : BenchmarkScheduler.t) (w : World) : Prop :=
  BenchmarkScheduler.loadCheckpoint (s, w)
  = (Returned (Some (CheckpointJson (BenchmarkScheduler.checkpoint s))), (s, w)).

(** The names of [projects] that [done] does not hold, in order. *)
Definition remaining (done : list string) (projects : list C4Project) : list string :=
  List.filter (fun n => negb (bool_decide (n ∈ done))) (map name projects).

(** [f] reads a part of the world that requests, timers and console
    output leave alone. *)
Definition framed {X} (f : World -> X) : Prop :=
  (forall r w, f (addRequest r w) = f w) /\
  (forall d w, f (advance d w) = f w) /\
  (forall l w, f (addLine l w) = f w).

(** The method leaves [f] as it found it. *)
Definition preserves {X A} (f : World -> X) (m : M World A) : Prop :=
  forall w, f (snd (m w)) = f w.

(** The method settles, within [d] milliseconds. *)
Definition within {A} (d : Z) (m : M World A) : Prop :=
  forall w, fst (m w) <> Diverged /\ clock w <= clock (snd (m w)) <= clock w + d.


(** Every poll finds the session idle, with no run in flight. *)
Definition idle (b : Backend) : Prop :=
  forall k, exists r,
    session_res b k = Responded r /\ ok r = true /\
    res_json r = Some {| session_status := "idle"; runningId := None |}.

(** The status request of the session. *)
Definition statusRequest (this : AuditRunner.t) (sessionId : string) : Request :=
  GET (AuditRunner.baseUrl (AuditRunner.config this) +:+ "/api/agent/sessions/" +:+ sessionId).

(** The text parts of a message, joined. *)
Definition textParts (m : Message) : string :=
  match content m with
  | Some parts =>
      Js.join (map (fun c => default "" (text c))
                 (List.filter (fun c => String.eqb (type c) "text") parts))
  | None => ""
  end.

(** The finding artifact of an audit that ends at the instant [t]. *)
Definition findingArtifact (h : Host) (this : AuditRunner.t) (p : C4Project)
    (t : Z) (findings : list Finding) : FileWrite :=
  {| path := pathJoin (pathJoin (pathJoin (AuditRunner.outputDir this) "runs") (name p))
               ("findings-" +:+ dashed (toISOString h t) +:+ ".json");
     data := FindingsJson findings |}.

(** No poll of the messages shows an assistant message. *)
Definition mute (b : Backend) : Prop :=
  forall k r messages,
    messagesCheck_res b k = Responded r -> res_json r = Some messages ->
    List.filter AuditRunner.isAssistant messages = [].

(** What [toFinding] makes of every record: a finding of the audit with
    an identifier and a title, located by its file alone. *)
Definition fromAudit (f : Finding) : Prop :=
  source f = dd_audit /\ id f <> "" /\ title f <> "" /\
  lines f = None /\
  targets f = match file f with
              | Some p => if Js.truthy p then [p] else []
              | None => []
              end.

(** The run result file of a run that ends at the instant [t]. *)
Definition runResultFile (h : Host) (this : BenchmarkRunner.t) (p : C4Project)
    (t : Z) (result : RunResult) : FileWrite :=
  {| path := pathJoin (pathJoin (pathJoin (BenchmarkRunner.DATA_DIR this) "runs") (name p))
               ("run-" +:+ dashed (toISOString h t) +:+ ".json");
     data := RunResultJson result |}.

(** The tools a finding names: its detector, and the tools of its
    analysis. *)
Definition namesTool (f : Finding) (x : string) : Prop :=
  (detector f = Some x /\ x <> "") \/
  (exists a ts, analysis f = Some a /\ tools a = Some ts /\ x ∈ ts).

(** The methods a finding names. *)
Definition namesMethod (f : Finding) (x : string) : Prop :=
  exists a ms, analysis f = Some a /\ methods a = Some ms /\ x ∈ ms.

(** The part of [s] before its first [c]; all of [s] when it has none. *)
Fixpoint upTo (c : ascii) (s : string) : string :=
  match s with
  | EmptyString => EmptyString
  | String a s' => if Ascii.eqb a c then EmptyString else String a (upTo c s')
  end.

(** The command names a branch of [main]. *)
Definition known (command : string) : bool :=
  (String.eqb command "run" || String.eqb command "discover" || String.eqb command "report")%bool.

(** The method issues only requests that satisfy [P]. *)
Definition talks {A} (P : Request -> Prop) (m : M World A) : Prop :=
  forall w, exists rs, requests (snd (m w)) = (requests w ++ rs)%list /\ Forall P rs.

(** The request goes to the backend the runner is configured with. *)
Definition toBackend (this : AuditRunner.t) (r : Request) : Prop :=
  exists rest, url r = AuditRunner.baseUrl (AuditRunner.config this) +:+ rest.

(** * Vocabulary of the steps of an audit *)

(** Every request from the [n]-th on is answered in less than 10 seconds. *)
Definition prompt_from (b : Backend) (n : nat) : Prop :=
  forall m, (n <= m)%nat -> Z.of_N (latency b m) < 10000.

(** The polls are answered: each with a response, which parses when it is
    a success. *)
Definition polls_answered (b : Backend) : Prop :=
  (forall k, answered (session_res b k)) /\ (forall k, answered (messagesCheck_res b k)).

(** The file system accepts every write. *)
Definition writable (h : Host) : Prop := forall w f, writeError h w f = None.

(** The completion wait of the audit of [p] started in [w] begins in [w1],
    [startTime] being the instant at which the chat was started: the
    requests of the four steps before it have been issued and answered,
    two seconds were given to the container and ten to the agent, nothing
    was written, and the session logs are empty. *)
Definition wait_begins (b : Backend) (this : AuditRunner.t) (p : C4Project)
    (projectId sessionId : string) (w w1 : World) (startTime : Z) : Prop :=
  let n := length (requests w) in
  requests w1
  = (requests w ++ [projectRequest this p;
                    containerRequest this projectId;
                    sessionRequest this p projectId;
                    chatRequest this sessionId
                      (AuditRunner.instruction ("https://github.com/" +:+ repo p))])%list /\
  startTime = clock w + Z.of_N (latency b n) + Z.of_N (latency b (S n)) + 2000
              + Z.of_N (latency b (S (S n))) + Z.of_N (latency b (S (S (S n)))) /\
  clock w1 = startTime + 10000 /\
  disk w1 = disk w /\
  lastSessionLogs w1 = [].

(** What a non-success response does to the audit of [p] started in [w],
    step by step, a response being one that arrives within the limit the
    request carries (5 minutes for the container, 30 seconds for the
    dispatch of the instruction and for the findings, 10 seconds for the
    read of the messages; project and session creation carry none).
    At project creation, container readiness, session creation, the
    dispatch of the instruction and the read of the messages that follows
    the wait, however the wait went, the audit throws, having issued no
    later request and written nothing.  At finding retrieval it logs a
    warning and goes on with an empty list, which it writes to a finding
    artifact and returns, unless the file system rejects that write. *)
Definition failure_by_step (h : Host) (b : Backend) (this : AuditRunner.t)
    (p : C4Project) (w : World) : Prop :=
  let n := length (requests w) in
  let message := AuditRunner.instruction ("https://github.com/" +:+ repo p) in
  let T := AuditRunner.timeout (AuditRunner.config this) in
  (forall r, fails (createProject_res b) r ->
     exists w',
       AuditRunner.runAudit h b this p w
       = (Thrown ("Failed to create project: " +:+ pretty (res_status r)
                  +:+ " " +:+ res_text r), w') /\
       requests w' = (requests w ++ [projectRequest this p])%list /\
       disk w' = disk w) /\
  (forall projectId, succeeds (createProject_res b) projectId ->
     Z.of_N (latency b (S n)) < 300000 ->
     (forall r, fails (ensureContainer_res b) r ->
        exists w',
          AuditRunner.runAudit h b this p w
          = (Thrown ("Failed to ensure container: " +:+ pretty (res_status r)
                     +:+ " " +:+ res_text r), w') /\
          requests w' = (requests w ++ [projectRequest this p;
                                        containerRequest this projectId])%list /\
          disk w' = disk w) /\
     (forall c, succeeds (ensureContainer_res b) c ->
        (forall r, fails (createSession_res b) r ->
           exists w',
             AuditRunner.runAudit h b this p w
             = (Thrown ("Failed to create session: " +:+ statusText r), w') /\
             requests w' = (requests w ++ [projectRequest this p;
                                           containerRequest this projectId;
                                           sessionRequest this p projectId])%list /\
             disk w' = disk w) /\
        (forall sessionId, succeeds (createSession_res b) sessionId ->
           Z.of_N (latency b (S (S (S n)))) < 30000 ->
           (forall r, fails (chatStream_res b) r ->
              exists w',
                AuditRunner.runAudit h b this p w
                = (Thrown ("Failed to start chat: " +:+ pretty (res_status r)
                           +:+ " " +:+ res_text r), w') /\
                requests w' = (requests w ++ [projectRequest this p;
                                              containerRequest this projectId;
                                              sessionRequest this p projectId;
                                              chatRequest this sessionId message])%list /\
                disk w' = disk w) /\
           (forall sd, succeeds (chatStream_res b) sd ->
              exists w1 startTime,
                wait_begins b this p projectId sessionId w w1 startTime /\
                forall polled w2,
                  AuditRunner.pollLoop b this (AuditRunner.pollFuel T) sessionId
                    startTime T 0 "" w1 = (Returned polled, w2) ->
                  Z.of_N (latency b (length (requests w2))) < 10000 ->
                  (exists polls, requests w2 = (requests w1 ++ polls)%list /\
                                 Forall (isPoll this) polls) /\
                  (forall r, fails (messages_res b) r ->
                     exists w',
                       AuditRunner.runAudit h b this p w
                       = (Thrown "Failed to get messages", w') /\
                       requests w' = (requests w2 ++ [messagesRequest this sessionId])%list /\
                       disk w' = disk w) /\
                  (forall messages, succeeds (messages_res b) messages ->
                     Z.of_N (latency b (S (length (requests w2)))) < 30000 ->
                     forall r, fails (findings_res b) r ->
                     exists w3,
                       requests w3 = (requests w2 ++ [messagesRequest this sessionId;
                                                      findingsRequest this projectId])%list /\
                       disk w3 = disk w /\
                       Warn ("[AuditRunner] Failed to get findings: " +:+ pretty (res_status r))
                         ∈ console w3 /\
                       match writeError h w3 (findingArtifact h this p (clock w3) []) with
                       | Some e => AuditRunner.runAudit h b this p w = (Thrown e, w3)
                       | None =>
                           exists w',
                             AuditRunner.runAudit h b this p w = (Returned [], w') /\
                             requests w' = requests w3 /\
                             disk w' = (disk w ++ [findingArtifact h this p (clock w3) []])%list
                       end))))).

(** * Properties *)

(** ** Strings *)

Lemma startsWith_spec (s p : string) :
  Js.startsWith s p = true <-> exists post, s = p +:+ post.
Proof.
  revert s. induction p as [|a p IH]; intros s; simpl.
  - split; [intros _; exists s; reflexivity | reflexivity].
  - destruct s as [|c s]; simpl.
    + split; [discriminate | intros [post H]; discriminate].
    + destruct (Ascii.eqb a c) eqn:E.
      * apply Ascii.eqb_eq in E as ->. rewrite IH.
        split; intros [post H]; exists post; [by rewrite H | by injection H].
      * apply Ascii.eqb_neq in E. split; [discriminate|].
        intros [post H]. injection H as -> _. done.
Qed.

Lemma includes_spec (s n : string) :
  Js.includes s n = true <-> substring n s.
Proof.
  unfold substring. induction s as [|c s IH]; simpl.
  - rewrite startsWith_spec. split.
    + intros [post H]. exists "", post. exact H.
    + intros [[|a pre] [post H]]; simpl in H; [by exists post | discriminate].
  - rewrite orb_true_iff, IH. split.
    + intros [H | (pre & post & ->)].
      * apply (startsWith_spec (String c s)) in H as [post H].
        exists "", post. exact H.
      * exists (String c pre), post. reflexivity.
    + intros [[|a pre] [post H]]; simpl in H.
      * left. apply (startsWith_spec (String c s)). by exists post.
      * right. injection H as -> ->. by exists pre, post.
Qed.

Lemma includes_false (s n : string) :
  Js.includes s n = false <-> ~ substring n s.
Proof. rewrite <- includes_spec. by destruct (Js.includes s n). Qed.

Lemma toLowerCase_truthy (s : string) :
  Js.truthy (Js.toLowerCase s) = Js.truthy s.
Proof. by destruct s. Qed.

(** ** Severity normalization *)

Lemma normalizeSeverity_text (s : string) :
  s <> "" ->
  AuditRunner.normalizeSeverity (Some s) =
    let lower := Js.toLowerCase s in
    if Js.includes lower "crit" then critical
    else if Js.includes lower "high" then high
    else if Js.includes lower "med" then medium
    else if Js.includes lower "low" then low
    else info.
Proof. intros H. unfold AuditRunner.normalizeSeverity. by destruct s. Qed.

(** C1, as stated, fails: an input that matches no fragment is mapped to
    [info], not to [medium]. *)
Lemma normalizeSeverity_unrecognized_is_info :
  unrecognized "unknown" /\
  AuditRunner.normalizeSeverity (Some "unknown") = info /\
  AuditRunner.normalizeSeverity (Some "unknown") <> medium.
Proof.
  split; [|split; [reflexivity | discriminate]].
  unfold unrecognized. rewrite <- !includes_false. by vm_compute.
Qed.

(** C1, amended: normalization is total and idempotent; an absent or empty
    input gives [medium]; any other input is classified by the first of
    the fragments crit, high, med, low that its lower-cased text contains,
    and gives [info] when it contains none; inputs that differ only in
    case are classified alike. *)
Theorem normalizeSeverity_total_idempotent (o : option string) :
  AuditRunner.normalizeSeverity o ∈ all_severities /\
  AuditRunner.normalizeSeverity (Some (Severity_str (AuditRunner.normalizeSeverity o)))
    = AuditRunner.normalizeSeverity o /\
  (absent o -> AuditRunner.normalizeSeverity o = medium) /\
  (forall s, o = Some s -> s <> "" ->
     let l := Js.toLowerCase s in
     (AuditRunner.normalizeSeverity o = critical <-> substring "crit" l) /\
     (AuditRunner.normalizeSeverity o = high <->
        ~ substring "crit" l /\ substring "high" l) /\
     (AuditRunner.normalizeSeverity o = medium <->
        ~ substring "crit" l /\ ~ substring "high" l /\ substring "med" l) /\
     (AuditRunner.normalizeSeverity o = low <->
        ~ substring "crit" l /\ ~ substring "high" l /\ ~ substring "med" l /\
        substring "low" l) /\
     (AuditRunner.normalizeSeverity o = info <-> unrecognized s)) /\
  (forall s s', o = Some s -> Js.toLowerCase s' = Js.toLowerCase s ->
     AuditRunner.normalizeSeverity (Some s') = AuditRunner.normalizeSeverity o).
Proof.
  split; [|split; [|split; [|split]]].
  - unfold all_severities. destruct (AuditRunner.normalizeSeverity o); set_solver.
  - by destruct (AuditRunner.normalizeSeverity o).
  - intros [-> | ->]; reflexivity.
  - intros s -> Hs l. rewrite normalizeSeverity_text by done. fold l.
    unfold unrecognized. fold l.
    rewrite <- !includes_false, <- !includes_spec. simpl.
    destruct (Js.includes l "crit"), (Js.includes l "high"),
      (Js.includes l "med"), (Js.includes l "low");
      intuition (discriminate || congruence).
  - intros s s' -> Hl. unfold AuditRunner.normalizeSeverity.
    rewrite <- (toLowerCase_truthy s), <- (toLowerCase_truthy s'), Hl. done.
Qed.

(** An upper-case input, its lower-case form and the empty input. *)
Lemma normalizeSeverity_total_idempotent_witness :
  AuditRunner.normalizeSeverity (Some "HIGH risk") = high /\
  AuditRunner.normalizeSeverity (Some "high risk") = high /\
  AuditRunner.normalizeSeverity (Some "") = medium.
Proof.
  pose proof (normalizeSeverity_total_idempotent (Some "HIGH risk")) as (_ & _ & _ & H & Hc).
  pose proof (normalizeSeverity_total_idempotent (Some "")) as (_ & _ & Ha & _).
  split; [|split].
  - apply (H "HIGH risk" eq_refl); [discriminate|].
    rewrite <- includes_false, <- includes_spec. by vm_compute.
  - rewrite (Hc "HIGH risk" "high risk" eq_refl eq_refl).
    apply (H "HIGH risk" eq_refl); [discriminate|].
    rewrite <- includes_false, <- includes_spec. by vm_compute.
  - apply Ha. by right.
Defined.

(** ** The run result *)

Lemma Severity_str_inj (s s' : Severity) :
  Severity_str s = Severity_str s' -> s = s'.
Proof. by destruct s, s'. Qed.

Lemma histogramTotal_insert (m : gmap string nat) (k : string) (n : nat) :
  histogramTotal (<[k:=n]> m) = (n + histogramTotal m - default 0 (m !! k))%nat.
Proof.
  unfold histogramTotal.
  destruct (m !! k) as [v|] eqn:E; simpl.
  - rewrite <- (insert_delete_eq m k n).
    rewrite map_fold_insert_L; [| intros; lia | apply lookup_delete_eq].
    rewrite (map_fold_delete_L _ _ k v m); [lia | intros; lia | done].
  - rewrite map_fold_insert_L; [lia | intros; lia | done].
Qed.

Lemma histogramTotal_lookup (m : gmap string nat) (k : string) :
  (default 0 (m !! k) <= histogramTotal m)%nat.
Proof.
  destruct (m !! k) as [v|] eqn:E; simpl; [|lia].
  unfold histogramTotal.
  rewrite (map_fold_delete_L _ _ k v m); [lia | intros; lia | done].
Qed.

Lemma histogramTotal_countSeverity (m : gmap string nat) (f : Finding) :
  histogramTotal (BenchmarkRunner.countSeverity m f) = S (histogramTotal m).
Proof.
  unfold BenchmarkRunner.countSeverity. rewrite histogramTotal_insert.
  pose proof (histogramTotal_lookup m (Severity_str (severity f))). lia.
Qed.

Lemma histogramTotal_foldl (G : list Finding) (m : gmap string nat) :
  histogramTotal (foldl BenchmarkRunner.countSeverity m G)
  = (histogramTotal m + length G)%nat.
Proof.
  revert m. induction G as [|f G IH]; intros m; simpl; [lia|].
  rewrite IH, histogramTotal_countSeverity. lia.
Qed.

Lemma countSeverity_foldl_lookup (G : list Finding) (m : gmap string nat) (s : Severity) :
  foldl BenchmarkRunner.countSeverity m G !! Severity_str s =
    match countOf s G with
    | O => m !! Severity_str s
    | S _ => Some (default 0 (m !! Severity_str s) + countOf s G)%nat
    end.
Proof.
  revert m. induction G as [|f G IH]; intros m; [done|].
  simpl. rewrite IH. unfold countOf, BenchmarkRunner.countSeverity. simpl.
  case_bool_decide as Hs; simpl.
  - rewrite Hs, lookup_insert_eq. simpl.
    destruct (length _); f_equal; lia.
  - rewrite lookup_insert_ne; [done|].
    intros H. by apply Severity_str_inj in H.
Qed.

Lemma countSeverity_foldl_other (G : list Finding) (m : gmap string nat) (k : string) :
  k ∉ map Severity_str all_severities ->
  foldl BenchmarkRunner.countSeverity m G !! k = m !! k.
Proof.
  intros Hk. revert m. induction G as [|f G IH]; intros m; [done|].
  simpl. rewrite IH. unfold BenchmarkRunner.countSeverity.
  rewrite lookup_insert_ne; [done|].
  intros <-. apply Hk. unfold all_severities.
  destruct (severity f); set_solver.
Qed.

(** C8: the run result built from [G] and [D] counts [G], maps each
    severity that occurs in [G] to its number of occurrences and has no
    other key, so that the counts sum to the total; it counts [D]; and it
    carries [G] and [D] unchanged. *)
Theorem buildRunResult_counts (h : Host) (instant : Z) (p : C4Project)
    (G D : list Finding) (d : Z) :
  let r := BenchmarkRunner.buildRunResult h instant p G D d in
  gt_total (ground_truth r) = length G /\
  (forall s : Severity,
     by_severity (ground_truth r) !! Severity_str s =
       match countOf s G with O => None | S n => Some (S n) end) /\
  (forall k : string,
     k ∉ map Severity_str all_severities -> by_severity (ground_truth r) !! k = None) /\
  histogramTotal (by_severity (ground_truth r)) = gt_total (ground_truth r) /\
  dd_total (dd_findings r) = length D /\
  gt_findings (ground_truth r) = G /\
  dd_list (dd_findings r) = D.
Proof.
  simpl. repeat split.
  - intros s. rewrite countSeverity_foldl_lookup, lookup_empty. by destruct (countOf s G).
  - intros k Hk. by rewrite countSeverity_foldl_other.
  - rewrite histogramTotal_foldl. done.
Qed.

(** ** The scheduler *)

Section Scheduler.

Import BenchmarkScheduler.

Variable h : Host.
Variable eventHandlers : list EventHandler.
Variable runAudit : C4Project -> M World RunResult.
Variable signalled : nat -> bool.

Abbreviation emit := (emit eventHandlers).
Abbreviation saveCheckpoint := (saveCheckpoint h eventHandlers).
Abbreviation awaitAudit := (awaitAudit runAudit signalled).
Abbreviation attempt := (attempt h eventHandlers runAudit signalled).
Abbreviation loop := (loop h eventHandlers runAudit signalled).
Abbreviation runBenchmark := (runBenchmark h eventHandlers runAudit signalled).
Abbreviation start := (start h eventHandlers runAudit signalled).

(** A listener that throws is caught: emitting never throws. *)
Lemma emitTo_settles (hs : list EventHandler) (ev : BenchmarkEvent) (w : World) :
  exists w', emitTo hs ev w = (Returned tt, w') \/
             (emitTo hs ev w = (Diverged, w') /\ handler_diverges hs).
Proof.
  revert w. induction hs as [|hd hs IH]; intros w; simpl.
  - exists w. by left.
  - unfold bind, tryCatch.
    destruct (hd ev w) as [[[]|e|] w1] eqn:Ehd.
    + destruct (IH w1) as [w' [E|[E (hd' & ev' & w0 & Hin & Hd)]]]; exists w'; [by left|].
      right. split; [done|]. exists hd', ev', w0. set_solver.
    + simpl.
      destruct (IH (addLine (Err ("[Scheduler] Event handler error: " +:+ e)) w1))
        as [w' [E|[E (hd' & ev' & w0 & Hin & Hd)]]]; exists w'; [by left|].
      right. split; [done|]. exists hd', ev', w0. set_solver.
    + exists w1. right. split; [done|]. exists hd, ev, w. rewrite Ehd. set_solver.
Qed.

Lemma emit_settles (ev : BenchmarkEvent) (s : t) (w : World) :
  exists w', emit ev (s, w) = (Returned tt, (s, w')) \/
             (emit ev (s, w) = (Diverged, (s, w')) /\ handler_diverges eventHandlers).
Proof.
  unfold BenchmarkScheduler.emit, inWorld. simpl.
  destruct (emitTo_settles eventHandlers ev w) as [w' [E|[E Hd]]]; rewrite E; eauto.
Qed.

Ltac settle_emit :=
  match goal with
  | |- context [BenchmarkScheduler.emit _ ?ev (?s, ?w)] =>
      let w' := fresh "w" in
      let E := fresh "E" in
      let Hd := fresh "Hd" in
      destruct (emit_settles ev s w) as [w' [E|[E Hd]]]; rewrite E; simpl
  end.

(** Saving the checkpoint stamps it, and throws only when the file system
    rejects the write. *)
Lemma saveCheckpoint_settles (s : t) (w : World) :
  exists w',
    saveCheckpoint (s, w) = (Returned tt, (stamped (toISOString h (clock w)) s, w')) \/
    (exists e, saveCheckpoint (s, w) = (Thrown e, (stamped (toISOString h (clock w)) s, w')) /\
               checkpoint_rejected h s e) \/
    (saveCheckpoint (s, w) = (Diverged, (stamped (toISOString h (clock w)) s, w')) /\
     handler_diverges eventHandlers).
Proof.
  unfold BenchmarkScheduler.saveCheckpoint, bind, inWorld, now, update, self, writeFile. simpl.
  fold (stamped (toISOString h (clock w)) s).
  destruct (writeError h w _) as [e|] eqn:Ew.
  - exists w. right. left. exists e. split; [done|]. by exists w, (checkpoint (stamped (toISOString h (clock w)) s)).
  - settle_emit; eauto.
Qed.

Ltac settle_save :=
  match goal with
  | |- context [BenchmarkScheduler.saveCheckpoint _ _ (?s, ?w)] =>
      let w' := fresh "w" in
      let e := fresh "e" in
      let E := fresh "E" in
      let Hd := fresh "Hd" in
      destruct (saveCheckpoint_settles s w) as [w' [E|[(e & E & Hd)|[E Hd]]]]; rewrite E; simpl
  end.

Lemma attempt_outcome (p : C4Project) (s : t) (w : World) :
  attempt_post h eventHandlers runAudit signalled p s (attempt p (s, w)).
Proof.
  unfold BenchmarkScheduler.attempt.
  unfold bind at 1. unfold update at 1. simpl.
  unfold bind at 1. unfold inWorld at 1, now. simpl.
  unfold bind at 1.
  settle_emit; [|by auto].
  unfold bind at 1. unfold tryCatch at 1. unfold bind at 1.
  unfold BenchmarkScheduler.awaitAudit at 1.
  unfold bind at 1. unfold self at 1. simpl.
  unfold bind at 1. unfold update at 1. simpl.
  unfold bind at 1.
  destruct (signalled (length (audited s))) eqn:Esig;
    unfold stop, ret, inWorld, consoleLog, update, bind; simpl;
    match goal with
    | |- context [runAudit p ?w1] => destruct (runAudit p w1) as [[res|e|] w2] eqn:Ea
    end; simpl.
  all: repeat (settle_emit || settle_save).
  all: try (simpl; split; [|split]; auto; fail).
  all: try (simpl; split; [|split]; auto; left; eexists; by erewrite Ea).
  all: unfold attempt_post.
  all: try (split; [|destruct Hd as (w9 & c9 & Hw); by exists w9, c9]).
  all: first [ solve [exists true; eexists _, _, w2;
                      (split; [unfold attempted; rewrite Esig; reflexivity | eauto])]
             | exists false; eexists _, _, w2;
               (split; [unfold attempted; rewrite Esig; reflexivity | eauto]) ].
Qed.

Lemma attempted_audited (p : C4Project) (b : bool) (l : string) (s : t) :
  audited (stamped l (attempted signalled p b s)) = (audited s ++ [name p])%list.
Proof. unfold stamped, attempted. by destruct (signalled _). Qed.

Lemma attempted_shouldStop (p : C4Project) (b : bool) (l : string) (s : t) :
  shouldStop (stamped l (attempted signalled p b s))
  = (signalled (length (audited s)) || shouldStop s)%bool.
Proof. unfold stamped, attempted. by destruct (signalled _). Qed.

Lemma attempted_isRunning (p : C4Project) (b : bool) (l : string) (s : t) :
  isRunning (stamped l (attempted signalled p b s)) = isRunning s.
Proof. unfold stamped, attempted. by destruct (signalled _). Qed.

Lemma attempted_completed (p : C4Project) (b : bool) (l : string) (s : t) :
  completedProjects (checkpoint (stamped l (attempted signalled p b s)))
  = if b then (completedProjects (checkpoint s) ++ [name p])%list
    else completedProjects (checkpoint s).
Proof. unfold stamped, attempted. by destruct (signalled _), b. Qed.

Lemma attempted_failed (p : C4Project) (b : bool) (l : string) (s : t) :
  failedProjects (checkpoint (stamped l (attempted signalled p b s)))
  = if b then failedProjects (checkpoint s)
    else (failedProjects (checkpoint s) ++ [name p])%list.
Proof. unfold stamped, attempted. by destruct (signalled _), b. Qed.

Lemma attempted_current (p : C4Project) (b : bool) (l : string) (s : t) :
  currentProject (checkpoint (stamped l (attempted signalled p b s))) = None.
Proof. unfold stamped, attempted. by destruct (signalled _), b. Qed.

Lemma attempted_dataDir (p : C4Project) (b : bool) (l : string) (s : t) :
  dataDir (stamped l (attempted signalled p b s)) = dataDir s.
Proof. unfold stamped, attempted. by destruct (signalled _). Qed.

Lemma checkpoint_rejected_dataDir (s s' : t) (e : string) :
  dataDir s' = dataDir s -> checkpoint_rejected h s' e -> checkpoint_rejected h s e.
Proof. intros Hd (w0 & c & Hw). exists w0, c. by rewrite <- Hd. Qed.

(** The three ways a turn of the loop can go. *)
Lemma loop_stop (p : C4Project) (rest : list C4Project) (s : t) (w : World) :
  shouldStop s = true -> loop (p :: rest) (s, w) = (Returned tt, (s, w)).
Proof. intros H. simpl. unfold bind, self. simpl. by rewrite H. Qed.

Lemma loop_skip (p : C4Project) (rest : list C4Project) (s : t) (w : World) :
  shouldStop s = false ->
  name p ∈ completedProjects (checkpoint s) ->
  loop (p :: rest) (s, w)
  = loop rest (s, addLine (Log ("[Scheduler] Skipping completed project: " +:+ name p)) w).
Proof.
  intros H Hin. simpl. unfold bind at 1, self. simpl. rewrite H.
  rewrite bool_decide_true by done. reflexivity.
Qed.

Lemma loop_attempt (p : C4Project) (rest : list C4Project) (s : t) (w : World) :
  shouldStop s = false ->
  name p ∉ completedProjects (checkpoint s) ->
  loop (p :: rest) (s, w)
  = match attempt p (s, w) with
    | (Returned _, sw) => loop rest sw
    | (Thrown e, sw) => (Thrown e, sw)
    | (Diverged, sw) => (Diverged, sw)
    end.
Proof.
  intros H Hin. simpl. unfold bind at 1, self. simpl. rewrite H.
  rewrite bool_decide_false by done. reflexivity.
Qed.

(** However it ends, the loop only appends to the list of audited
    projects, and what it appends was not completed when it started. *)
Lemma loop_trace (projects : list C4Project) (s : t) (w : World) :
  exists new c,
    audited (fst (snd (loop projects (s, w)))) = (audited s ++ new)%list /\
    completedProjects (checkpoint (fst (snd (loop projects (s, w)))))
    = (completedProjects (checkpoint s) ++ c)%list /\
    (forall P, P ∈ new -> P ∉ completedProjects (checkpoint s)) /\
    (forall P, P ∈ new -> P ∈ map name projects).
Proof.
  revert s w. induction projects as [|p rest IH]; intros s w.
  - simpl. exists [], []. rewrite !app_nil_r. set_solver.
  - destruct (shouldStop s) eqn:Hstop.
    { rewrite loop_stop by done. exists [], []. rewrite !app_nil_r. set_solver. }
    destruct (decide (name p ∈ completedProjects (checkpoint s))) as [Hin|Hin].
    { rewrite loop_skip by done.
      destruct (IH s (addLine (Log ("[Scheduler] Skipping completed project: " +:+ name p)) w))
        as (new & c & ? & ? & ? & ?).
      exists new, c; set_solver. }
    rewrite loop_attempt by done.
    pose proof (attempt_outcome p s w) as Hpost.
    destruct (BenchmarkScheduler.attempt _ _ _ _ p _) as [[[]|e|] [s1 w1]].
    + destruct Hpost as (b & l & w2 & w3 & -> & _).
      destruct (IH (stamped l (attempted signalled p b s)) w1) as (new & c & Ha & Hc & Hn & Hm).
      rewrite attempted_audited in Ha; rewrite attempted_completed in Hc, Hn.
      exists (name p :: new), (if b then name p :: c else c).
      split; [by rewrite Ha, <- app_assoc|].
      split; [destruct b; by rewrite Hc, <- ?app_assoc|].
      split; intros P [->|HP]%elem_of_cons; [done| |set_solver|set_solver].
      specialize (Hn P HP); destruct b; set_solver.
    + destruct Hpost as ((b & l & w2 & w3 & -> & _) & _). cbn [fst snd].
      rewrite attempted_audited, attempted_completed.
      exists [name p], (if b then [name p] else []).
      split; [done|]. split; [destruct b; by rewrite ?app_nil_r|]. set_solver.
    + simpl in Hpost. destruct Hpost as ([Ha|Ha] & [Hc|Hc] & _); simpl.
      * exists [], []. rewrite !app_nil_r. set_solver.
      * exists [], [name p]. rewrite !app_nil_r. set_solver.
      * exists [name p], []. rewrite !app_nil_r. set_solver.
      * exists [name p], [name p]. set_solver.
Qed.

Lemma runBenchmark_inv (projects : list C4Project) (s s' : t) (w w' : World) (o : Outcome unit) :
  runBenchmark projects (s, w) = (o, (s', w')) ->
  exists w1, loop projects (s, w) = (o, (s', w1)).
Proof.
  unfold BenchmarkScheduler.runBenchmark. unfold bind at 1. cbv beta.
  destruct (BenchmarkScheduler.loop _ _ _ _ _ _) as [[[]|e|] [s1 w1]].
  - unfold bind, self, inWorld, consoleLog. simpl. intros [= <- <- <-]. eauto.
  - intros [= <- <- <-]. eauto.
  - intros [= <- <- <-]. eauto.
Qed.

(** C4: a project that the checkpoint lists as completed is skipped without
    an attempt: whatever the run does from there, and however it ends, the
    audits it starts are not for that project. *)
Theorem completed_project_never_audited (projects : list C4Project) (P : string)
    (s s' : t) (w w' : World) (o : Outcome unit) :
  P ∈ completedProjects (checkpoint s) ->
  runBenchmark projects (s, w) = (o, (s', w')) ->
  exists new, audited s' = (audited s ++ new)%list /\ P ∉ new.
Proof.
  intros HP H. apply runBenchmark_inv in H as [w1 H].
  pose proof (loop_trace projects s w) as Ht. rewrite H in Ht.
  destruct Ht as (new & c & Ha & _ & Hn & _); exists new; split; [done|].
  intros Hin; by apply (Hn P Hin).
Qed.

(** C5: a stop request that arrives while a project is in flight does not
    cut the project short.  The turn of that project is all that is left of
    the loop, and it settles when the audit and the listeners do.  Whether
    it then returns or throws, the outcome of the audit has been recorded
    in one of the two lists, the current project has been cleared and the
    flag is set; it throws only when the file system rejects the write of
    the checkpoint, which comes after the outcome is recorded.  No later
    project of the list is started. *)
Theorem stop_takes_effect_at_project_boundary (p : C4Project)
    (rest : list C4Project) (s : t) (w : World) :
  shouldStop s = false ->
  name p ∉ completedProjects (checkpoint s) ->
  signalled (length (audited s)) = true ->
  loop (p :: rest) (s, w) = attempt p (s, w) /\
  match attempt p (s, w) with
  | (Diverged, _) => audit_diverges runAudit p \/ handler_diverges eventHandlers
  | (o, (s', _)) =>
      shouldStop s' = true /\
      audited s' = (audited s ++ [name p])%list /\
      currentProject (checkpoint s') = None /\
      (exists w1 w2,
         (exists res, runAudit p w1 = (Returned res, w2) /\
            completedProjects (checkpoint s') = (completedProjects (checkpoint s) ++ [name p])%list /\
            failedProjects (checkpoint s') = failedProjects (checkpoint s)) \/
         (exists e, runAudit p w1 = (Thrown e, w2) /\
            completedProjects (checkpoint s') = completedProjects (checkpoint s) /\
            failedProjects (checkpoint s') = (failedProjects (checkpoint s) ++ [name p])%list)) /\
      (forall e, o = Thrown e -> checkpoint_rejected h s e)
  end.
Proof.
  intros Hstop Hin Hsig. rewrite loop_attempt by done.
  pose proof (attempt_outcome p s w) as Hpost.
  destruct (BenchmarkScheduler.attempt _ _ _ _ p _) as [[[]|e|] [s1 w1]].
  - destruct Hpost as (b & l & w2 & w3 & -> & Hb).
    split.
    + destruct rest as [|q rest]; [done|].
      apply loop_stop. by rewrite attempted_shouldStop, Hsig.
    + rewrite attempted_shouldStop, Hsig, attempted_audited, attempted_current,
        attempted_completed, attempted_failed.
      do 3 (split; [done|]). split; [|done]. exists w2, w3.
      destruct b; [left | right]; destruct Hb as [x Hx]; eauto.
  - destruct Hpost as ((b & l & w2 & w3 & -> & Hb) & Hrej).
    split; [done|].
    rewrite attempted_shouldStop, Hsig, attempted_audited, attempted_current,
      attempted_completed, attempted_failed.
    do 3 (split; [done|]). split; [|by intros e' [= <-]]. exists w2, w3.
    destruct b; [left | right]; destruct Hb as [x Hx]; eauto.
  - split; [done|]. simpl in Hpost. tauto.
Qed.

(** With no stop request, the loop leaves the flag as it found it. *)
Lemma loop_accounts (projects : list C4Project) (s s' : t) (w w' : World) :
  (forall n, signalled n = false) ->
  shouldStop s = false ->
  NoDup (map name projects) ->
  (forall P, P ∈ map name projects -> P ∉ completedProjects (checkpoint s)) ->
  loop projects (s, w) = (Returned tt, (s', w')) ->
  exists c f,
    completedProjects (checkpoint s') = (completedProjects (checkpoint s) ++ c)%list /\
    failedProjects (checkpoint s') = (failedProjects (checkpoint s) ++ f)%list /\
    (c ++ f)%list ≡ₚ map name projects /\
    isRunning s' = isRunning s.
Proof.
  intros Hsig. revert s w. induction projects as [|p rest IH]; intros s w Hstop Hnd Hfresh.
  - simpl. intros [= <- <-]. exists [], []. by rewrite !app_nil_r.
  - rewrite loop_attempt; [|done|apply Hfresh; set_solver].
    pose proof (attempt_outcome p s w) as Hpost.
    destruct (BenchmarkScheduler.attempt _ _ _ _ p _) as [[[]|e|] [s1 w1]]; [|done|done].
    destruct Hpost as (b & l & w2 & w3 & -> & _). intros Hloop.
    simpl in Hnd. apply list.NoDup_cons in Hnd as [Hp Hnd].
    apply IH in Hloop as (c & f & Hc & Hf & Hperm & Hrun); [|by rewrite attempted_shouldStop, Hsig, Hstop |done|].
    + rewrite attempted_completed in Hc. rewrite attempted_failed in Hf.
      rewrite attempted_isRunning in Hrun.
      destruct b.
      * exists (name p :: c), f. rewrite Hc, Hf, <- app_assoc. simpl.
        split; [done|]. split; [done|]. split; [by constructor | done].
      * exists c, (name p :: f). rewrite Hc, Hf, <- app_assoc. simpl.
        split; [done|]. split; [done|]. split; [|done].
        rewrite <- Permutation_middle. by constructor.
    + intros P HP. rewrite attempted_completed.
      assert (P ∉ completedProjects (checkpoint s)) by (apply Hfresh; set_solver).
      destruct b; [|done]. set_solver.
Qed.

Lemma start_inv (projects : list C4Project) (s s' : t) (w w' : World) :
  isRunning s = false ->
  start projects (s, w) = (Returned tt, (s', w')) ->
  exists s1 w0 w1,
    loop projects (withStop false (withRunning true s), w0) = (Returned tt, (s1, w1)) /\
    s' = withRunning false s1.
Proof.
  intros Hrun. unfold BenchmarkScheduler.start.
  unfold bind at 1, self at 1. simpl. rewrite Hrun.
  unfold bind at 1, update at 1. simpl.
  unfold bind at 1, update at 1. simpl.
  unfold bind at 1, inWorld at 1, consoleLog at 1. simpl.
  unfold tryFinally.
  destruct (BenchmarkScheduler.runBenchmark _ _ _ _ _ _) as [[[]|e|] [s1 w1]] eqn:E;
    simpl; [|done|done].
  intros [= <- <-]. apply runBenchmark_inv in E as [w2 E]. eauto.
Qed.

(** C3, amended: for a list of N projects with pairwise distinct names, a
    run from an empty checkpoint that ends without a stop request has
    recorded every project in exactly one of the two lists:
    [completedProjects] followed by [failedProjects] is a rearrangement of
    the names, so the two lengths add up to N. *)
Theorem start_records_every_project (projects : list C4Project)
    (s s' : t) (w w' : World) :
  isRunning s = false ->
  completedProjects (checkpoint s) = [] ->
  failedProjects (checkpoint s) = [] ->
  NoDup (map name projects) ->
  (forall n, signalled n = false) ->
  start projects (s, w) = (Returned tt, (s', w')) ->
  (completedProjects (checkpoint s') ++ failedProjects (checkpoint s'))%list
    ≡ₚ map name projects /\
  (length (completedProjects (checkpoint s')) + length (failedProjects (checkpoint s'))
   = length projects)%nat.
Proof.
  intros Hrun Hc Hf Hnd Hsig Hstart.
  apply start_inv in Hstart as (s1 & w0 & w1 & Hloop & ->); [|done].
  apply loop_accounts in Hloop as (c & f & Hc' & Hf' & Hperm & _); [|done|done|done|].
  - simpl in *. rewrite Hc in Hc'. rewrite Hf in Hf'. simpl in Hc', Hf'.
    rewrite Hc', Hf'. split; [done|].
    rewrite <- length_app, Hperm. by rewrite length_map.
  - simpl. rewrite Hc. set_solver.
Qed.



End Scheduler.

(** ** The completion detector *)

Section Detector.

Import AuditRunner.

Variable b : Backend.
Variable this : AuditRunner.t.

Abbreviation pollBody := (AuditRunner.pollBody b this).
Abbreviation pollLoop := (AuditRunner.pollLoop b this).

Ltac pose_latency HL n :=
  let T := type of (HL n) in
  lazymatch goal with
  | _ : T |- _ => fail
  | _ => pose proof (HL n)
  end.

Ltac bound_latencies HL :=
  repeat match goal with
         | H : (_ <=? _) = true |- _ => apply Z.leb_le in H
         | H : (_ <=? _) = false |- _ => apply Z.leb_gt in H
         end;
  repeat match goal with
         | |- context [latency b ?n] => pose_latency HL n
         | H : context [latency b ?n] |- _ => pose_latency HL n
         end.

(** A turn of the loop settles; it takes no longer than its two requests
    and one sleep of 15 seconds, and 5 seconds or more when the loop goes
    on. *)
Lemma pollBody_clock (L : Z) (sessionId : string) (pollCount : nat)
    (lastStatus : string) (w : World) :
  latency_within b L ->
  match pollBody sessionId pollCount lastStatus w with
  | (Returned (Continue _), w') => clock w + 5000 <= clock w' <= clock w + 15000 + 2 * L
  | (Returned Break, w') => clock w <= clock w' <= clock w + 2 * L
  | (Thrown _, w') => clock w <= clock w' <= clock w + 2 * L
  | (Diverged, _) => False
  end.
Proof.
  intros HL. unfold latency_within in HL.
  unfold AuditRunner.pollBody, AuditRunner.inspectMessages, fetch, bind, jsonOf, ret, throw,
    sleep, consoleLog, consoleWarn.
  repeat (case_match; simplify_eq/=; try (bound_latencies HL; lia)).
Qed.

Lemma latency_within_10000 : latency_within b 10000.
Proof. intros n. lia. Qed.

(** The loop never runs out of turns when it is given 5 seconds a turn. *)
Lemma pollLoop_settles (fuel : nat) (sessionId : string) (startTime timeout : Z)
    (pollCount : nat) (lastStatus : string) (w : World) :
  timeout - (clock w - startTime) <= 5000 * Z.of_nat fuel ->
  fst (pollLoop fuel sessionId startTime timeout pollCount lastStatus w) <> Diverged.
Proof.
  revert pollCount lastStatus w.
  induction fuel as [|fuel IH]; intros pollCount lastStatus w Hfuel; simpl.
  - case_match; [|done]. apply Z.ltb_lt in H. lia.
  - case_match; [|done].
    pose proof (pollBody_clock 10000 sessionId (S pollCount) lastStatus w latency_within_10000) as Hc.
    destruct (AuditRunner.pollBody _ _ _ _ _ _) as [[[ls|]|e|] w']; try done.
    apply IH. lia.
Qed.

(** When the loop is left, by whatever way, less than a sleep of 15 seconds
    and the two requests of a turn have passed since the timeout. *)
Lemma pollLoop_clock (L : Z) (fuel : nat) (sessionId : string) (startTime timeout : Z)
    (pollCount : nat) (lastStatus : string) (w : World) :
  latency_within b L ->
  0 <= L ->
  clock w - startTime < timeout + 15000 + 2 * L ->
  clock (snd (pollLoop fuel sessionId startTime timeout pollCount lastStatus w)) - startTime
  < timeout + 15000 + 2 * L.
Proof.
  intros HL HL0. revert pollCount lastStatus w.
  induction fuel as [|fuel IH]; intros pollCount lastStatus w Hw; simpl.
  - by case_match.
  - case_match; [|done]. apply Z.ltb_lt in H.
    pose proof (pollBody_clock L sessionId (S pollCount) lastStatus w HL) as Hc.
    destruct (AuditRunner.pollBody _ _ _ _ _ _) as [[[ls|]|e|] w']; simpl; try lia.
    apply IH. lia.
Qed.

Ltac poll_requests :=
  repeat (apply Forall_cons; [assumption|]); apply Forall_nil.

(** A turn whose requests are answered does not throw, and touches only
    the clock, the console and the list of requests. *)
Lemma pollBody_responsive (sessionId : string) (pollCount : nat)
    (lastStatus : string) (w : World) :
  responsive b ->
  exists next w' rs,
    pollBody sessionId pollCount lastStatus w = (Returned next, w') /\
    disk w' = disk w /\
    lastSessionLogs w' = lastSessionLogs w /\
    requests w' = (requests w ++ rs)%list /\
    Forall (isPoll this) rs.
Proof.
  intros (Hlat & Hs & Hm).
  destruct (Hs pollCount) as (r1 & Hr1 & Hj1).
  destruct (Hm pollCount) as (r2 & Hr2 & Hj2).
  assert (Hp1 : isPoll this (GET (baseUrl (config this) +:+ "/api/agent/sessions/" +:+ sessionId))).
  { split; [done|]. by exists sessionId. }
  assert (Hp2 : isPoll this (GET (baseUrl (config this) +:+ "/api/agent/sessions/" +:+ sessionId +:+ "/messages"))).
  { split; [done|]. by exists (sessionId +:+ "/messages"). }
  assert (Hlt : forall n, (10000 <=? Z.of_N (latency b n)) = false).
  { intros n. apply Z.leb_gt, Hlat. }
  assert (Hj1' : ok r1 = false \/ exists sd, ok r1 = true /\ res_json r1 = Some sd).
  { destruct (ok r1); [right|by left]. destruct (res_json r1) as [sd|]; [eauto|by destruct Hj1]. }
  assert (Hj2' : ok r2 = false \/ exists ms, ok r2 = true /\ res_json r2 = Some ms).
  { destruct (ok r2); [right|by left]. destruct (res_json r2) as [ms|]; [eauto|by destruct Hj2]. }
  clear Hj1 Hj2 Hs Hm Hlat.
  unfold AuditRunner.pollBody, AuditRunner.inspectMessages, fetch, bind, jsonOf, ret, throw,
    sleep, consoleLog, consoleWarn.
  rewrite Hr1, Hr2, !Hlt.
  destruct Hj1' as [Hok1|(sd & Hok1 & Hsd)]; rewrite Hok1; simpl; rewrite ?Hsd; simpl.
  { eexists _, _, _; (split; [reflexivity|]); simpl.
    do 2 (split; [reflexivity|]). split; [reflexivity | poll_requests]. }
  destruct Hj2' as [Hok2|(ms & Hok2 & Hms)].
  all: repeat (case_match; simplify_eq/=; rewrite ?Hlt, ?Hok2, ?Hms in *; simplify_eq/=).
  all: eexists _, _, _; (split; [reflexivity|]); simpl.
  all: do 2 (split; [reflexivity|]); split;
         [ by rewrite <- ?app_assoc | poll_requests ].
Qed.

(** The loop whose requests are answered ends without an error. *)
Lemma pollLoop_responsive (fuel : nat) (sessionId : string) (startTime timeout : Z)
    (pollCount : nat) (lastStatus : string) (w : World) :
  responsive b ->
  timeout - (clock w - startTime) <= 5000 * Z.of_nat fuel ->
  exists polled w' rs,
    pollLoop fuel sessionId startTime timeout pollCount lastStatus w = (Returned polled, w') /\
    disk w' = disk w /\
    lastSessionLogs w' = lastSessionLogs w /\
    requests w' = (requests w ++ rs)%list /\
    Forall (isPoll this) rs.
Proof.
  intros Hres. revert pollCount lastStatus w.
  induction fuel as [|fuel IH]; intros pollCount lastStatus w Hfuel; simpl.
  - case_match.
    + apply Z.ltb_lt in H. lia.
    + exists (TimedOut, pollCount), w, []. by rewrite app_nil_r.
  - case_match.
    + pose proof (pollBody_clock 10000 sessionId (S pollCount) lastStatus w latency_within_10000) as Hc.
      destruct (pollBody_responsive sessionId (S pollCount) lastStatus w Hres)
        as (next & w1 & rs1 & E & Hd & Hl & Hr & Hp).
      rewrite E in Hc |- *. destruct next as [ls|].
      * destruct (IH (S pollCount) ls w1) as (polled & w' & rs & E' & Hd' & Hl' & Hr' & Hp'); [lia|].
        exists polled, w', (rs1 ++ rs)%list. rewrite E', Hd', Hl', Hr', Hd, Hl, Hr, <- app_assoc.
        by rewrite Forall_app.
      * by exists (Broke, S pollCount), w1, rs1.
    + exists (TimedOut, pollCount), w, []. by rewrite app_nil_r.
Qed.

(** The same, when only the requests still to come are known to be
    answered in time. *)
Lemma pollBody_answered (sessionId : string) (pollCount : nat)
    (lastStatus : string) (w : World) :
  prompt_from b (length (requests w)) ->
  polls_answered b ->
  exists next w' rs,
    pollBody sessionId pollCount lastStatus w = (Returned next, w') /\
    disk w' = disk w /\
    lastSessionLogs w' = lastSessionLogs w /\
    requests w' = (requests w ++ rs)%list /\
    Forall (isPoll this) rs.
Proof.
  intros Hlat (Hs & Hm).
  destruct (Hs pollCount) as (r1 & Hr1 & Hj1).
  destruct (Hm pollCount) as (r2 & Hr2 & Hj2).
  assert (Hp1 : isPoll this (GET (baseUrl (config this) +:+ "/api/agent/sessions/" +:+ sessionId))).
  { split; [done|]. by exists sessionId. }
  assert (Hp2 : isPoll this (GET (baseUrl (config this) +:+ "/api/agent/sessions/" +:+ sessionId +:+ "/messages"))).
  { split; [done|]. by exists (sessionId +:+ "/messages"). }
  assert (Hlt0 : (10000 <=? Z.of_N (latency b (length (requests w)))) = false).
  { apply Z.leb_gt, Hlat. lia. }
  assert (Hlt : forall rs, (10000 <=? Z.of_N (latency b (length (requests w ++ rs)))) = false).
  { intros rs. apply Z.leb_gt, Hlat. rewrite length_app. lia. }
  assert (Hj1' : ok r1 = false \/ exists sd, ok r1 = true /\ res_json r1 = Some sd).
  { destruct (ok r1); [right|by left]. destruct (res_json r1) as [sd|]; [eauto|by destruct Hj1]. }
  assert (Hj2' : ok r2 = false \/ exists ms, ok r2 = true /\ res_json r2 = Some ms).
  { destruct (ok r2); [right|by left]. destruct (res_json r2) as [ms|]; [eauto|by destruct Hj2]. }
  clear Hj1 Hj2 Hs Hm Hlat.
  unfold AuditRunner.pollBody, AuditRunner.inspectMessages, fetch, bind, jsonOf, ret, throw,
    sleep, consoleLog, consoleWarn.
  rewrite Hr1, Hr2, Hlt0.
  destruct Hj1' as [Hok1|(sd & Hok1 & Hsd)]; rewrite Hok1; simpl; rewrite ?Hsd; simpl.
  { eexists _, _, _; (split; [reflexivity|]); simpl.
    do 2 (split; [reflexivity|]). split; [reflexivity | poll_requests]. }
  destruct Hj2' as [Hok2|(ms & Hok2 & Hms)].
  all: repeat (case_match; simplify_eq/=; rewrite ?Hlt, ?Hok2, ?Hms in *; simplify_eq/=).
  all: eexists _, _, _; (split; [reflexivity|]); simpl.
  all: do 2 (split; [reflexivity|]); split;
         [ by rewrite <- ?app_assoc | poll_requests ].
Qed.

Lemma pollLoop_answered (fuel : nat) (sessionId : string) (startTime timeout : Z)
    (pollCount : nat) (lastStatus : string) (w : World) :
  prompt_from b (length (requests w)) ->
  polls_answered b ->
  timeout - (clock w - startTime) <= 5000 * Z.of_nat fuel ->
  exists polled w' rs,
    pollLoop fuel sessionId startTime timeout pollCount lastStatus w = (Returned polled, w') /\
    disk w' = disk w /\
    lastSessionLogs w' = lastSessionLogs w /\
    requests w' = (requests w ++ rs)%list /\
    Forall (isPoll this) rs.
Proof.
  intros Hlat Hans. revert pollCount lastStatus w Hlat.
  induction fuel as [|fuel IH]; intros pollCount lastStatus w Hlat Hfuel; simpl.
  - case_match.
    + apply Z.ltb_lt in H. lia.
    + exists (TimedOut, pollCount), w, []. by rewrite app_nil_r.
  - case_match.
    + pose proof (pollBody_clock 10000 sessionId (S pollCount) lastStatus w latency_within_10000) as Hc.
      destruct (pollBody_answered sessionId (S pollCount) lastStatus w Hlat Hans)
        as (next & w1 & rs1 & E & Hd & Hl & Hr & Hp).
      rewrite E in Hc |- *. destruct next as [ls|].
      * destruct (IH (S pollCount) ls w1) as (polled & w' & rs & E' & Hd' & Hl' & Hr' & Hp');
          [|lia|].
        { intros m Hm. apply Hlat. rewrite Hr, length_app in Hm. lia. }
        exists polled, w', (rs1 ++ rs)%list. rewrite E', Hd', Hl', Hr', Hd, Hl, Hr, <- app_assoc.
        by rewrite Forall_app.
      * by exists (Broke, S pollCount), w1, rs1.
    + exists (TimedOut, pollCount), w, []. by rewrite app_nil_r.
Qed.



(** C9: a non-success response to the status request of a turn does not
    end the wait.  The turn logs a warning, sleeps 5 seconds and the loop
    goes on with the next turn; and when every request of the loop is
    answered, with whatever status, the loop ends without an error. *)
Theorem status_failure_does_not_abort_wait (sessionId : string)
    (startTime timeout : Z) :
  (forall (fuel : nat) (pollCount : nat) (lastStatus : string) (w : World)
          (r : Response SessionData),
     let d := Z.of_N (latency b (length (requests w))) in
     let w' := advance 5000
                 (addLine (Warn "[AuditRunner] Status check failed, continuing...")
                    (advance d
                       (addRequest
                          (GET (baseUrl (config this) +:+ "/api/agent/sessions/" +:+ sessionId))
                          w))) in
     clock w - startTime < timeout ->
     d < 10000 ->
     session_res b (S pollCount) = Responded r ->
     ok r = false ->
     pollBody sessionId (S pollCount) lastStatus w = (Returned (Continue lastStatus), w') /\
     pollLoop (S fuel) sessionId startTime timeout pollCount lastStatus w
     = pollLoop fuel sessionId startTime timeout (S pollCount) lastStatus w') /\
  (responsive b ->
   forall w : World,
     startTime + 10000 <= clock w ->
     exists polled w',
       pollLoop (pollFuel timeout) sessionId startTime timeout 0 "" w = (Returned polled, w')).
Proof.
  split.
  - intros fuel pollCount lastStatus w r d w' Hw Hd Hr Hok.
    assert (E : pollBody sessionId (S pollCount) lastStatus w = (Returned (Continue lastStatus), w')).
    { unfold AuditRunner.pollBody, fetch, bind. rewrite Hr. fold d.
      destruct (10000 <=? d) eqn:E1; [apply Z.leb_le in E1; lia|].
      by rewrite Hok. }
    split; [done|]. simpl. apply Z.ltb_lt in Hw. by rewrite Hw, E.
  - intros Hres w Hw.
    destruct (pollLoop_responsive (pollFuel timeout) sessionId startTime timeout 0 "" w Hres)
      as (polled & w' & rs & E & _); [|by eauto].
    unfold pollFuel. destruct (decide (0 <= timeout)) as [HT|HT].
    + rewrite Z2Nat.id by (apply Z.div_pos; lia).
      pose proof (Z.mod_pos_bound timeout 5000). pose proof (Z.div_mod timeout 5000). lia.
    + lia.
Qed.

End Detector.

(** ** Frames and traces *)

Section Frames.

Context {X : Type} (f : World -> X).
Hypothesis Hf : framed f.

Lemma preserves_ret {A} (a : A) : preserves f (ret a).
Proof. by intros w. Qed.

Lemma preserves_throw {A} (e : string) : preserves f (@throw World A e).
Proof. by intros w. Qed.

Lemma preserves_bind {A B} (m : M World A) (k : A -> M World B) :
  preserves f m -> (forall a, preserves f (k a)) -> preserves f (bind m k).
Proof.
  intros Hm Hk w. unfold bind. specialize (Hm w).
  destruct (m w) as [[a|e|] w1]; simpl in *; [|done|done].
  by rewrite Hk.
Qed.

Lemma preserves_tryCatch {A} (m : M World A) (k : string -> M World A) :
  preserves f m -> (forall e, preserves f (k e)) -> preserves f (tryCatch m k).
Proof.
  intros Hm Hk w. unfold tryCatch. specialize (Hm w).
  destruct (m w) as [[a|e|] w1]; simpl in *; [done| |done].
  by rewrite Hk.
Qed.

Lemma preserves_fetch {A} (b : Backend) (limit : option Z) (req : Request)
    (res : FetchResult A) :
  preserves f (fetch b limit req res).
Proof.
  destruct Hf as (H1 & H2 & H3). intros w. unfold fetch.
  repeat case_match; simpl; by rewrite H2, H1.
Qed.

Lemma preserves_consoleLog (s : string) : preserves f (consoleLog s).
Proof. destruct Hf as (H1 & H2 & H3). intros w. apply H3. Qed.

Lemma preserves_consoleWarn (s : string) : preserves f (consoleWarn s).
Proof. destruct Hf as (H1 & H2 & H3). intros w. apply H3. Qed.

Lemma preserves_sleep (d : Z) : preserves f (sleep d).
Proof. destruct Hf as (H1 & H2 & H3). intros w. apply H2. Qed.

Lemma preserves_now : preserves f now.
Proof. by intros w. Qed.

Lemma preserves_jsonOf {A} (r : Response A) : preserves f (jsonOf r).
Proof. intros w. unfold jsonOf. by destruct (res_json r). Qed.

Lemma preserves_textOf {A} (r : Response A) : preserves f (textOf r).
Proof. by intros w. Qed.

End Frames.

Lemma framed_disk : framed disk.
Proof. done. Qed.

Ltac frame Hf :=
  repeat first
    [ apply preserves_bind; [|intros ?]
    | apply (preserves_fetch _ Hf)
    | apply (preserves_consoleLog _ Hf)
    | apply (preserves_consoleWarn _ Hf)
    | apply (preserves_sleep _ Hf)
    | apply preserves_now
    | apply preserves_jsonOf
    | apply preserves_textOf
    | apply preserves_ret
    | apply preserves_throw
    | match goal with |- preserves _ (if ?c then _ else _) => destruct c end
    | match goal with |- preserves _ (match ?c with _ => _ end) => destruct c end ].

Section Talks.

Variable b : Backend.
Variable P : Request -> Prop.

Lemma talks_silent {A} (m : M World A) :
  (forall w, requests (snd (m w)) = requests w) -> talks P m.
Proof. intros Hm w. exists []. by rewrite Hm, app_nil_r. Qed.

Lemma talks_bind {A B} (m : M World A) (k : A -> M World B) :
  talks P m -> (forall a, talks P (k a)) -> talks P (bind m k).
Proof.
  intros Hm Hk w. unfold bind. destruct (Hm w) as (rs & Hr & Hp).
  destruct (m w) as [[a|e|] w1]; simpl in *; [|by exists rs|by exists rs].
  destruct (Hk a w1) as (rs' & Hr' & Hp'). exists (rs ++ rs')%list.
  rewrite Hr', Hr, <- app_assoc. split; [done|]. by apply Forall_app.
Qed.

Lemma talks_tryCatch {A} (m : M World A) (k : string -> M World A) :
  talks P m -> (forall e, talks P (k e)) -> talks P (tryCatch m k).
Proof.
  intros Hm Hk w. unfold tryCatch. destruct (Hm w) as (rs & Hr & Hp).
  destruct (m w) as [[a|e|] w1]; simpl in *; [by exists rs| |by exists rs].
  destruct (Hk e w1) as (rs' & Hr' & Hp'). exists (rs ++ rs')%list.
  rewrite Hr', Hr, <- app_assoc. split; [done|]. by apply Forall_app.
Qed.

Lemma talks_fetch {A} (limit : option Z) (req : Request) (res : FetchResult A) :
  P req -> talks P (fetch b limit req res).
Proof.
  intros Hreq w. exists [req]. split; [|by repeat constructor].
  unfold fetch. by repeat case_match.
Qed.

End Talks.

Ltac quiet :=
  repeat first
    [ apply talks_bind; [|intros ?]
    | apply talks_fetch; eexists; reflexivity
    | apply talks_silent; intros ?; reflexivity
    | apply talks_silent; intros ?; unfold jsonOf; by case_match
    | apply talks_silent; intros ?; unfold writeFile; by case_match
    | match goal with |- talks _ (if ?c then _ else _) => destruct c end
    | match goal with |- talks _ (match ?c with _ => _ end) => destruct c end ].


Section RunnerFrames.

Import AuditRunner.

Variable b : Backend.
Variable this : AuditRunner.t.

Abbreviation pollBody := (AuditRunner.pollBody b this).
Abbreviation pollLoop := (AuditRunner.pollLoop b this).
Abbreviation getFindingsFromProject := (AuditRunner.getFindingsFromProject b this).

Section Framed.

Context {X : Type} (f : World -> X).
Hypothesis Hf : framed f.

Lemma createProject_preserves (p : C4Project) : preserves f (createProject b this p).
Proof. unfold createProject. frame Hf. Qed.

Lemma ensureContainer_preserves (projectId : string) :
  preserves f (ensureContainer b this projectId).
Proof. unfold ensureContainer. frame Hf. Qed.

Lemma createSession_preserves (p : C4Project) (projectId : string) :
  preserves f (createSession b this p projectId).
Proof. unfold createSession. frame Hf. Qed.

Lemma inspectMessages_preserves (pollCount : nat) (lastStatus : string)
    (messages : list Message) :
  preserves f (inspectMessages pollCount lastStatus messages).
Proof. unfold inspectMessages. frame Hf. Qed.

Lemma pollBody_preserves (sessionId : string) (pollCount : nat) (lastStatus : string) :
  preserves f (pollBody sessionId pollCount lastStatus).
Proof.
  unfold AuditRunner.pollBody. frame Hf.
  all: try apply inspectMessages_preserves.
Qed.

Lemma pollLoop_preserves (fuel : nat) (sessionId : string) (startTime timeout : Z)
    (pollCount : nat) (lastStatus : string) :
  preserves f (pollLoop fuel sessionId startTime timeout pollCount lastStatus).
Proof.
  revert pollCount lastStatus.
  induction fuel as [|fuel IH]; intros pollCount lastStatus w; simpl.
  - by repeat case_match.
  - case_match; [|done].
    pose proof (pollBody_preserves sessionId (S pollCount) lastStatus w) as Hb.
    destruct (AuditRunner.pollBody _ _ _ _ _ _) as [[[ls|]|e|] w']; simpl in *; try done.
    by rewrite IH.
Qed.

Lemma getFindingsFromProject_preserves (projectId : string) :
  preserves f (getFindingsFromProject projectId).
Proof.
  unfold AuditRunner.getFindingsFromProject.
  apply preserves_tryCatch; [|intros e]; frame Hf.
Qed.

End Framed.

(** The wait issues polls only. *)
Lemma pollBody_polls (sessionId : string) (pollCount : nat) (lastStatus : string) :
  talks (isPoll this) (pollBody sessionId pollCount lastStatus).
Proof.
  unfold AuditRunner.pollBody, inspectMessages.
  repeat first
    [ apply talks_bind; [|intros ?]
    | apply talks_fetch; split; [reflexivity|eexists; reflexivity]
    | apply talks_silent; intros ?; reflexivity
    | apply talks_silent; intros ?; unfold jsonOf; by case_match
    | apply talks_silent; intros ?; unfold writeFile; by case_match
    | match goal with |- talks _ (if ?c then _ else _) => destruct c end
    | match goal with |- talks _ (match ?c with _ => _ end) => destruct c end ].
Qed.

Lemma pollLoop_polls (fuel : nat) (sessionId : string) (startTime timeout : Z)
    (pollCount : nat) (lastStatus : string) :
  talks (isPoll this) (pollLoop fuel sessionId startTime timeout pollCount lastStatus).
Proof.
  revert pollCount lastStatus.
  induction fuel as [|fuel IH]; intros pollCount lastStatus w; simpl.
  - exists []. rewrite app_nil_r. by repeat case_match.
  - case_match; [|exists []; by rewrite app_nil_r].
    destruct (pollBody_polls sessionId (S pollCount) lastStatus w) as (rs & Hr & Hp).
    destruct (AuditRunner.pollBody _ _ _ _ _ _) as [[[ls|]|e|] w1]; simpl in *;
      [|by exists rs..].
    destruct (IH (S pollCount) ls w1) as (rs' & Hr' & Hp'). exists (rs ++ rs')%list.
    rewrite Hr', Hr, <- app_assoc. split; [done|]. by apply Forall_app.
Qed.

End RunnerFrames.

(** ** The audit runner *)

Ltac fields :=
  cbn [requests clock console disk lastSessionLogs
       advance addRequest addLine addFile setLogs fst snd] in *.

Section Runner.

Import AuditRunner.

Variable h : Host.
Variable b : Backend.
Variable this : AuditRunner.t.

Abbreviation createProject := (AuditRunner.createProject b this).
Abbreviation ensureContainer := (AuditRunner.ensureContainer b this).
Abbreviation createSession := (AuditRunner.createSession b this).
Abbreviation pollLoop := (AuditRunner.pollLoop b this).
Abbreviation sendMessage := (AuditRunner.sendMessage b this).
Abbreviation getFindingsFromProject := (AuditRunner.getFindingsFromProject b this).
Abbreviation saveResults := (AuditRunner.saveResults h this).
Abbreviation runAudit := (AuditRunner.runAudit h b this).

(** A request that is answered before its limit gives its response. *)
Lemma fetch_answered {A} (limit : Z) (req : Request) (res : FetchResult A)
    (r : Response A) (w : World) :
  Z.of_N (latency b (length (requests w))) < limit -> res = Responded r ->
  fetch b (Some limit) req res w
  = (Returned r, advance (Z.of_N (latency b (length (requests w)))) (addRequest req w)).
Proof.
  intros Hl ->. unfold fetch.
  destruct (limit <=? _) eqn:E; [apply Z.leb_le in E; lia | done].
Qed.

Lemma createProject_succeeds (p : C4Project) (projectId : string) (w : World) :
  succeeds (createProject_res b) projectId ->
  exists w', createProject p w = (Returned projectId, w') /\
             requests w' = (requests w ++ [projectRequest this p])%list /\
             clock w' = clock w + Z.of_N (latency b (length (requests w))) /\
             disk w' = disk w /\
             lastSessionLogs w' = lastSessionLogs w.
Proof.
  intros (r & Hr & Hok & Hj).
  unfold AuditRunner.createProject, bind, fetch, jsonOf. rewrite Hr, Hok, Hj. simpl.
  eexists. split; [reflexivity|]. done.
Qed.

Lemma createProject_fails (p : C4Project) (r : Response string) (w : World) :
  fails (createProject_res b) r ->
  exists w', createProject p w
             = (Thrown ("Failed to create project: " +:+ pretty (res_status r)
                        +:+ " " +:+ res_text r), w') /\
             requests w' = (requests w ++ [projectRequest this p])%list /\
             disk w' = disk w.
Proof.
  intros (Hr & Hok).
  unfold AuditRunner.createProject, bind, fetch, textOf, throw. rewrite Hr, Hok. simpl.
  eexists. split; [reflexivity|]. done.
Qed.

Lemma ensureContainer_succeeds (projectId : string) (c : ContainerData) (w : World) :
  Z.of_N (latency b (length (requests w))) < 300000 ->
  succeeds (ensureContainer_res b) c ->
  exists w', ensureContainer projectId w = (Returned tt, w') /\
             requests w' = (requests w ++ [containerRequest this projectId])%list /\
             clock w' = clock w + Z.of_N (latency b (length (requests w))) + 2000 /\
             disk w' = disk w /\
             lastSessionLogs w' = lastSessionLogs w.
Proof.
  intros Hin (r & Hr & Hok & Hj).
  unfold AuditRunner.ensureContainer, bind, consoleLog.
  erewrite fetch_answered by done.
  unfold jsonOf. rewrite Hok, Hj. simpl.
  eexists. split; [reflexivity|]. done.
Qed.

Lemma ensureContainer_fails (projectId : string) (r : Response ContainerData) (w : World) :
  Z.of_N (latency b (length (requests w))) < 300000 ->
  fails (ensureContainer_res b) r ->
  exists w', ensureContainer projectId w
             = (Thrown ("Failed to ensure container: " +:+ pretty (res_status r)
                        +:+ " " +:+ res_text r), w') /\
             requests w' = (requests w ++ [containerRequest this projectId])%list /\
             disk w' = disk w.
Proof.
  intros Hin (Hr & Hok).
  unfold AuditRunner.ensureContainer, bind, consoleLog.
  erewrite fetch_answered by done.
  rewrite Hok. simpl.
  eexists. split; [reflexivity|]. done.
Qed.

(** A container that is not ready makes the step throw, whether the
    answer comes or not. *)
Lemma ensureContainer_throws (projectId : string) (r : Response ContainerData) (w : World) :
  fails (ensureContainer_res b) r ->
  exists e w', ensureContainer projectId w = (Thrown e, w') /\ disk w' = disk w.
Proof.
  intros (Hr & Hok).
  unfold AuditRunner.ensureContainer, bind, consoleLog, fetch. rewrite Hr.
  destruct (300000 <=? _); simpl; [by eexists _, _|].
  rewrite Hok. simpl. by eexists _, _.
Qed.

Lemma createSession_succeeds (p : C4Project) (projectId sessionId : string) (w : World) :
  succeeds (createSession_res b) sessionId ->
  exists w', createSession p projectId w = (Returned sessionId, w') /\
             requests w' = (requests w ++ [sessionRequest this p projectId])%list /\
             clock w' = clock w + Z.of_N (latency b (length (requests w))) /\
             disk w' = disk w /\
             lastSessionLogs w' = lastSessionLogs w.
Proof.
  intros (r & Hr & Hok & Hj).
  unfold AuditRunner.createSession, bind, fetch, jsonOf. rewrite Hr, Hok, Hj. simpl.
  eexists. split; [reflexivity|]. done.
Qed.

Lemma createSession_fails (p : C4Project) (projectId : string) (r : Response string) (w : World) :
  fails (createSession_res b) r ->
  exists w', createSession p projectId w
             = (Thrown ("Failed to create session: " +:+ statusText r), w') /\
             requests w' = (requests w ++ [sessionRequest this p projectId])%list /\
             disk w' = disk w.
Proof.
  intros (Hr & Hok).
  unfold AuditRunner.createSession, bind, fetch, throw. rewrite Hr, Hok. simpl.
  eexists. split; [reflexivity|]. done.
Qed.

Lemma pollFuel_enough (timeout : Z) :
  timeout - 10000 <= 5000 * Z.of_nat (pollFuel timeout).
Proof.
  unfold pollFuel. destruct (decide (0 <= timeout)) as [HT|HT]; [|lia].
  rewrite Z2Nat.id by (apply Z.div_pos; lia).
  pose proof (Z.mod_pos_bound timeout 5000). pose proof (Z.div_mod timeout 5000). lia.
Qed.

Lemma sendMessage_fails_start (sessionId message : string) (r : Response StartData) (w : World) :
  Z.of_N (latency b (length (requests w))) < 30000 ->
  fails (chatStream_res b) r ->
  exists w', sendMessage sessionId message w
             = (Thrown ("Failed to start chat: " +:+ pretty (res_status r)
                        +:+ " " +:+ res_text r), w') /\
             requests w' = (requests w ++ [chatRequest this sessionId message])%list /\
             disk w' = disk w.
Proof.
  intros Hin (Hr & Hok).
  unfold AuditRunner.sendMessage. unfold bind at 1.
  erewrite fetch_answered by done.
  rewrite Hok. simpl.
  eexists. split; [reflexivity|]. done.
Qed.

(** [sendMessage] once the chat is started: the wait, entered 10 seconds
    after the start, and then the rest of the method. *)
Lemma sendMessage_to_wait (sessionId message : string) (sd : StartData) (w : World) :
  succeeds (chatStream_res b) sd ->
  Z.of_N (latency b (length (requests w))) < 30000 ->
  let startTime := clock w + Z.of_N (latency b (length (requests w))) in
  let T := timeout (config this) in
  exists w1,
    requests w1 = (requests w ++ [chatRequest this sessionId message])%list /\
    clock w1 = startTime + 10000 /\
    disk w1 = disk w /\
    lastSessionLogs w1 = lastSessionLogs w /\
    sendMessage sessionId message w
    = bind (pollLoop (pollFuel T) sessionId startTime T 0 "")
        (fun polled =>
           finished <~ now;~
           let elapsed := Js.roundDiv1000 (finished - startTime) in
           perform consoleLog ("[AuditRunner] Polling completed after " +:+ pretty elapsed
                       +:+ "s (" +:+ pretty (snd polled) +:+ " checks)");~
           messagesResponse <~ fetch b (Some 10000)
             (GET (baseUrl (config this) +:+ "/api/agent/sessions/" +:+ sessionId +:+ "/messages"))
             (messages_res b);~
           if negb (ok messagesResponse) then
             throw "Failed to get messages"
           else
             messages <~ jsonOf messagesResponse;~
             perform (fun w => (Returned tt, setLogs messages w));~
             let fullResponse := fullResponseOf messages in
             perform consoleLog ("[AuditRunner] Response received ("
                         +:+ pretty (String.length fullResponse) +:+ " chars), "
                         +:+ pretty (length messages) +:+ " messages logged");~
             ret fullResponse) w1.
Proof.
  intros (r0 & Hr0 & Hok0 & Hj0) Hin startTime T.
  unfold AuditRunner.sendMessage. unfold bind at 1.
  erewrite fetch_answered by done.
  rewrite Hok0. cbn [negb]. unfold bind at 1. unfold jsonOf at 1. rewrite Hj0.
  unfold ret at 1. unfold bind at 1, consoleLog at 1.
  unfold bind at 1, now at 1. unfold bind at 1, consoleLog at 1.
  unfold bind at 1, sleep at 1.
  eexists. split; [|split; [|split; [|split; [|reflexivity]]]]; fields; done.
Qed.

(** The rest of [sendMessage] when the wait has ended and the read of the
    messages is answered. *)
Lemma sendMessage_after_wait (sessionId message : string) (sd : StartData) (w : World) :
  succeeds (chatStream_res b) sd ->
  Z.of_N (latency b (length (requests w))) < 30000 ->
  let startTime := clock w + Z.of_N (latency b (length (requests w))) in
  let T := timeout (config this) in
  exists w1,
    requests w1 = (requests w ++ [chatRequest this sessionId message])%list /\
    clock w1 = startTime + 10000 /\
    disk w1 = disk w /\
    lastSessionLogs w1 = lastSessionLogs w /\
    forall polled w2 r,
      pollLoop (pollFuel T) sessionId startTime T 0 "" w1 = (Returned polled, w2) ->
      Z.of_N (latency b (length (requests w2))) < 10000 ->
      messages_res b = Responded r ->
      exists w3,
        requests w3 = (requests w2 ++ [messagesRequest this sessionId])%list /\
        clock w3 = clock w2 + Z.of_N (latency b (length (requests w2))) /\
        disk w3 = disk w /\
        sendMessage sessionId message w
        = (if ok r then
             match res_json r with
             | Some messages => Returned (fullResponseOf messages)
             | None => Thrown "SyntaxError: Unexpected token in JSON"
             end
           else Thrown "Failed to get messages", w3) /\
        (forall messages,
           ok r = true -> res_json r = Some messages ->
           lastSessionLogs w3 = messages /\
           Log ("[AuditRunner] Response received ("
                +:+ pretty (String.length (fullResponseOf messages)) +:+ " chars), "
                +:+ pretty (length messages) +:+ " messages logged") ∈ console w3).
Proof.
  intros Hsd Hin startTime T.
  destruct (sendMessage_to_wait sessionId message sd w Hsd Hin)
    as (w1 & Hr1 & Hc1 & Hd1 & Hl1 & E).
  exists w1. do 4 (split; [done|]).
  intros polled w2 r Hloop Hlat Hr.
  pose proof (pollLoop_preserves b this disk framed_disk (pollFuel T) sessionId startTime T 0 "" w1)
    as Hd2.
  rewrite Hloop in Hd2. fields.
  rewrite E. unfold bind at 1. fold T startTime. rewrite Hloop.
  unfold bind at 1, now at 1. unfold bind at 1, consoleLog at 1. unfold bind at 1.
  erewrite fetch_answered by (fields; done).
  destruct (ok r) eqn:Hok; cbn [negb].
  - unfold bind at 1, jsonOf at 1. destruct (res_json r) as [messages|] eqn:Hj.
    + unfold ret at 1. unfold bind, consoleLog, ret.
      eexists. split; [|split; [|split; [|split; [reflexivity|]]]]; fields; try done.
      * congruence.
      * intros ms _ [= <-]. split; [done|]. set_solver.
    + unfold throw.
      eexists. split; [|split; [|split; [|split; [reflexivity|]]]]; fields; try done.
      congruence.
  - unfold throw.
    eexists. split; [|split; [|split; [|split; [reflexivity|]]]]; fields; try done.
    congruence.
Qed.


(** Finding retrieval never throws: it gives what was retrieved when the
    answer comes within 30 seconds, and nothing otherwise. *)
Lemma getFindingsFromProject_exact (projectId : string) (w : World) :
  let d := Z.of_N (latency b (length (requests w))) in
  exists w',
    getFindingsFromProject projectId w
    = (Returned (if d <? 30000 then retrieved b else []), w') /\
    requests w' = (requests w ++ [findingsRequest this projectId])%list /\
    clock w' = clock w + Z.min d 30000 /\
    disk w' = disk w /\
    lastSessionLogs w' = lastSessionLogs w /\
    (forall l, l ∈ console w -> l ∈ console w') /\
    (forall r, fails (findings_res b) r -> d < 30000 ->
       Warn ("[AuditRunner] Failed to get findings: " +:+ pretty (res_status r)) ∈ console w').
Proof.
  intros d. unfold AuditRunner.getFindingsFromProject, tryCatch, bind, fetch, retrieved.
  fold d. destruct (30000 <=? d) eqn:E; [apply Z.leb_le in E | apply Z.leb_gt in E].
  { replace (d <? 30000) with false by (symmetry; apply Z.ltb_ge; lia).
    eexists. split; [reflexivity|]. fields. repeat split; try done; try lia. set_solver. }
  replace (d <? 30000) with true by (symmetry; apply Z.ltb_lt; lia).
  destruct (findings_res b) as [reason|r] eqn:Hres.
  { eexists. split; [reflexivity|]. fields. repeat split; try done; try lia; [set_solver|].
    intros r [Hr _]. discriminate. }
  destruct (ok r) eqn:Hok; cbn [negb].
  - unfold jsonOf. destruct (res_json r); cbn.
    all: eexists; (split; [reflexivity|]); fields; repeat split; try done; try lia.
    all: try (intros r' [[= <-] Hok']; congruence).
    set_solver.
  - cbn. eexists. split; [reflexivity|]. fields. repeat split; try done; try lia; [set_solver|].
    intros r' [[= <-] _] _. set_solver.
Qed.

(** Saving the results writes the artifact, named after the instant of
    the write, unless the file system rejects it. *)
Lemma saveResults_outcome (p : C4Project) (findings : list Finding) (w : World) :
  saveResults (name p) findings w
  = match writeError h w (findingArtifact h this p (clock w) findings) with
    | Some e => (Thrown e, w)
    | None =>
        (Returned tt,
         addLine (Log ("[AuditRunner] Saved " +:+ pretty (length findings) +:+ " findings to "
                       +:+ path (findingArtifact h this p (clock w) findings)))
           (addFile (findingArtifact h this p (clock w) findings) w))
    end.
Proof.
  unfold AuditRunner.saveResults, bind, now, writeFile, consoleLog, findingArtifact.
  cbn [path]. by destruct (writeError h w _).
Qed.

Ltac on_world f tac :=
  match goal with
  | |- context [f ?w] =>
      lazymatch type of w with
      | World => tac w
      end
  end.

(** The audit from finding retrieval on. *)
Abbreviation finish p projectId :=
  (bind (getFindingsFromProject projectId)
     (fun findings =>
        bind (consoleLog ("[AuditRunner] Retrieved " +:+ pretty (length findings)
                          +:+ " findings from project"))
          (fun _ => bind (saveResults (name p) findings) (fun _ => ret findings)))).

(** The audit up to the dispatch of the instruction. *)
Lemma runAudit_to_session (p : C4Project) (w : World) (projectId sessionId : string)
    (c : ContainerData) :
  let n := length (requests w) in
  succeeds (createProject_res b) projectId ->
  Z.of_N (latency b (S n)) < 300000 ->
  succeeds (ensureContainer_res b) c ->
  succeeds (createSession_res b) sessionId ->
  exists w3,
    requests w3 = (requests w ++ [projectRequest this p; containerRequest this projectId;
                                  sessionRequest this p projectId])%list /\
    clock w3 = clock w + Z.of_N (latency b n) + Z.of_N (latency b (S n)) + 2000
               + Z.of_N (latency b (S (S n))) /\
    disk w3 = disk w /\
    lastSessionLogs w3 = [] /\
    runAudit p w
    = bind (sendMessage sessionId (instruction ("https://github.com/" +:+ repo p)))
        (fun _ => finish p projectId) w3.
Proof.
  intros n H1 Hin H2 H3.
  unfold AuditRunner.runAudit.
  unfold bind at 1, consoleLog at 1. unfold bind at 1. unfold bind at 1.
  on_world (createProject p) ltac:(fun w0 =>
    destruct (createProject_succeeds p projectId w0 H1) as (w1 & -> & Hr1 & Hc1 & Hd1 & Hl1)).
  fields.
  unfold bind at 1, consoleLog at 1. unfold bind at 1.
  on_world (ensureContainer projectId) ltac:(fun w0 =>
    destruct (ensureContainer_succeeds projectId c w0) as (w2 & -> & Hr2 & Hc2 & Hd2 & Hl2));
    [fields; rewrite Hr1, length_app; cbn [length];
     by replace (length (requests w) + 1)%nat with (S n) by (subst n; lia) | done |].
  fields. rewrite Hr1, length_app in Hc2. cbn [length] in Hc2.
  replace (length (requests w) + 1)%nat with (S n) in Hc2 by (subst n; lia).
  unfold bind at 1, consoleLog at 1. unfold bind at 1.
  on_world (createSession p projectId) ltac:(fun w0 =>
    destruct (createSession_succeeds p projectId sessionId w0 H3)
      as (w3 & -> & Hr3 & Hc3 & Hd3 & Hl3)).
  fields. rewrite Hr2, Hr1, !length_app in Hc3. cbn [length] in Hc3.
  replace (length (requests w) + 1 + 1)%nat with (S (S n)) in Hc3 by (subst n; lia).
  unfold bind at 1, consoleLog at 1.
  eexists. split; [|split; [|split; [|split; [|reflexivity]]]]; fields.
  - rewrite Hr3, Hr2, Hr1. by rewrite <- !app_assoc.
  - subst n. lia.
  - congruence.
  - congruence.
Qed.

(** The audit from finding retrieval on: it retrieves, logs, and writes
    what it retrieved in the world [w3]. *)
Lemma runAudit_finish (p : C4Project) (projectId : string) (w : World) :
  let d := Z.of_N (latency b (length (requests w))) in
  let findings := if d <? 30000 then retrieved b else [] in
  exists w3,
    requests w3 = (requests w ++ [findingsRequest this projectId])%list /\
    disk w3 = disk w /\
    lastSessionLogs w3 = lastSessionLogs w /\
    (forall l, l ∈ console w -> l ∈ console w3) /\
    (forall r, fails (findings_res b) r -> d < 30000 ->
       Warn ("[AuditRunner] Failed to get findings: " +:+ pretty (res_status r)) ∈ console w3) /\
    finish p projectId w
    = match writeError h w3 (findingArtifact h this p (clock w3) findings) with
      | Some e => (Thrown e, w3)
      | None =>
          (Returned findings,
           addLine (Log ("[AuditRunner] Saved " +:+ pretty (length findings) +:+ " findings to "
                         +:+ path (findingArtifact h this p (clock w3) findings)))
             (addFile (findingArtifact h this p (clock w3) findings) w3))
      end.
Proof.
  intros d findings. unfold bind at 1.
  destruct (getFindingsFromProject_exact projectId w)
    as (w1 & -> & Hr1 & Hc1 & Hd1 & Hl1 & Hm1 & Hw1).
  fold d findings.
  unfold bind at 1, consoleLog at 1. unfold bind at 1.
  rewrite saveResults_outcome.
  match goal with
  | |- context [writeError h ?w0 _] => exists w0
  end.
  split; [|split; [|split; [|split; [|split]]]]; [..|by destruct (writeError h _ _)];
    fields; try done.
  - intros l Hl. apply elem_of_app. left. by apply Hm1.
  - intros r Hf Hlt. apply elem_of_app. left. by apply Hw1.
Qed.

(** The audit once its first four steps have succeeded: the wait begins,
    and when it has ended and the read of the messages is answered, the
    audit throws or goes on to retrieve the findings. *)
Lemma runAudit_after_wait (p : C4Project) (w : World) (projectId sessionId : string)
    (c : ContainerData) (sd : StartData) :
  let n := length (requests w) in
  let T := timeout (config this) in
  succeeds (createProject_res b) projectId ->
  Z.of_N (latency b (S n)) < 300000 ->
  succeeds (ensureContainer_res b) c ->
  succeeds (createSession_res b) sessionId ->
  Z.of_N (latency b (S (S (S n)))) < 30000 ->
  succeeds (chatStream_res b) sd ->
  exists w1 startTime,
    wait_begins b this p projectId sessionId w w1 startTime /\
    forall polled w2 r,
      pollLoop (pollFuel T) sessionId startTime T 0 "" w1 = (Returned polled, w2) ->
      Z.of_N (latency b (length (requests w2))) < 10000 ->
      messages_res b = Responded r ->
      (exists polls, requests w2 = (requests w1 ++ polls)%list /\
                     Forall (isPoll this) polls) /\
      exists w3,
        requests w3 = (requests w2 ++ [messagesRequest this sessionId])%list /\
        disk w3 = disk w /\
        (forall messages,
           ok r = true -> res_json r = Some messages ->
           lastSessionLogs w3 = messages /\
           Log ("[AuditRunner] Response received ("
                +:+ pretty (String.length (fullResponseOf messages)) +:+ " chars), "
                +:+ pretty (length messages) +:+ " messages logged") ∈ console w3) /\
        runAudit p w
        = if ok r then
            match res_json r with
            | Some messages => finish p projectId w3
            | None => (Thrown "SyntaxError: Unexpected token in JSON", w3)
            end
          else (Thrown "Failed to get messages", w3).
Proof.
  intros n T H1 Hin1 H2 H3 Hin3 H4. subst n.
  destruct (runAudit_to_session p w projectId sessionId c H1 Hin1 H2 H3)
    as (ws & Hrs & Hcs & Hds & Hls & E).
  set (n := length (requests w)) in *.
  assert (Hn : length (requests ws) = S (S (S n))).
  { rewrite Hrs, length_app. cbn [length]. subst n. lia. }
  set (message := instruction ("https://github.com/" +:+ repo p)) in *.
  destruct (sendMessage_after_wait sessionId message sd ws H4)
    as (w1 & Hr1 & Hc1 & Hd1 & Hl1 & Hrest); [by rewrite Hn|].
  rewrite Hn in Hc1, Hrest.
  exists w1, (clock ws + Z.of_N (latency b (S (S (S n))))).
  split.
  { unfold wait_begins. fold n message.
    split; [by rewrite Hr1, Hrs, <- app_assoc|]. clearbody n.
    split; [lia|]. split; [done|]. split; congruence. }
  intros polled w2 r Hloop Hlat Hr.
  split.
  { pose proof (pollLoop_polls b this (pollFuel T) sessionId
                  (clock ws + Z.of_N (latency b (S (S (S n))))) T 0 "" w1) as (polls & Hp & Hall).
    rewrite Hloop in Hp. by exists polls. }
  destruct (Hrest polled w2 r Hloop Hlat Hr) as (w3 & Hr3 & Hc3 & Hd3 & Es & Hlogs).
  exists w3. split; [done|]. split; [congruence|]. split; [done|].
  rewrite E. unfold bind at 1. rewrite Es.
  destruct (ok r); [|done]. by destruct (res_json r).
Qed.

(** What a non-success response does to the audit, step by step. *)
Lemma runAudit_failed_step (p : C4Project) (w : World) : failure_by_step h b this p w.
Proof.
  unfold failure_by_step. split.
  { intros r Hf. unfold AuditRunner.runAudit.
    unfold bind at 1, consoleLog at 1. unfold bind at 1. unfold bind at 1.
    on_world (createProject p) ltac:(fun w0 =>
      destruct (createProject_fails p r w0 Hf) as (w1 & -> & Hr1 & Hd1)).
    exists w1. done. }
  intros projectId H1 Hin1. split.
  { intros r Hf. unfold AuditRunner.runAudit.
    unfold bind at 1, consoleLog at 1. unfold bind at 1. unfold bind at 1.
    on_world (createProject p) ltac:(fun w0 =>
      destruct (createProject_succeeds p projectId w0 H1) as (w1 & -> & Hr1 & Hc1 & Hd1 & Hl1)).
    unfold bind at 1, consoleLog at 1. unfold bind at 1.
    on_world (ensureContainer projectId) ltac:(fun w0 =>
      destruct (ensureContainer_fails projectId r w0) as (w2 & -> & Hr2 & Hd2));
      [fields; rewrite Hr1, length_app; cbn [length];
       by replace (length (requests w) + 1)%nat with (S (length (requests w))) by lia
      | done |].
    exists w2. split; [done|]. fields. rewrite Hr2, Hd2, Hr1, Hd1.
    by rewrite <- !app_assoc. }
  intros c H2. split.
  { intros r Hf. unfold AuditRunner.runAudit.
    unfold bind at 1, consoleLog at 1. unfold bind at 1. unfold bind at 1.
    on_world (createProject p) ltac:(fun w0 =>
      destruct (createProject_succeeds p projectId w0 H1) as (w1 & -> & Hr1 & Hc1 & Hd1 & Hl1)).
    unfold bind at 1, consoleLog at 1. unfold bind at 1.
    on_world (ensureContainer projectId) ltac:(fun w0 =>
      destruct (ensureContainer_succeeds projectId c w0) as (w2 & -> & Hr2 & Hc2 & Hd2 & Hl2));
      [fields; rewrite Hr1, length_app; cbn [length];
       by replace (length (requests w) + 1)%nat with (S (length (requests w))) by lia
      | done |].
    unfold bind at 1, consoleLog at 1. unfold bind at 1.
    on_world (createSession p projectId) ltac:(fun w0 =>
      destruct (createSession_fails p projectId r w0 Hf) as (w3 & -> & Hr3 & Hd3)).
    exists w3. split; [done|]. fields. rewrite Hr3, Hd3, Hr2, Hd2, Hr1, Hd1.
    by rewrite <- !app_assoc. }
  intros sessionId H3 Hin3.
  set (message := instruction ("https://github.com/" +:+ repo p)).
  split.
  { intros r Hf.
    destruct (runAudit_to_session p w projectId sessionId c H1 Hin1 H2 H3)
      as (ws & Hrs & Hcs & Hds & Hls & ->).
    unfold bind at 1. fold message.
    destruct (sendMessage_fails_start sessionId message r ws) as (w2 & E & Hr2 & Hd2);
      [rewrite Hrs, length_app; cbn [length];
       by replace (length (requests w) + 3)%nat with (S (S (S (length (requests w))))) by lia
      | done |].
    rewrite E. exists w2. split; [done|].
    rewrite Hr2, Hd2, Hrs, Hds. by rewrite <- !app_assoc. }
  intros sd H4.
  destruct (runAudit_after_wait p w projectId sessionId c sd H1 Hin1 H2 H3 Hin3 H4)
    as (w1 & startTime & Hwb & Hrest).
  exists w1, startTime. split; [done|].
  intros polled w2 Hloop Hlat. split; [|split].
  - destruct (messages_res b) as [reason|r] eqn:Hm.
    + pose proof (pollLoop_polls b this
                    (pollFuel (timeout (config this))) sessionId startTime
                    (timeout (config this)) 0 "" w1) as (polls & Hp & Hall).
      rewrite Hloop in Hp. by exists polls.
    + by destruct (Hrest polled w2 r Hloop Hlat eq_refl) as [Hpolls _].
  - intros r [Hr Hok].
    destruct (Hrest polled w2 r Hloop Hlat Hr) as (_ & w3 & Hr3 & Hd3 & _ & E).
    rewrite Hok in E. by exists w3.
  - intros messages (rm & Hrm & Hokm & Hjm) Hlatf r Hf.
    destruct (Hrest polled w2 rm Hloop Hlat Hrm) as (_ & w3 & Hr3 & Hd3 & _ & E).
    rewrite Hokm, Hjm in E.
    destruct (runAudit_finish p projectId w3) as (w4 & Hr4 & Hd4 & Hl4 & _ & Hw4 & E4).
    assert (Hn : length (requests w3) = S (length (requests w2))).
    { rewrite Hr3, length_app. cbn [length]. lia. }
    rewrite Hn in Hw4, E4.
    assert (Hnil : retrieved b = []).
    { destruct Hf as [Hr Hok]. unfold retrieved. by rewrite Hr, Hok. }
    replace (if Z.of_N (latency b (S (length (requests w2)))) <? 30000 then retrieved b else [])
      with (@nil Finding) in E4 by (rewrite Hnil; by destruct (_ <? _)).
    exists w4. split; [by rewrite Hr4, Hr3, <- app_assoc|]. split; [congruence|].
    split; [by apply Hw4|].
    rewrite E, E4. destruct (writeError h w4 _); [done|].
    eexists. split; [reflexivity|]. fields. split; [done|]. congruence.
Qed.

(** A container that is not ready makes the audit throw, whether the
    answer comes in time or not. *)
Lemma runAudit_container_not_ready (p : C4Project) (projectId : string)
    (r : Response ContainerData) (w : World) :
  succeeds (createProject_res b) projectId ->
  fails (ensureContainer_res b) r ->
  exists e w', runAudit p w = (Thrown e, w') /\ disk w' = disk w.
Proof.
  intros H1 Hf. unfold AuditRunner.runAudit.
  unfold bind at 1, consoleLog at 1. unfold bind at 1. unfold bind at 1.
  on_world (createProject p) ltac:(fun w0 =>
    destruct (createProject_succeeds p projectId w0 H1) as (w1 & -> & Hr1 & Hc1 & Hd1 & Hl1)).
  unfold bind at 1, consoleLog at 1. unfold bind at 1.
  on_world (ensureContainer projectId) ltac:(fun w0 =>
    destruct (ensureContainer_throws projectId r w0 Hf) as (e & w2 & -> & Hd2)).
  exists e, w2. split; [done|]. fields. congruence.
Qed.


End Runner.

(** ** The runner under the scheduler *)

Section Extended.

Variable h : Host.
Variable backendOf : C4Project -> Backend.
Variable runner : BenchmarkRunner.t.
Variable signalled : nat -> bool.

Abbreviation handlers := [BenchmarkRunner.handleEvent].

Lemma emit_handleEvent (ev : BenchmarkEvent) (s : BenchmarkScheduler.t) (w : World) :
  exists w', BenchmarkScheduler.emit handlers ev (s, w) = (Returned tt, (s, w')) /\
             disk w' = disk w.
Proof.
  unfold BenchmarkScheduler.emit, BenchmarkScheduler.inWorld, BenchmarkScheduler.emitTo,
    bind, tryCatch, ret.
  destruct ev; simpl; eexists; (split; [reflexivity|]); done.
Qed.

Ltac ext_emit :=
  match goal with
  | |- context [BenchmarkScheduler.emit _ ?ev (?s, ?w)] =>
      let w' := fresh "w" in
      let E := fresh "E" in
      let He := fresh "He" in
      destruct (emit_handleEvent ev s w) as (w' & E & He); rewrite E; simpl
  end.

(** The benchmark runner fails with the audit runner, and writes nothing. *)
Lemma runAudit_propagates (p : C4Project) (gt : list Finding) (w : World) :
  BenchmarkRunner.getGroundTruth (BenchmarkRunner.indexer runner) p = Returned gt ->
  (forall w0, exists e w1,
      AuditRunner.runAudit h (backendOf p) (BenchmarkRunner.auditRunner runner) p w0
      = (Thrown e, w1) /\ disk w1 = disk w0) ->
  exists e w', BenchmarkRunner.runAudit h backendOf runner p w = (Thrown e, w') /\
               disk w' = disk w.
Proof.
  intros Hgt Hthrow.
  unfold BenchmarkRunner.runAudit, BenchmarkRunner.fetchGroundTruth.
  unfold bind at 1, now at 1. unfold bind at 1, consoleLog at 1.
  unfold bind at 1, consoleLog at 1. unfold bind at 1. rewrite Hgt.
  unfold bind at 1, consoleLog at 1. unfold bind at 1, consoleLog at 1.
  unfold bind at 1.
  match goal with
  | |- context [AuditRunner.runAudit _ _ _ _ ?w0] =>
      destruct (Hthrow w0) as (e & w1 & -> & Hd)
  end.
  exists e, w1. split; [done|]. by rewrite Hd.
Qed.

(** When the container is not ready, the run of the one project settles
    with the project recorded as failed, whether or not the checkpoint
    can be written. *)
Lemma ensureContainer_failure_recorded (p : C4Project) (s : BenchmarkScheduler.t)
    (w : World) (projectId : string) (r : Response ContainerData) (gt : list Finding) :
  BenchmarkScheduler.isRunning s = false ->
  name p ∉ completedProjects (BenchmarkScheduler.checkpoint s) ->
  succeeds (createProject_res (backendOf p)) projectId ->
  fails (ensureContainer_res (backendOf p)) r ->
  BenchmarkRunner.getGroundTruth (BenchmarkRunner.indexer runner) p = Returned gt ->
  match ExtendedScheduler.start h backendOf runner signalled [p] (s, w) with
  | (Diverged, _) => False
  | (o, (s', w')) =>
      completedProjects (BenchmarkScheduler.checkpoint s')
      = completedProjects (BenchmarkScheduler.checkpoint s) /\
      failedProjects (BenchmarkScheduler.checkpoint s')
      = (failedProjects (BenchmarkScheduler.checkpoint s) ++ [name p])%list /\
      BenchmarkScheduler.audited s' = (BenchmarkScheduler.audited s ++ [name p])%list /\
      BenchmarkScheduler.isRunning s' = false /\
      match o with
      | Thrown e => checkpoint_rejected h s e /\ disk w' = disk w
      | _ => exists c,
               disk w' = (disk w ++ [{| path := pathJoin (BenchmarkScheduler.dataDir s)
                                                  "checkpoint.json";
                                        data := CheckpointJson c |}])%list
      end
  end.
Proof.
  intros Hrun Hnew H1 H2 Hgt.
  assert (Hthrow : forall w0, exists e w1,
             AuditRunner.runAudit h (backendOf p) (BenchmarkRunner.auditRunner runner) p w0
             = (Thrown e, w1) /\ disk w1 = disk w0).
  { intros w0. by eapply runAudit_container_not_ready. }
  unfold ExtendedScheduler.start, BenchmarkScheduler.start.
  unfold bind at 1, BenchmarkScheduler.self at 1. simpl. rewrite Hrun.
  unfold bind at 1, BenchmarkScheduler.update at 1. simpl.
  unfold bind at 1, BenchmarkScheduler.update at 1. simpl.
  unfold bind at 1, BenchmarkScheduler.inWorld at 1, consoleLog at 1. simpl.
  unfold BenchmarkScheduler.tryFinally, BenchmarkScheduler.runBenchmark.
  unfold bind at 1. unfold BenchmarkScheduler.loop.
  unfold bind at 1, BenchmarkScheduler.self at 1. simpl.
  rewrite bool_decide_false by done.
  unfold bind at 1. unfold BenchmarkScheduler.attempt.
  unfold bind at 1, BenchmarkScheduler.update at 1. simpl.
  unfold bind at 1, BenchmarkScheduler.inWorld at 1, now at 1. simpl.
  unfold bind at 1.
  ext_emit.
  unfold bind at 1, tryCatch at 1. unfold bind at 1.
  unfold BenchmarkScheduler.awaitAudit at 1.
  unfold bind at 1, BenchmarkScheduler.self at 1. simpl.
  unfold bind at 1, BenchmarkScheduler.update at 1. simpl.
  unfold bind at 1.
  destruct (signalled _);
    unfold BenchmarkScheduler.stop, ret, BenchmarkScheduler.inWorld, consoleLog, consoleError,
      BenchmarkScheduler.update, bind; simpl;
    match goal with
    | |- context [BenchmarkRunner.runAudit _ _ _ _ ?w0] =>
        destruct (runAudit_propagates p gt w0 Hgt Hthrow) as (e & w2 & -> & Hd2)
    end; simpl.
  all: unfold BenchmarkScheduler.saveCheckpoint, bind, BenchmarkScheduler.inWorld, now,
         BenchmarkScheduler.update, BenchmarkScheduler.self, writeFile; simpl.
  all: match goal with
       | |- context [writeError h ?w0 ?f] => destruct (writeError h w0 f) as [e'|] eqn:Ew
       end; simpl.
  all: repeat ext_emit.
  all: do 4 (split; [reflexivity|]).
  all: try (split; [by eexists _, _|]).
  all: try eexists.
  all: rewrite ?He0, ?He; simpl; rewrite ?Hd2; simpl; rewrite ?He; simpl; try reflexivity.
Qed.

End Extended.

(** C2, amended: a non-success response to project creation, to container
    readiness, to session creation, to the dispatch of the instruction or
    to the read of the messages that follows the completion wait makes the
    audit throw; the steps after it are not started and nothing is
    written.  A non-success response to finding retrieval does not: the
    audit logs a warning and goes on with an empty list of findings, which
    it writes to a finding artifact and returns, unless the file system
    rejects the write.  When the ensure-container call fails, the
    scheduler records the project as failed, and the run writes the
    checkpoint and nothing else, no finding artifact in particular. *)
Theorem failed_step_aborts_audit (h : Host) (backendOf : C4Project -> Backend)
    (runner : BenchmarkRunner.t) (signalled : nat -> bool) (p : C4Project) (w : World) :
  failure_by_step h (backendOf p) (BenchmarkRunner.auditRunner runner) p w /\
  (forall (s : BenchmarkScheduler.t) (projectId : string) (r : Response ContainerData)
          (gt : list Finding),
     BenchmarkScheduler.isRunning s = false ->
     name p ∉ completedProjects (BenchmarkScheduler.checkpoint s) ->
     succeeds (createProject_res (backendOf p)) projectId ->
     fails (ensureContainer_res (backendOf p)) r ->
     BenchmarkRunner.getGroundTruth (BenchmarkRunner.indexer runner) p = Returned gt ->
     match ExtendedScheduler.start h backendOf runner signalled [p] (s, w) with
     | (Diverged, _) => False
     | (o, (s', w')) =>
         completedProjects (BenchmarkScheduler.checkpoint s')
         = completedProjects (BenchmarkScheduler.checkpoint s) /\
         failedProjects (BenchmarkScheduler.checkpoint s')
         = (failedProjects (BenchmarkScheduler.checkpoint s) ++ [name p])%list /\
         BenchmarkScheduler.audited s' = (BenchmarkScheduler.audited s ++ [name p])%list /\
         (forall f, f ∈ disk w' -> isFindingArtifact f -> f ∈ disk w) /\
         match o with
         | Thrown e => checkpoint_rejected h s e /\ disk w' = disk w
         | _ => exists c,
                  disk w' = (disk w ++ [{| path := pathJoin (BenchmarkScheduler.dataDir s)
                                                     "checkpoint.json";
                                           data := CheckpointJson c |}])%list
         end
     end).
Proof.
  split.
  - by apply runAudit_failed_step.
  - intros s projectId r gt Hrun Hnew H1 H2 Hgt.
    pose proof (ensureContainer_failure_recorded h backendOf runner signalled p s w
                  projectId r gt Hrun Hnew H1 H2 Hgt) as H.
    destruct (ExtendedScheduler.start _ _ _ _ _ _) as [[[]|e|] [s' w']]; [| |done].
    + destruct H as (Hc & Hf & Ha & _ & c & Hd). do 3 (split; [done|]).
      split; [|by exists c].
      intros f Hin' [findings Hfind]. rewrite Hd in Hin'.
      apply elem_of_app in Hin' as [Hin'|Hin']; [done|].
      apply list_elem_of_singleton in Hin'. subst f. discriminate.
    + destruct H as (Hc & Hf & Ha & _ & Hrej & Hd). do 3 (split; [done|]).
      split; [|done]. intros f Hin' _. by rewrite Hd in Hin'.
Qed.

(** ** The properties at work on sample data *)

(** The scenario of the specification: two ground truth findings, one
    high and one medium, and one finding of the audit. *)
Lemma buildRunResult_counts_witness :
  let r := BenchmarkRunner.buildRunResult Sample.host 0 Sample.demo
             [Sample.groundTruthFinding high; Sample.groundTruthFinding medium]
             [AuditRunner.toFinding Sample.remoteFinding] 32 in
  gt_total (ground_truth r) = 2%nat /\
  by_severity (ground_truth r) !! "high" = Some 1%nat /\
  by_severity (ground_truth r) !! "medium" = Some 1%nat /\
  by_severity (ground_truth r) !! "low" = None /\
  by_severity (ground_truth r) !! "constructor" = None /\
  dd_total (dd_findings r) = 1%nat.
Proof.
  intros r.
  pose proof (buildRunResult_counts Sample.host 0 Sample.demo
                [Sample.groundTruthFinding high; Sample.groundTruthFinding medium]
                [AuditRunner.toFinding Sample.remoteFinding] 32) as (H1 & H2 & H3 & _ & H5 & _).
  split; [exact H1|]. split; [exact (H2 high)|]. split; [exact (H2 medium)|].
  split; [exact (H2 low)|]. split; [|exact H5].
  apply H3. change ("constructor" ∉ ["critical"; "high"; "medium"; "low"; "info"]).
  set_solver.
Defined.

(** C3, as stated, fails on a list that names a project twice: the second
    occurrence is skipped, so one name is recorded for two projects. *)
Lemma duplicate_project_recorded_once :
  let r := BenchmarkScheduler.start Sample.host [] Sample.audit Sample.never
             [Sample.demo; Sample.demo] (Sample.fresh, Sample.world) in
  completedProjects (BenchmarkScheduler.checkpoint Sample.fresh) = [] /\
  failedProjects (BenchmarkScheduler.checkpoint Sample.fresh) = [] /\
  fst r = Returned tt /\
  (length (completedProjects (BenchmarkScheduler.checkpoint (fst (snd r))))
   + length (failedProjects (BenchmarkScheduler.checkpoint (fst (snd r)))))%nat
  <> length [Sample.demo; Sample.demo].
Proof. vm_compute. repeat split; discriminate. Qed.

(** Two projects with distinct names, the second of which fails. *)
Lemma start_records_every_project_witness :
  let r := BenchmarkScheduler.start Sample.host [] Sample.audit Sample.never
             [Sample.demo; Sample.other] (Sample.fresh, Sample.world) in
  (length (completedProjects (BenchmarkScheduler.checkpoint (fst (snd r))))
   + length (failedProjects (BenchmarkScheduler.checkpoint (fst (snd r)))))%nat
  = 2%nat.
Proof.
  intros r.
  refine (proj2 (start_records_every_project Sample.host [] Sample.audit Sample.never
                   [Sample.demo; Sample.other] Sample.fresh (fst (snd r))
                   Sample.world (snd (snd r)) _ _ _ _ _ _)).
  - reflexivity.
  - reflexivity.
  - reflexivity.
  - change (NoDup ["demo-proj"; "other-proj"]). repeat constructor; set_solver.
  - intros n. reflexivity.
  - vm_compute. reflexivity.
Defined.

(** A run that resumes with the first project completed. *)
Lemma completed_project_never_audited_witness :
  let r := BenchmarkScheduler.runBenchmark Sample.host [] Sample.audit Sample.never
             [Sample.demo; Sample.other] (Sample.resumed ["demo-proj"] [], Sample.world) in
  exists new,
    BenchmarkScheduler.audited (fst (snd r)) = ([] ++ new)%list /\ "demo-proj" ∉ new.
Proof.
  intros r.
  refine (completed_project_never_audited Sample.host [] Sample.audit Sample.never
            [Sample.demo; Sample.other] "demo-proj" (Sample.resumed ["demo-proj"] [])
            (fst (snd r)) Sample.world (snd (snd r)) (fst r) _ _).
  - change ("demo-proj" ∈ ["demo-proj"]). set_solver.
  - vm_compute. reflexivity.
Defined.

(** A signal during the first of two projects. *)
Lemma stop_takes_effect_at_project_boundary_witness :
  BenchmarkScheduler.loop Sample.host [] Sample.audit Sample.always
    [Sample.demo; Sample.other] (Sample.fresh, Sample.world)
  = BenchmarkScheduler.attempt Sample.host [] Sample.audit Sample.always Sample.demo
      (Sample.fresh, Sample.world).
Proof.
  assert (H1 : BenchmarkScheduler.shouldStop Sample.fresh = false) by reflexivity.
  assert (H2 : name Sample.demo
               ∉ completedProjects (BenchmarkScheduler.checkpoint Sample.fresh)).
  { change ("demo-proj" ∉ @nil string). set_solver. }
  assert (H3 : Sample.always (length (BenchmarkScheduler.audited Sample.fresh)) = true)
    by reflexivity.
  pose proof (stop_takes_effect_at_project_boundary Sample.host [] Sample.audit
                Sample.always Sample.demo [Sample.other] Sample.fresh Sample.world
                H1 H2 H3) as H.
  destruct H as [H _]. exact H.
Defined.




(** The status endpoint answers 503 at the first poll: that turn, and the
    whole wait. *)
Lemma status_failure_does_not_abort_wait_witness :
  fst (AuditRunner.pollBody Sample.flaky (Sample.auditRunner 30000) "session-1" 1 ""
         (advance 10000 Sample.world))
  = Returned (AuditRunner.Continue "") /\
  exists polled w',
    AuditRunner.pollLoop Sample.flaky (Sample.auditRunner 30000) (AuditRunner.pollFuel 30000)
      "session-1" 0 30000 0 "" (advance 10000 Sample.world)
    = (Returned polled, w').
Proof.
  pose proof (status_failure_does_not_abort_wait Sample.flaky
                (Sample.auditRunner 30000) "session-1" 0 30000) as [H1 H2].
  split.
  - destruct (H1 5%nat 0%nat "" (advance 10000 Sample.world)
                {| res_status := 503; statusText := "Internal Server Error";
                   res_text := "boom"; res_json := None |}
                eq_refl eq_refl eq_refl eq_refl) as [H _].
    exact (f_equal fst H).
  - apply H2; [|apply Z.le_refl].
    split; [|split].
    + intros n. reflexivity.
    + intros k. unfold Sample.flaky, Sample.script, session_res.
      destruct (k =? 1)%nat; eexists; (split; [reflexivity|]); intros; discriminate.
    + intros k. eexists. split; [reflexivity|]. intros _. discriminate.
Defined.



(** C2, as stated, fails at finding retrieval: a response with status 500
    there does not make the audit throw; the audit returns an empty list
    and writes it to a finding artifact. *)
Lemma findings_failure_yields_empty_artifact :
  let r := AuditRunner.runAudit Sample.host Sample.findingsDown (Sample.auditRunner 30000)
             Sample.demo Sample.world in
  fails (findings_res Sample.findingsDown)
    {| res_status := 500; statusText := "Internal Server Error";
       res_text := "boom"; res_json := None |} /\
  fst r = Returned [] /\
  disk (snd r) = [{| path := "data/runs/demo-proj/findings-2026-01-01T00-00-00-000Z.json";
                     data := FindingsJson [] |}].
Proof. vm_compute. repeat split. Qed.

(** The ensure-container call answers 500. *)
Lemma failed_step_aborts_audit_witness :
  exists s' w',
    ExtendedScheduler.start Sample.host (fun _ => Sample.containerDown) Sample.benchmarkRunner
      Sample.never [Sample.demo] (Sample.fresh, Sample.world)
    = (Returned tt, (s', w')) /\
    failedProjects (BenchmarkScheduler.checkpoint s') = ["demo-proj"] /\
    map path (disk w') = ["data/checkpoint.json"].
Proof.
  assert (Hnew : name Sample.demo ∉ completedProjects (BenchmarkScheduler.checkpoint Sample.fresh)).
  { change ("demo-proj" ∉ @nil string). set_solver. }
  pose proof (proj2 (failed_step_aborts_audit Sample.host (fun _ => Sample.containerDown)
                       Sample.benchmarkRunner Sample.never Sample.demo Sample.world)
                Sample.fresh "project-1"
                {| res_status := 500; statusText := "Internal Server Error";
                   res_text := "boom"; res_json := None |}
                [Sample.groundTruthFinding high; Sample.groundTruthFinding medium]
                eq_refl Hnew (ex_intro _ _ (conj eq_refl (conj eq_refl eq_refl)))
                (conj eq_refl eq_refl) eq_refl) as H.
  destruct (ExtendedScheduler.start _ _ _ _ _ _) as [[[]|e|] [s' w']] eqn:E.
  - destruct H as (_ & Hf & _ & _ & c & Hd).
    exists s', w'. split; [reflexivity|]. split; [exact Hf|]. rewrite Hd. reflexivity.
  - exfalso. vm_compute in E. discriminate.
  - destruct H.
Defined.

(** ** More of the scheduler *)

Section SchedulerMore.

Import BenchmarkScheduler.

Variable h : Host.
Variable eventHandlers : list EventHandler.
Variable runAudit : C4Project -> M World RunResult.
Variable signalled : nat -> bool.

Abbreviation emit := (emit eventHandlers).
Abbreviation saveCheckpoint := (saveCheckpoint h eventHandlers).
Abbreviation attempt := (attempt h eventHandlers runAudit signalled).
Abbreviation loop := (loop h eventHandlers runAudit signalled).
Abbreviation runBenchmark := (runBenchmark h eventHandlers runAudit signalled).
Abbreviation start := (start h eventHandlers runAudit signalled).

(** X1: every listener hears the event once, in registration order, and an
    error of one is reported without keeping the event from the next. *)
Theorem emitTo_reaches_every_listener (hs : list EventHandler) (ev : BenchmarkEvent) (w : World) :
  settle_on ev hs ->
  emitTo hs ev w = (Returned tt, foldl (heard ev) w hs).
Proof.
  revert w. induction hs as [|hd hs IH]; intros w Hs; [done|].
  simpl. unfold bind, tryCatch, heard at 2.
  assert (Hhd : fst (hd ev w) <> Diverged) by (apply Hs; set_solver).
  assert (Hs' : settle_on ev hs) by (intros hd' w' Hin; apply Hs; set_solver).
  destruct (hd ev w) as [[[]|e|] w1]; [by apply IH| |done].
  simpl. by apply IH.
Qed.

(** The loop leaves [isRunning] alone.  It throws only when the file
    system rejects a write of the checkpoint; when it does not settle, an
    audit of one of the projects or a listener did not. *)
Lemma loop_running (projects : list C4Project) (s : t) (w : World) :
  match loop projects (s, w) with
  | (Returned _, (s', _)) => isRunning s' = isRunning s
  | (Thrown e, (s', _)) => isRunning s' = isRunning s /\ checkpoint_rejected h s e
  | (Diverged, _) =>
      (exists p, p ∈ projects /\ audit_diverges runAudit p) \/ handler_diverges eventHandlers
  end.
Proof.
  revert s w. induction projects as [|p rest IH]; intros s w; [done|].
  destruct (shouldStop s) eqn:Hstop.
  { by rewrite loop_stop. }
  destruct (decide (name p ∈ completedProjects (checkpoint s))) as [Hin|Hin].
  { rewrite loop_skip by done.
    specialize (IH s (addLine (Log ("[Scheduler] Skipping completed project: " +:+ name p)) w)).
    destruct (BenchmarkScheduler.loop _ _ _ _ rest _) as [[[]|e|] [s' w']]; [done|done|].
    destruct IH as [(q & Hq & Hd)|Hd]; [left|by right]. exists q. set_solver. }
  rewrite loop_attempt by done.
  pose proof (attempt_outcome h eventHandlers runAudit signalled p s w) as Hpost.
  destruct (BenchmarkScheduler.attempt _ _ _ _ p _) as [[[]|e|] [s1 w1]].
  - destruct Hpost as (b & l & w2 & w3 & -> & _).
    specialize (IH (stamped l (attempted signalled p b s)) w1).
    destruct (BenchmarkScheduler.loop _ _ _ _ rest _) as [[[]|e|] [s' w']].
    + by rewrite IH, attempted_isRunning.
    + destruct IH as [IH Hrej]. split; [by rewrite IH, attempted_isRunning|].
      eapply checkpoint_rejected_dataDir; [|exact Hrej]. apply attempted_dataDir.
    + destruct IH as [(q & Hq & Hd)|Hd]; [left|by right]. exists q. set_solver.
  - destruct Hpost as ((b & l & w2 & w3 & -> & _) & Hrej).
    split; [apply attempted_isRunning | done].
  - simpl in Hpost. destruct Hpost as (_ & _ & [Hd|Hd]); [left|by right].
    exists p. set_solver.
Qed.

(** An idle scheduler that is started contains the failures of the audits
    and of the listeners. *)
Lemma start_settles (projects : list C4Project) (s : t) (w : World) :
  isRunning s = false ->
  match start projects (s, w) with
  | (Returned _, (s', _)) => isRunning s' = false
  | (Thrown e, (s', _)) => isRunning s' = false /\ checkpoint_rejected h s e
  | (Diverged, _) =>
      (exists p, p ∈ projects /\ audit_diverges runAudit p) \/
      handler_diverges eventHandlers
  end.
Proof.
  intros Hrun. unfold BenchmarkScheduler.start.
  unfold bind at 1, self at 1. simpl. rewrite Hrun.
  unfold bind at 1, update at 1. simpl.
  unfold bind at 1, update at 1. simpl.
  unfold bind at 1, inWorld at 1, consoleLog at 1. simpl.
  unfold tryFinally.
  match goal with
  | |- context [BenchmarkScheduler.runBenchmark _ _ _ _ _ (?s0, ?w0)] =>
      pose proof (loop_running projects s0 w0) as Hl;
      destruct (BenchmarkScheduler.runBenchmark h eventHandlers runAudit signalled projects (s0, w0))
        as [o [s1 w1]] eqn:E
  end.
  apply runBenchmark_inv in E as [w2 E]. rewrite E in Hl.
  destruct o as [[]|e|]; simpl; [done| |done].
  split; [done|]. by destruct Hl as [_ (w0 & c & Hw)]; exists w0, c.
Qed.

(** X2: [start] refuses a second run while one is in flight, and touches
    nothing then.  Otherwise no failure of an audit or of a listener comes
    out of it as an error: it settles unless an audit or a listener never
    does, it throws only when the file system rejects a write of the
    checkpoint file, and whether it returns or throws, [isRunning] is
    cleared. *)
Theorem start_refuses_reentry_and_contains_failures (projects : list C4Project)
    (s : t) (w : World) :
  if isRunning s
  then start projects (s, w) = (Thrown "Benchmark is already running", (s, w))
  else match start projects (s, w) with
       | (Diverged, _) =>
           (exists p, p ∈ projects /\ audit_diverges runAudit p) \/
           handler_diverges eventHandlers
       | (o, (s', _)) =>
           isRunning s' = false /\
           forall e, o = Thrown e -> checkpoint_rejected h s e
       end.
Proof.
  destruct (isRunning s) eqn:Hrun.
  { unfold BenchmarkScheduler.start, bind, self. simpl. by rewrite Hrun. }
  pose proof (start_settles projects s w Hrun) as H.
  destruct (BenchmarkScheduler.start _ _ _ _ _ _) as [[[]|e|] [s' w']]; [|..|done].
  - split; [done|]. by intros e.
  - destruct H as [H1 H2]. split; [done|]. by intros e' [= <-].
Qed.

(** The audits of a run are started in the order of the list. *)
Lemma loop_order (projects : list C4Project) (s : t) (w : World) :
  exists new,
    audited (fst (snd (loop projects (s, w)))) = (audited s ++ new)%list /\
    new `sublist_of` map name projects.
Proof.
  revert s w. induction projects as [|p rest IH]; intros s w.
  { exists []. simpl. by rewrite app_nil_r. }
  destruct (shouldStop s) eqn:Hstop.
  { rewrite loop_stop by done. exists []. simpl. rewrite app_nil_r. split; [done|].
    apply sublist_nil_l. }
  destruct (decide (name p ∈ completedProjects (checkpoint s))) as [Hin|Hin].
  { rewrite loop_skip by done.
    destruct (IH s (addLine (Log ("[Scheduler] Skipping completed project: " +:+ name p)) w))
      as (new & Ha & Hs).
    exists new. split; [done|]. simpl. by apply sublist_cons. }
  rewrite loop_attempt by done.
  pose proof (attempt_outcome h eventHandlers runAudit signalled p s w) as Hpost.
  destruct (BenchmarkScheduler.attempt _ _ _ _ p _) as [[[]|e|] [s1 w1]].
  - destruct Hpost as (b & l & w2 & w3 & -> & _).
    destruct (IH (stamped l (attempted signalled p b s)) w1) as (new & Ha & Hs).
    rewrite attempted_audited in Ha.
    exists (name p :: new). split; [by rewrite Ha, <- app_assoc|].
    simpl. by apply sublist_skip.
  - destruct Hpost as ((b & l & w2 & w3 & -> & _) & _). cbn [fst snd].
    rewrite attempted_audited.
    exists [name p]. split; [done|]. apply sublist_skip, sublist_nil_l.
  - simpl in Hpost. destruct Hpost as ([Ha|Ha] & _ & _); simpl.
    + exists []. rewrite app_nil_r. split; [done|]. apply sublist_nil_l.
    + exists [name p]. split; [done|]. apply sublist_skip, sublist_nil_l.
Qed.

Lemma start_order (projects : list C4Project) (s : t) (w : World) :
  exists new,
    audited (fst (snd (start projects (s, w)))) = (audited s ++ new)%list /\
    new `sublist_of` map name projects.
Proof.
  unfold BenchmarkScheduler.start.
  unfold bind at 1, self at 1. simpl.
  destruct (isRunning s) eqn:Hrun.
  { exists []. simpl. rewrite app_nil_r. split; [done|]. apply sublist_nil_l. }
  unfold bind at 1, update at 1. simpl.
  unfold bind at 1, update at 1. simpl.
  unfold bind at 1, inWorld at 1, consoleLog at 1. simpl.
  unfold tryFinally.
  match goal with
  | |- context [BenchmarkScheduler.runBenchmark _ _ _ _ _ (?s0, ?w0)] =>
      destruct (loop_order projects s0 w0) as (new & Ha & Hs);
      destruct (BenchmarkScheduler.runBenchmark h eventHandlers runAudit signalled projects (s0, w0))
        as [o [s1 w1]] eqn:E
  end.
  apply runBenchmark_inv in E as [w2 E]. rewrite E in Ha. simpl in Ha.
  exists new. split; [|done].
  destruct o as [[]|e|]; simpl; done.
Qed.

(** X3: however a call of [start] ends, the audits it started are for
    projects of the list it was given, taken in the order of that list, each
    position at most once. *)
Theorem start_audits_in_list_order (projects : list C4Project) (s : t) (w : World) :
  exists new,
    audited (fst (snd (start projects (s, w)))) = (audited s ++ new)%list /\
    new `sublist_of` map name projects.
Proof. apply start_order. Qed.

Lemma remaining_skip (finished : list string) (p : C4Project) (rest : list C4Project) :
  name p ∈ finished -> remaining finished (p :: rest) = remaining finished rest.
Proof. intros Hin. unfold remaining. simpl. by rewrite bool_decide_true. Qed.

Lemma remaining_take (finished : list string) (p : C4Project) (rest : list C4Project) :
  name p ∉ finished -> remaining finished (p :: rest) = name p :: remaining finished rest.
Proof. intros Hin. unfold remaining. simpl. by rewrite bool_decide_false. Qed.

Lemma remaining_completed_other (finished : list string) (P : string) (rest : list C4Project) :
  P ∉ map name rest -> remaining (finished ++ [P]) rest = remaining finished rest.
Proof.
  unfold remaining. induction rest as [|q rest IH]; intros HP; [done|].
  simpl in *. rewrite IH by set_solver.
  assert (name q <> P) by set_solver.
  destruct (decide (name q ∈ finished)) as [Hin|Hin].
  - rewrite !bool_decide_true by set_solver. done.
  - rewrite !bool_decide_false by set_solver. done.
Qed.

Lemma loop_remaining (projects : list C4Project) (s s' : t) (w w' : World) :
  (forall n, signalled n = false) ->
  shouldStop s = false ->
  NoDup (map name projects) ->
  loop projects (s, w) = (Returned tt, (s', w')) ->
  audited s' = (audited s ++ remaining (completedProjects (checkpoint s)) projects)%list.
Proof.
  intros Hsig. revert s w. induction projects as [|p rest IH]; intros s w Hstop Hnd.
  { simpl. intros [= <- <-]. by rewrite app_nil_r. }
  simpl in Hnd. apply list.NoDup_cons in Hnd as [Hp Hnd].
  destruct (decide (name p ∈ completedProjects (checkpoint s))) as [Hin|Hin].
  { rewrite loop_skip, remaining_skip by done. by apply IH. }
  rewrite loop_attempt, remaining_take by done.
  pose proof (attempt_outcome h eventHandlers runAudit signalled p s w) as Hpost.
  destruct (BenchmarkScheduler.attempt _ _ _ _ p _) as [[[]|e|] [s1 w1]]; [|done|done].
  destruct Hpost as (b & l & w2 & w3 & -> & _). intros Hloop.
  apply IH in Hloop; [|by rewrite attempted_shouldStop, Hsig, Hstop|done].
  rewrite Hloop, attempted_audited, attempted_completed, <- app_assoc. simpl.
  destruct b; [|done]. by rewrite remaining_completed_other.
Qed.


(** Listeners that write no file leave the files as they are. *)
Lemma emitTo_disk (hs : list EventHandler) (ev : BenchmarkEvent) (w : World) :
  leave_files hs -> disk (snd (emitTo hs ev w)) = disk w.
Proof.
  revert w. induction hs as [|hd hs IH]; intros w Hq; [done|].
  simpl. unfold bind, tryCatch.
  assert (Hhd : disk (snd (hd ev w)) = disk w) by (apply Hq; set_solver).
  assert (Hq' : leave_files hs) by (intros hd' ev' w' Hin; apply Hq; set_solver).
  destruct (hd ev w) as [[[]|e|] w1]; simpl in *; [|simpl|done].
  - by rewrite IH.
  - by rewrite IH.
Qed.

Lemma checkpoint_on_disk_last (s : t) (w w0 : World) :
  disk w = (disk w0 ++ [{| path := pathJoin (dataDir s) "checkpoint.json";
                           data := CheckpointJson (checkpoint s) |}])%list ->
  checkpoint_on_disk s w.
Proof.
  intros Hd. unfold checkpoint_on_disk, loadCheckpoint, bind, self, tryCatch, inWorld, readFile.
  simpl. rewrite Hd, reverse_snoc. simpl. by rewrite String.eqb_refl.
Qed.

Lemma checkpoint_on_disk_same (s : t) (w w' : World) :
  disk w' = disk w -> checkpoint_on_disk s w -> checkpoint_on_disk s w'.
Proof.
  unfold checkpoint_on_disk, loadCheckpoint, bind, self, tryCatch, inWorld, readFile.
  simpl. intros ->.
  destruct (List.find _ _); simpl; [|done]. intros [= ->]. done.
Qed.

Lemma saveCheckpoint_on_disk (s s' : t) (w w' : World) :
  leave_files eventHandlers ->
  saveCheckpoint (s, w) = (Returned tt, (s', w')) ->
  checkpoint_on_disk s' w'.
Proof.
  intros Hq.
  unfold BenchmarkScheduler.saveCheckpoint, bind, inWorld, now, update, self, writeFile. simpl.
  destruct (writeError h w _) as [e0|]; simpl; [done|].
  unfold BenchmarkScheduler.emit, inWorld. simpl.
  match goal with
  | |- context [emitTo eventHandlers ?ev ?w0] =>
      pose proof (emitTo_disk eventHandlers ev w0 Hq) as Hd;
      destruct (emitTo eventHandlers ev w0) as [[[]|e|] w1]; simpl; [|done|done]
  end.
  unfold consoleLog. simpl. intros [= <- <-].
  eapply checkpoint_on_disk_last. simpl in *. rewrite Hd. reflexivity.
Qed.

Lemma bind_returned {S A B} (m : M S A) (k : A -> M S B) (s s' : S) (b : B) :
  bind m k s = (Returned b, s') ->
  exists a s1, m s = (Returned a, s1) /\ k a s1 = (Returned b, s').
Proof.
  unfold bind. destruct (m s) as [[a|e|] s1]; [eauto|done|done].
Qed.

Lemma attempt_on_disk (p : C4Project) (s s' : t) (w w' : World) :
  leave_files eventHandlers ->
  attempt p (s, w) = (Returned tt, (s', w')) ->
  checkpoint_on_disk s' w'.
Proof.
  intros Hq. unfold BenchmarkScheduler.attempt.
  intros H.
  apply bind_returned in H as (? & [s1 w1] & _ & H).
  apply bind_returned in H as (? & [s2 w2] & _ & H).
  apply bind_returned in H as (? & [s3 w3] & _ & H).
  apply bind_returned in H as (? & [s4 w4] & _ & H).
  apply bind_returned in H as (? & [s5 w5] & _ & H).
  by eapply saveCheckpoint_on_disk.
Qed.

Lemma attempt_current (p : C4Project) (s s' : t) (w w' : World) :
  attempt p (s, w) = (Returned tt, (s', w')) ->
  currentProject (checkpoint s') = None.
Proof.
  intros E. pose proof (attempt_outcome h eventHandlers runAudit signalled p s w) as Hpost.
  rewrite E in Hpost. destruct Hpost as (b & l & w1 & w2 & -> & _).
  apply attempted_current.
Qed.

Lemma loop_on_disk (projects : list C4Project) (s s' : t) (w w' : World) :
  leave_files eventHandlers ->
  loop projects (s, w) = (Returned tt, (s', w')) ->
  (s' = s /\ disk w' = disk w) \/
  ((exists P new, audited s' = (audited s ++ P :: new)%list) /\
   checkpoint_on_disk s' w' /\ currentProject (checkpoint s') = None).
Proof.
  intros Hq. revert s w. induction projects as [|p rest IH]; intros s w.
  { simpl. intros [= <- <-]. by left. }
  destruct (shouldStop s) eqn:Hstop.
  { rewrite loop_stop by done. intros [= <- <-]. by left. }
  destruct (decide (name p ∈ completedProjects (checkpoint s))) as [Hin|Hin].
  { rewrite loop_skip by done. intros Hloop. apply IH in Hloop as [[-> Hd]|Hloop]; [left|by right].
    done. }
  rewrite loop_attempt by done.
  pose proof (attempt_outcome h eventHandlers runAudit signalled p s w) as Hpost.
  destruct (BenchmarkScheduler.attempt _ _ _ _ p _) as [[[]|e|] [s1 w1]] eqn:Ea; [|done|done].
  pose proof (attempt_current _ _ _ _ _ Ea) as Hcur.
  apply attempt_on_disk in Ea; [|done].
  destruct Hpost as (b & l & w2 & w3 & Hs1 & _). intros Hloop. right.
  apply IH in Hloop as [[-> Hd]|[(P & new & Ha) Hloop]].
  - split; [|split; [by eapply checkpoint_on_disk_same|done]].
    exists (name p), []. by rewrite Hs1, attempted_audited.
  - split; [|done]. exists (name p), (P :: new).
    rewrite Ha, Hs1, attempted_audited, <- app_assoc. done.
Qed.

(** X5: when the listeners write no file, a run that returns leaves the
    checkpoint file in step with the instance: either it started no audit,
    and then it changed neither the checkpoint nor any file, or what
    [loadCheckpoint] reads back is the checkpoint that [getCheckpoint]
    returns, and it names no current project. *)
Theorem start_leaves_checkpoint_on_disk (projects : list C4Project)
    (s s' : t) (w w' : World) :
  leave_files eventHandlers ->
  isRunning s = false ->
  start projects (s, w) = (Returned tt, (s', w')) ->
  (audited s' = audited s /\ checkpoint s' = checkpoint s /\ disk w' = disk w) \/
  (audited s' <> audited s /\
   exists c, getCheckpoint (s', w') = (Returned c, (s', w')) /\
             loadCheckpoint (s', w') = (Returned (Some (CheckpointJson c)), (s', w')) /\
             currentProject c = None).
Proof.
  intros Hq Hrun.
  unfold BenchmarkScheduler.start.
  unfold bind at 1, self at 1. simpl. rewrite Hrun.
  unfold bind at 1, update at 1. simpl.
  unfold bind at 1, update at 1. simpl.
  unfold bind at 1, inWorld at 1, consoleLog at 1. simpl.
  unfold tryFinally, BenchmarkScheduler.runBenchmark. unfold bind at 1.
  destruct (BenchmarkScheduler.loop _ _ _ _ _ _) as [[[]|e|] [s1 w1]] eqn:E; [|done|done].
  unfold bind, self, inWorld, consoleLog, update. simpl. intros [= <- <-].
  apply (loop_on_disk _ _ _ _ _ Hq) in E as [[-> Hd]|[(P & new & Ha) [Hon Hcur]]].
  - left. done.
  - right. simpl in *. split.
    + rewrite Ha. intros Heq. apply (f_equal length) in Heq. rewrite length_app in Heq.
      simpl in Heq. lia.
    + exists (checkpoint s1). split; [done|]. split; [|done].
      unfold checkpoint_on_disk, loadCheckpoint, bind, self, tryCatch, inWorld, readFile in *.
      simpl in *. destruct (List.find _ _); simpl in *; [|done].
      injection Hon as ->. done.
Qed.

(** Whatever stops or skips, an attempt that settles is recorded once. *)
Lemma loop_records (projects : list C4Project) (s s' : t) (w w' : World) :
  loop projects (s, w) = (Returned tt, (s', w')) ->
  exists new c f,
    audited s' = (audited s ++ new)%list /\
    completedProjects (checkpoint s') = (completedProjects (checkpoint s) ++ c)%list /\
    failedProjects (checkpoint s') = (failedProjects (checkpoint s) ++ f)%list /\
    (c ++ f)%list ≡ₚ new.
Proof.
  revert s w. induction projects as [|p rest IH]; intros s w.
  { simpl. intros [= <- <-]. exists [], [], []. by rewrite !app_nil_r. }
  destruct (shouldStop s) eqn:Hstop.
  { rewrite loop_stop by done. intros [= <- <-]. exists [], [], []. by rewrite !app_nil_r. }
  destruct (decide (name p ∈ completedProjects (checkpoint s))) as [Hin|Hin].
  { rewrite loop_skip by done. apply IH. }
  rewrite loop_attempt by done.
  pose proof (attempt_outcome h eventHandlers runAudit signalled p s w) as Hpost.
  destruct (BenchmarkScheduler.attempt _ _ _ _ p _) as [[[]|e|] [s1 w1]]; [|done|done].
  destruct Hpost as (b & l & w2 & w3 & -> & _). intros Hloop.
  apply IH in Hloop as (new & c & f & Ha & Hc & Hf & Hperm).
  rewrite attempted_audited in Ha. rewrite attempted_completed in Hc.
  rewrite attempted_failed in Hf.
  destruct b.
  - exists (name p :: new), (name p :: c), f. rewrite Ha, Hc, Hf, <- !app_assoc. simpl.
    do 3 (split; [done|]). by constructor.
  - exists (name p :: new), c, (name p :: f). rewrite Ha, Hc, Hf, <- !app_assoc. simpl.
    do 3 (split; [done|]). rewrite <- Permutation_middle. by constructor.
Qed.

(** X6: every audit that a run starts and that settles is recorded once.
    Whatever is skipped and wherever a stop request cuts the run short, a
    run that returns has added to [completedProjects] and [failedProjects]
    together exactly the names it started audits for, each as often as it
    was started. *)
Theorem start_records_each_audit_once (projects : list C4Project)
    (s s' : t) (w w' : World) :
  isRunning s = false ->
  start projects (s, w) = (Returned tt, (s', w')) ->
  exists new c f,
    audited s' = (audited s ++ new)%list /\
    completedProjects (checkpoint s') = (completedProjects (checkpoint s) ++ c)%list /\
    failedProjects (checkpoint s') = (failedProjects (checkpoint s) ++ f)%list /\
    (c ++ f)%list ≡ₚ new.
Proof.
  intros Hrun Hstart.
  apply start_inv in Hstart as (s1 & w0 & w1 & Hloop & ->); [|done].
  apply loop_records in Hloop as (new & c & f & Ha & Hc & Hf & Hperm).
  by exists new, c, f.
Qed.

End SchedulerMore.

(** ** More of the audit runner *)

Section AuditMore.

Import AuditRunner.

Variable h : Host.
Variable b : Backend.
Variable this : AuditRunner.t.

Abbreviation pollBody := (AuditRunner.pollBody b this).
Abbreviation pollLoop := (AuditRunner.pollLoop b this).
Abbreviation sendMessage := (AuditRunner.sendMessage b this).
Abbreviation getFindingsFromProject := (AuditRunner.getFindingsFromProject b this).
Abbreviation saveResults := (AuditRunner.saveResults h this).
Abbreviation runAudit := (AuditRunner.runAudit h b this).

(** A request with a limit takes no longer than the limit. *)
Lemma fetch_within {A} (t : Z) (req : Request) (res : FetchResult A) :
  0 <= t -> within t (fetch b (Some t) req res).
Proof.
  intros Ht w. unfold fetch.
  destruct (t <=? _) eqn:E; [apply Z.leb_le in E | apply Z.leb_gt in E].
  - simpl. split; [done|lia].
  - destruct res; simpl; (split; [done|lia]).
Qed.

Lemma pollLoop_monotone (fuel : nat) (sessionId : string) (startTime timeout : Z)
    (pollCount : nat) (lastStatus : string) (w : World) :
  clock w <= clock (snd (pollLoop fuel sessionId startTime timeout pollCount lastStatus w)).
Proof.
  revert pollCount lastStatus w.
  induction fuel as [|fuel IH]; intros pollCount lastStatus w; simpl.
  - by repeat case_match.
  - case_match; [|done].
    pose proof (pollBody_clock b this 10000 sessionId (S pollCount) lastStatus w
                  (latency_within_10000 b)) as Hc.
    destruct (AuditRunner.pollBody _ _ _ _ _ _) as [[[ls|]|e|] w']; simpl in *; try lia.
    specialize (IH (S pollCount) ls w'). lia.
Qed.

(** The wait of [sendMessage], entered 10 seconds after [startTime]. *)
Lemma pollLoop_span (sessionId : string) (startTime timeout : Z) (w : World) :
  clock w = startTime + 10000 ->
  let r := pollLoop (pollFuel timeout) sessionId startTime timeout 0 "" w in
  fst r <> Diverged /\
  clock w <= clock (snd r) <= clock w + Z.max 0 (timeout + 25000).
Proof.
  intros Hw r. split; [|split].
  - apply pollLoop_settles. pose proof (pollFuel_enough timeout). lia.
  - apply pollLoop_monotone.
  - destruct (decide (timeout <= 10000)) as [HT|HT].
    + subst r. destruct (pollFuel timeout); simpl.
      all: destruct (clock w - startTime <? timeout) eqn:E;
        [apply Z.ltb_lt in E; lia | simpl; lia].
    + pose proof (pollLoop_clock b this 10000 (pollFuel timeout) sessionId startTime timeout
                    0 "" w (latency_within_10000 b)) as Hc.
      subst r. lia.
Qed.

(** However [sendMessage] ends, it has left the files alone; it sets the
    session logs, to the messages it read last, only when it returns. *)
Lemma sendMessage_outcome (sessionId message : string) (w : World) :
  match sendMessage sessionId message w with
  | (o, w') =>
      match o with
      | Returned txt =>
          disk w' = disk w /\
          exists r, messages_res b = Responded r /\ ok r = true /\
                    res_json r = Some (lastSessionLogs w') /\
                    txt = fullResponseOf (lastSessionLogs w')
      | Thrown _ => disk w' = disk w /\ lastSessionLogs w' = lastSessionLogs w
      | Diverged => False
      end /\
      clock w <= clock w' <= clock w + 50000 + Z.max 0 (timeout (config this) + 25000)
  end.
Proof.
  set (fr := fun w0 : World => (disk w0, lastSessionLogs w0)).
  assert (Hfr : framed fr) by done.
  unfold AuditRunner.sendMessage. unfold bind at 1.
  match goal with
  | |- context [fetch b (Some 30000) ?req ?res w] =>
      pose proof (preserves_fetch fr Hfr b (Some 30000) req res w) as Hp1;
      pose proof (fetch_within 30000 req res ltac:(lia) w) as [Hn1 Hc1];
      destruct (fetch b (Some 30000) req res w) as [[r0|e|] w1]
  end; simpl in Hp1, Hn1, Hc1; [|injection Hp1 as Hd1 Hl1; split; [done|lia]|done].
  injection Hp1 as Hd1 Hl1.
  destruct (ok r0); simpl; [|split; [done|lia]].
  unfold bind at 1, jsonOf at 1.
  destruct (res_json r0) as [sd|]; simpl; [|split; [done|lia]].
  unfold bind at 1, consoleLog at 1. unfold bind at 1, now at 1.
  unfold bind at 1, consoleLog at 1. unfold bind at 1, sleep at 1.
  unfold bind at 1.
  match goal with
  | |- context [AuditRunner.pollLoop b this ?fu ?sid ?st ?t ?pc ?ls ?w0] =>
      pose proof (pollLoop_preserves b this fr Hfr fu sid st t pc ls w0) as Hp2;
      pose proof (pollLoop_span sid st t w0 eq_refl) as [Hn2 Hc2];
      destruct (AuditRunner.pollLoop b this fu sid st t pc ls w0) as [[polled|e|] w2]
  end; simpl in Hp2, Hn2, Hc2; [|injection Hp2 as Hd2 Hl2; split; [split; congruence|lia]|done].
  injection Hp2 as Hd2 Hl2.
  unfold bind at 1, now at 1. unfold bind at 1, consoleLog at 1.
  unfold bind at 1.
  match goal with
  | |- context [fetch b (Some 10000) ?req ?res ?w0] =>
      pose proof (preserves_fetch fr Hfr b (Some 10000) req res w0) as Hp3;
      pose proof (fetch_within 10000 req res ltac:(lia) w0) as [Hn3 Hc3];
      destruct (fetch b (Some 10000) req res w0) as [[r|e|] w3] eqn:E3
  end; simpl in Hp3, Hn3, Hc3; [|injection Hp3 as Hd3 Hl3; split; [split; congruence|lia]|done].
  injection Hp3 as Hd3 Hl3.
  assert (Hr : messages_res b = Responded r).
  { unfold fetch in E3. repeat case_match; by simplify_eq. }
  destruct (ok r) eqn:Hok; simpl; [|split; [split; congruence|lia]].
  unfold bind at 1, jsonOf.
  destruct (res_json r) as [messages|] eqn:Hj; simpl; [|split; [split; congruence|lia]].
  split; [|lia]. split; [congruence|]. exists r. by rewrite Hok.
Qed.

Lemma createProject_settles (p : C4Project) (w : World) :
  fst (createProject b this p w) <> Diverged.
Proof.
  unfold createProject, bind, fetch, jsonOf, textOf, throw, ret.
  by repeat (case_match; simplify_eq/=).
Qed.

Lemma ensureContainer_settles (projectId : string) (w : World) :
  fst (ensureContainer b this projectId w) <> Diverged.
Proof.
  unfold ensureContainer, bind, fetch, jsonOf, textOf, throw, ret, consoleLog, sleep.
  by repeat (case_match; simplify_eq/=).
Qed.

Lemma createSession_settles (p : C4Project) (projectId : string) (w : World) :
  fst (createSession b this p projectId w) <> Diverged.
Proof.
  unfold createSession, bind, fetch, jsonOf, textOf, throw, ret.
  by repeat (case_match; simplify_eq/=).
Qed.

(** However the audit ends, it has written the finding artifact exactly
    when it returns, and the session logs are those of this audit. *)
Lemma runAudit_outcome (p : C4Project) (w : World) :
  match runAudit p w with
  | (Returned findings, w') =>
      disk w' = (disk w ++ [findingArtifact h this p (clock w') findings])%list /\
      exists r, messages_res b = Responded r /\ ok r = true /\
                res_json r = Some (lastSessionLogs w')
  | (Thrown _, w') =>
      disk w' = disk w /\
      (lastSessionLogs w' = [] \/
       exists r, messages_res b = Responded r /\ ok r = true /\
                 res_json r = Some (lastSessionLogs w'))
  | (Diverged, _) => False
  end.
Proof.
  set (fr := fun w0 : World => (disk w0, lastSessionLogs w0)).
  assert (Hfr : framed fr) by done.
  unfold AuditRunner.runAudit.
  unfold bind at 1, consoleLog at 1. unfold bind at 1. unfold bind at 1.
  match goal with
  | |- context [createProject b this p ?w0] =>
      pose proof (createProject_preserves b this fr Hfr p w0) as Hp1;
      pose proof (createProject_settles p w0) as Hn1;
      destruct (createProject b this p w0) as [[projectId|e|] w1]
  end; simpl in Hp1, Hn1; [|injection Hp1 as Hd1 Hl1; split; [done|by left]|done].
  injection Hp1 as Hd1 Hl1.
  unfold bind at 1, consoleLog at 1. unfold bind at 1.
  match goal with
  | |- context [ensureContainer b this projectId ?w0] =>
      pose proof (ensureContainer_preserves b this fr Hfr projectId w0) as Hp2;
      pose proof (ensureContainer_settles projectId w0) as Hn2;
      destruct (ensureContainer b this projectId w0) as [[[]|e|] w2]
  end; simpl in Hp2, Hn2; [|injection Hp2 as Hd2 Hl2; split; [|left]; congruence|done].
  injection Hp2 as Hd2 Hl2.
  unfold bind at 1, consoleLog at 1. unfold bind at 1.
  match goal with
  | |- context [createSession b this p projectId ?w0] =>
      pose proof (createSession_preserves b this fr Hfr p projectId w0) as Hp3;
      pose proof (createSession_settles p projectId w0) as Hn3;
      destruct (createSession b this p projectId w0) as [[sessionId|e|] w3]
  end; simpl in Hp3, Hn3; [|injection Hp3 as Hd3 Hl3; split; [|left]; congruence|done].
  injection Hp3 as Hd3 Hl3.
  unfold bind at 1, consoleLog at 1. unfold bind at 1.
  match goal with
  | |- context [AuditRunner.sendMessage b this sessionId ?msg ?w0] =>
      pose proof (sendMessage_outcome sessionId msg w0) as Hs;
      destruct (AuditRunner.sendMessage b this sessionId msg w0) as [[txt|e|] w4]
  end; destruct Hs as [Hs _]; simpl in Hs;
    [|destruct Hs as [Hd4 Hl4]; split; [|left]; congruence|done].
  destruct Hs as (Hd4 & r & Hr & Hok & Hj & _).
  destruct (runAudit_finish h b this p projectId w4) as (w5 & Hr5 & Hd5 & Hl5 & _ & _ & E5).
  rewrite E5. destruct (writeError h w5 _).
  - split; [congruence|]. right. exists r. by rewrite Hl5.
  - fields. split; [congruence|]. exists r. by rewrite Hl5.
Qed.

(** X7: the files tell how an audit ended.  An audit that returns has
    written one file, the finding artifact that holds the findings it
    returns, named after the instant of the write; an audit that does not
    return has written nothing. *)
Theorem runAudit_writes_what_it_returns (p : C4Project) (w : World) :
  match runAudit p w with
  | (Returned findings, w') =>
      disk w' = (disk w ++ [findingArtifact h this p (clock w') findings])%list
  | (_, w') => disk w' = disk w
  end.
Proof.
  pose proof (runAudit_outcome p w) as H.
  destruct (AuditRunner.runAudit h b this p w) as [[findings|e|] w']; [|tauto|done].
  by destruct H.
Qed.

(** X8: the session logs that an audit leaves are its own.  After an audit
    that returns, the read that followed the wait was answered with a
    success and [getSessionLogs] returns the messages of its body.  After
    an audit that does not return, [getSessionLogs] returns the empty
    list, unless that read was answered with a success, in which case it
    returns the messages of its body; it never returns what an earlier
    audit left. *)
Theorem runAudit_replaces_session_logs (p : C4Project) (w : World) :
  match runAudit p w with
  | (Returned _, w') =>
      exists r,
        messages_res b = Responded r /\ ok r = true /\
        forall messages, res_json r = Some messages ->
                         getSessionLogs w' = (Returned messages, w')
  | (_, w') =>
      getSessionLogs w' = (Returned [], w') \/
      exists r,
        messages_res b = Responded r /\ ok r = true /\
        forall messages, res_json r = Some messages ->
                         getSessionLogs w' = (Returned messages, w')
  end.
Proof.
  pose proof (runAudit_outcome p w) as H. unfold getSessionLogs.
  destruct (AuditRunner.runAudit h b this p w) as [[findings|e|] w']; [| |done].
  - destruct H as (_ & r & Hr & Hok & Hj).
    exists r. split; [done|]. split; [done|]. intros messages Hm. congruence.
  - destruct H as [_ [->|(r & Hr & Hok & Hj)]]; [by left|].
    right. exists r. split; [done|]. split; [done|]. intros messages Hm. congruence.
Qed.

Lemma toFinding_fromAudit (f : RemoteFinding) : fromAudit (toFinding f).
Proof.
  unfold fromAudit, toFinding, Js.orElse. simpl.
  split; [done|]. split; [by destruct (meta_id (meta f))|].
  split; [by destruct (meta_title (meta f))|]. done.
Qed.

(** X9: finding retrieval never fails.  After one request it returns: no
    finding when the answer takes 30 seconds or more, when the request is
    rejected, when the status is not a success or when the body does not
    parse, and the converted records of the answer otherwise.  It takes
    as long as the answer, 30 seconds at most, and writes no file; every
    finding it returns is a finding of the audit. *)
Theorem getFindingsFromProject_never_fails (projectId : string) (w : World) :
  let d := Z.of_N (latency b (length (requests w))) in
  exists findings w',
    getFindingsFromProject projectId w = (Returned findings, w') /\
    Forall fromAudit findings /\
    requests w' = (requests w ++ [findingsRequest this projectId])%list /\
    disk w' = disk w /\
    clock w' = clock w + Z.min d 30000 /\
    (30000 <= d -> findings = []) /\
    (d < 30000 ->
     match findings_res b with
     | Rejected _ => findings = []
     | Responded r =>
         if ok r then
           match res_json r with
           | Some data => findings = map toFinding data
           | None => findings = []
           end
         else findings = []
     end).
Proof.
  intros d.
  destruct (getFindingsFromProject_exact b this projectId w)
    as (w' & E & Hr & Hc & Hd & _ & _ & _).
  fold d in E, Hc.
  exists (if d <? 30000 then retrieved b else []), w'.
  split; [done|]. split; [|split; [done|split; [done|split; [done|split]]]].
  - destruct (d <? 30000); [|done]. unfold retrieved.
    destruct (findings_res b) as [|r]; [done|]. destruct (ok r); [|done].
    destruct (res_json r); [|done].
    apply Forall_map, Forall_forall. intros f _. apply toFinding_fromAudit.
  - intros Hd'. by replace (d <? 30000) with false by (symmetry; apply Z.ltb_ge; lia).
  - intros Hd'. replace (d <? 30000) with true by (symmetry; apply Z.ltb_lt; lia).
    unfold retrieved. destruct (findings_res b) as [|r]; [done|]. destruct (ok r); [|done].
    by destruct (res_json r).
Qed.




(** A turn that finds the session idle does not throw when the messages
    are answered; it leaves the loop from the twelfth poll on, and from the
    sixth when it sees no assistant message. *)
Lemma pollBody_idle (sessionId : string) (pollCount : nat) (lastStatus : string) (w : World) :
  idle b -> in_time b -> (forall k, answered (messagesCheck_res b k)) ->
  exists next w',
    pollBody sessionId pollCount lastStatus w = (Returned next, w') /\
    ((12 <= pollCount)%nat -> next = Break) /\
    (mute b -> (6 <= pollCount)%nat -> next = Break).
Proof.
  intros Hi Hin Hm. destruct (Hi pollCount) as (r1 & Hr1 & Hok1 & Hj1).
  destruct (Hm pollCount) as (r2 & Hr2 & Hj2).
  assert (Hlt : forall n, (10000 <=? Z.of_N (latency b n)) = false).
  { intros n. apply Z.leb_gt, Hin. }
  assert (Hj2' : ok r2 = false \/ exists ms, ok r2 = true /\ res_json r2 = Some ms).
  { destruct (ok r2); [right|by left]. destruct (res_json r2) as [ms|]; [eauto|by destruct Hj2]. }
  assert (Hmute : mute b -> forall ms, res_json r2 = Some ms -> List.filter isAssistant ms = []).
  { intros Hmute ms. by apply Hmute with pollCount. }
  clear Hj2 Hi Hm Hin.
  unfold AuditRunner.pollBody, AuditRunner.inspectMessages, fetch, bind, jsonOf, ret, throw,
    sleep, consoleLog, consoleWarn.
  rewrite Hr1, Hr2, !Hlt, Hok1, Hj1.
  cbn [negb session_status runningId default].
  revert Hmute.
  destruct (negb (_ =? lastStatus)%string); simpl.
  all: destruct Hj2' as [Hok2|(ms & Hok2 & Hms)].
  all: repeat (case_match; simplify_eq/=; rewrite ?Hlt, ?Hok2, ?Hms in *; simplify_eq/=).
  all: intros Hmute.
  all: eexists _, _; (split; [reflexivity|]).
  all: repeat match goal with
         | H : (_ <? _)%nat = true |- _ => apply Nat.ltb_lt in H
         | H : (_ <? _)%nat = false |- _ => apply Nat.ltb_ge in H
         | H : (_ && _)%bool = true |- _ => apply andb_true_iff in H as [? ?]
         | H : (_ || _)%bool = false |- _ => apply orb_false_iff in H as [? ?]
         | H : (_ <=? _)%nat = false |- _ => apply Nat.leb_gt in H
         end.
  all: split; [intros; try done; lia|].
  all: intros Hmu H6; try done; try lia.
  all: try (specialize (Hmute Hmu _ eq_refl);
            match goal with
            | H : list.last (List.filter isAssistant ?ms) = Some _ |- _ =>
                rewrite Hmute in H; discriminate
            end).
Qed.

Lemma pollLoop_idle (fuel : nat) (sessionId : string) (startTime timeout : Z)
    (pollCount : nat) (lastStatus : string) (w : World) :
  idle b -> in_time b -> (forall k, answered (messagesCheck_res b k)) ->
  match pollLoop fuel sessionId startTime timeout pollCount lastStatus w with
  | (Returned (_, n), _) =>
      (n <= Nat.max (S pollCount) 12)%nat /\ (mute b -> (n <= Nat.max (S pollCount) 6)%nat)
  | (Thrown _, _) => False
  | (Diverged, _) => True
  end.
Proof.
  intros Hi Hin Hm. revert pollCount lastStatus w.
  induction fuel as [|fuel IH]; intros pollCount lastStatus w; simpl.
  - destruct (clock w - startTime <? timeout); [done|]. split; intros; lia.
  - destruct (clock w - startTime <? timeout); [|split; intros; lia].
    destruct (pollBody_idle sessionId (S pollCount) lastStatus w Hi Hin Hm)
      as (next & w1 & -> & H12 & H6).
    destruct next as [ls|].
    + specialize (IH (S pollCount) ls w1).
      destruct (AuditRunner.pollLoop _ _ _ _ _ _ _ _ _) as [[[exit n]|e|] w']; [|done|done].
      destruct IH as [IH12 IH6].
      assert (~ (12 <= S pollCount)%nat) by (intros H; by specialize (H12 H)).
      split; [lia|]. intros Hmute.
      assert (~ (6 <= S pollCount)%nat) by (intros H'; by specialize (H6 Hmute H')).
      specialize (IH6 Hmute). lia.
    + split; intros; lia.
Qed.

(** X11: an idle session is not awaited for ever.  When every poll finds
    the session idle and the messages are answered, the wait ends without
    an error after 12 polls at most, whatever the messages say; and after 6
    at most when they hold no assistant message. *)
Theorem idle_session_wait_is_capped (sessionId : string) (startTime timeout : Z) (w : World) :
  idle b -> in_time b -> (forall k, answered (messagesCheck_res b k)) ->
  startTime + 10000 <= clock w ->
  exists exit n w',
    pollLoop (pollFuel timeout) sessionId startTime timeout 0 "" w
    = (Returned (exit, n), w') /\
    (n <= 12)%nat /\ (mute b -> (n <= 6)%nat).
Proof.
  intros Hi Hin Hm Hw.
  pose proof (pollLoop_idle (pollFuel timeout) sessionId startTime timeout 0 "" w Hi Hin Hm) as H.
  pose proof (pollLoop_settles b this (pollFuel timeout) sessionId startTime timeout 0 "" w) as Hs.
  destruct (AuditRunner.pollLoop _ _ _ _ _ _ _ _ _) as [[[exit n]|e|] w']; [|done|].
  - exists exit, n, w'. split; [done|]. destruct H as [H12 H6]. split; [lia|].
    intros Hmute. specialize (H6 Hmute). lia.
  - exfalso. apply Hs; [|done]. pose proof (pollFuel_enough timeout). lia.
Qed.

(** A turn that goes on has taken 5 seconds or more: the count of the
    polls is bounded by the time left. *)
Lemma pollLoop_count (fuel : nat) (sessionId : string) (startTime timeout : Z)
    (pollCount : nat) (lastStatus : string) (w : World) :
  match pollLoop fuel sessionId startTime timeout pollCount lastStatus w with
  | (Returned (_, n), _) =>
      (pollCount <= n)%nat /\
      (n = pollCount \/
       clock w - startTime + 5000 * (Z.of_nat n - Z.of_nat pollCount - 1) < timeout)
  | _ => True
  end.
Proof.
  revert pollCount lastStatus w.
  induction fuel as [|fuel IH]; intros pollCount lastStatus w; simpl.
  - destruct (clock w - startTime <? timeout); [done|]. split; [done|by left].
  - destruct (clock w - startTime <? timeout) eqn:E; [|split; [done|by left]].
    apply Z.ltb_lt in E.
    pose proof (pollBody_clock b this 10000 sessionId (S pollCount) lastStatus w
                  (latency_within_10000 b)) as Hc.
    destruct (AuditRunner.pollBody _ _ _ _ _ _) as [[[ls|]|e|] w1]; [| |done|done];
      simpl in Hc.
    + specialize (IH (S pollCount) ls w1).
      destruct (AuditRunner.pollLoop _ _ _ _ _ _ _ _ _) as [[[exit n]|e|] w']; [|done|done].
      destruct IH as [Hn [->|IH]]; (split; [lia|right; lia]).
    + split; [lia|right; lia].
Qed.

(** X12: the wait makes a bounded number of polls: when it is entered 10
    seconds or more after its start, as [sendMessage] enters it, and ends
    after [n] polls, then [5000 * n] is at most [timeout - 5000]
    milliseconds (and [n] is 0 when that is negative). *)
Theorem wait_polls_are_bounded_by_timeout (sessionId : string) (startTime timeout : Z)
    (w w' : World) (exit : LoopExit) (n : nat) :
  startTime + 10000 <= clock w ->
  pollLoop (pollFuel timeout) sessionId startTime timeout 0 "" w = (Returned (exit, n), w') ->
  5000 * Z.of_nat n <= Z.max 0 (timeout - 5000).
Proof.
  intros Hw E.
  pose proof (pollLoop_count (pollFuel timeout) sessionId startTime timeout 0 "" w) as H.
  rewrite E in H. destruct H as [_ [->|H]]; lia.
Qed.

(** X13: an error of the status request is fatal to the wait, unlike a
    non-success answer to it: when the chat was started and the first
    status request is not answered within 10 seconds, or is rejected,
    [sendMessage] throws that error after its two requests, without reading
    the messages, and leaves the files and the session logs as they were. *)
Theorem status_request_error_aborts_wait (sessionId message : string) (w : World)
    (r : Response StartData) (sd : StartData) (e : string) :
  let d0 := Z.of_N (latency b (length (requests w))) in
  let d1 := Z.of_N (latency b (S (length (requests w)))) in
  chatStream_res b = Responded r -> ok r = true -> res_json r = Some sd ->
  d0 < 30000 ->
  10000 < timeout (config this) ->
  (10000 <= d1 /\ e = "TimeoutError: The operation was aborted due to timeout") \/
  (d1 < 10000 /\ session_res b 1 = Rejected e) ->
  exists w',
    sendMessage sessionId message w = (Thrown e, w') /\
    requests w' = (requests w ++ [chatRequest this sessionId message;
                                  statusRequest this sessionId])%list /\
    disk w' = disk w /\
    lastSessionLogs w' = lastSessionLogs w.
Proof.
  intros d0 d1 Hr Hok Hj Hd0 HT He.
  assert (Hfuel : exists fuel, pollFuel (timeout (config this)) = S fuel).
  { unfold pollFuel. exists (Z.to_nat (timeout (config this) `div` 5000 - 1)).
    assert (2 <= timeout (config this) `div` 5000) by (apply Z.div_le_lower_bound; lia).
    lia. }
  destruct Hfuel as [fuel Hfuel].
  unfold AuditRunner.sendMessage. unfold bind at 1. unfold fetch at 1. fold d0.
  destruct (30000 <=? d0) eqn:E0; [apply Z.leb_le in E0; lia|].
  rewrite Hr, Hok. simpl. unfold bind at 1, jsonOf at 1. rewrite Hj. unfold ret at 1.
  unfold bind at 1, consoleLog at 1. unfold bind at 1, now at 1.
  unfold bind at 1, consoleLog at 1. unfold bind at 1, sleep at 1.
  unfold bind at 1. rewrite Hfuel.
  unfold AuditRunner.pollLoop at 1. simpl.
  destruct (_ <? timeout (config this)) eqn:Ec; [|apply Z.ltb_ge in Ec; lia].
  unfold AuditRunner.pollBody, bind at 1, fetch at 1. simpl.
  rewrite length_app. simpl. rewrite Nat.add_1_r. fold d1.
  destruct He as [[Hd1 ->]|[Hd1 Hrej]].
  - destruct (10000 <=? d1) eqn:E1; [|apply Z.leb_gt in E1; lia].
    eexists. split; [reflexivity|]. simpl. by rewrite <- app_assoc.
  - destruct (10000 <=? d1) eqn:E1; [apply Z.leb_le in E1; lia|].
    rewrite Hrej. eexists. split; [reflexivity|]. simpl. by rewrite <- app_assoc.
Qed.

Lemma find_reverse_last {A} (P : A -> bool) (l : list A) :
  List.find P (reverse l) = list.last (List.filter P l).
Proof.
  induction l as [|x l IH] using rev_ind; [done|].
  rewrite reverse_snoc, List.filter_app. simpl.
  destruct (P x); [by rewrite last_snoc|]. by rewrite app_nil_r.
Qed.

Lemma append_nil_r (s : string) : s +:+ "" = s.
Proof.
  induction s as [|c s IH]; [done|].
  change (String c (s +:+ "") = String c s). by rewrite IH.
Qed.

Lemma append_assoc (s1 s2 s3 : string) : (s1 +:+ s2) +:+ s3 = s1 +:+ (s2 +:+ s3).
Proof.
  induction s1 as [|c s1 IH]; [done|].
  change (String c ((s1 +:+ s2) +:+ s3) = String c (s1 +:+ (s2 +:+ s3))). by rewrite IH.
Qed.

Lemma foldl_text_parts (parts : list Part) (acc : string) :
  foldl (fun acc part =>
           match text part with
           | Some txt =>
               if (String.eqb (type part) "text" && Js.truthy txt)%bool
               then acc +:+ txt else acc
           | None => acc
           end) acc parts
  = acc +:+ Js.join (map (fun c => default "" (text c))
                       (List.filter (fun c => String.eqb (type c) "text") parts)).
Proof.
  revert acc. induction parts as [|part parts IH]; intros acc; simpl.
  { by rewrite append_nil_r. }
  rewrite IH. destruct (text part) as [txt|] eqn:Et; destruct (type part =? "text")%string; simpl;
    rewrite ?Et; simpl; try done.
  - destruct txt; simpl; [done|]. by rewrite append_assoc.
Qed.

(** X14: the message whose text [sendMessage] returns is the message the
    completion detector inspects, the last assistant message; the text
    returned is that of its parts of type text, so it is the text the
    detector examined when the message has no other part. *)
Theorem response_is_text_of_inspected_message (messages : list Message) :
  let inspected := list.last (List.filter isAssistant messages) in
  fullResponseOf messages = from_option textParts "" inspected /\
  (forall m,
     inspected = Some m ->
     (forall part, part ∈ default [] (content m) -> type part = "text") ->
     fullResponseOf messages = msgTextOf m).
Proof.
  intros inspected.
  assert (H : fullResponseOf messages = from_option textParts "" inspected).
  { unfold fullResponseOf, inspected. rewrite find_reverse_last.
    destruct (list.last _) as [m|]; [|done]. simpl. unfold textParts.
    destruct (content m) as [parts|]; [|done]. by rewrite foldl_text_parts. }
  split; [done|]. intros m Hm Hall. rewrite H, Hm. simpl.
  unfold textParts, msgTextOf. destruct (content m) as [parts|]; [|done]. simpl in Hall.
  f_equal. f_equal. induction parts as [|part parts IH]; [done|]. simpl.
  rewrite (Hall part) by set_solver. simpl. f_equal. apply IH. intros q Hq. apply Hall. set_solver.
Qed.

Lemma createProject_within (U : Z) (p : C4Project) :
  (forall n, Z.of_N (latency b n) <= U) -> within U (createProject b this p).
Proof.
  intros HU w. specialize (HU (length (requests w))).
  unfold createProject, bind, fetch, jsonOf, textOf, throw, ret.
  repeat (case_match; simplify_eq/=); (split; [done|lia]).
Qed.

Lemma createSession_within (U : Z) (p : C4Project) (projectId : string) :
  (forall n, Z.of_N (latency b n) <= U) -> within U (createSession b this p projectId).
Proof.
  intros HU w. specialize (HU (length (requests w))).
  unfold createSession, bind, fetch, jsonOf, textOf, throw, ret.
  repeat (case_match; simplify_eq/=); (split; [done|lia]).
Qed.

Lemma ensureContainer_within (projectId : string) :
  within 302000 (ensureContainer b this projectId).
Proof.
  intros w.
  unfold ensureContainer, bind, fetch, jsonOf, textOf, throw, ret, consoleLog, sleep.
  repeat (case_match; simplify_eq/=);
    repeat match goal with
           | H : (_ <=? _) = true |- _ => apply Z.leb_le in H
           | H : (_ <=? _) = false |- _ => apply Z.leb_gt in H
           end; (split; [done|lia]).
Qed.

(** X15: an audit takes a bounded time.  When no request takes longer than
    [U] milliseconds to be answered, the audit has settled [2 * U] plus
    the timeout of the wait plus 407 seconds after it began, at the latest:
    the container, the chat, the polls, the messages and the findings have
    limits of their own, and only project and session creation wait for
    their answers for as long as it takes. *)
Theorem runAudit_duration_is_bounded (U : Z) (p : C4Project) (w : World) :
  (forall n, Z.of_N (latency b n) <= U) ->
  0 <= timeout (config this) ->
  fst (runAudit p w) <> Diverged /\
  clock w <= clock (snd (runAudit p w))
          <= clock w + 2 * U + timeout (config this) + 407000.
Proof.
  intros HU HT.
  assert (H : match runAudit p w with
              | (o, w') => o <> Diverged /\
                           clock w <= clock w' <= clock w + 2 * U + timeout (config this) + 407000
              end); [|by destruct (AuditRunner.runAudit h b this p w)].
  assert (HU0 : 0 <= U) by (specialize (HU 0%nat); lia).
  unfold AuditRunner.runAudit.
  unfold bind at 1, consoleLog at 1. unfold bind at 1. unfold bind at 1.
  match goal with
  | |- context [createProject b this p ?w0] =>
      pose proof (createProject_within U p HU w0) as [Hn1 Hc1];
      destruct (createProject b this p w0) as [[projectId|e|] w1]
  end; simpl in Hn1, Hc1; [|split; [done|lia]|done].
  unfold bind at 1, consoleLog at 1. unfold bind at 1.
  match goal with
  | |- context [ensureContainer b this projectId ?w0] =>
      pose proof (ensureContainer_within projectId w0) as [Hn2 Hc2];
      destruct (ensureContainer b this projectId w0) as [[[]|e|] w2]
  end; simpl in Hn2, Hc2; [|split; [done|lia]|done].
  unfold bind at 1, consoleLog at 1. unfold bind at 1.
  match goal with
  | |- context [createSession b this p projectId ?w0] =>
      pose proof (createSession_within U p projectId HU w0) as [Hn3 Hc3];
      destruct (createSession b this p projectId w0) as [[sessionId|e|] w3]
  end; simpl in Hn3, Hc3; [|split; [done|lia]|done].
  unfold bind at 1, consoleLog at 1. unfold bind at 1.
  match goal with
  | |- context [AuditRunner.sendMessage b this sessionId ?msg ?w0] =>
      pose proof (sendMessage_outcome sessionId msg w0) as Hs;
      destruct (AuditRunner.sendMessage b this sessionId msg w0) as [[txt|e|] w4]
  end; destruct Hs as [Hs Hc4]; simpl in Hs, Hc4; [|split; [done|lia]|done].
  unfold bind at 1.
  destruct (getFindingsFromProject_exact b this projectId w4)
    as (w5 & E5 & _ & Hc5 & _).
  rewrite E5.
  unfold bind at 1, consoleLog at 1. unfold bind at 1.
  rewrite saveResults_outcome.
  match goal with |- context [writeError h ?w0 ?f] => destruct (writeError h w0 f) end;
    unfold ret; fields; (split; [done|lia]).
Qed.

Lemma pollBody_talks (sessionId : string) (pollCount : nat) (lastStatus : string) :
  talks (toBackend this) (pollBody sessionId pollCount lastStatus).
Proof. unfold AuditRunner.pollBody, inspectMessages. quiet. Qed.

Lemma pollLoop_talks (fuel : nat) (sessionId : string) (startTime timeout : Z)
    (pollCount : nat) (lastStatus : string) :
  talks (toBackend this) (pollLoop fuel sessionId startTime timeout pollCount lastStatus).
Proof.
  revert pollCount lastStatus.
  induction fuel as [|fuel IH]; intros pollCount lastStatus w; simpl.
  - exists []. rewrite app_nil_r. by repeat case_match.
  - case_match; [|exists []; by rewrite app_nil_r].
    destruct (pollBody_talks sessionId (S pollCount) lastStatus w) as (rs & Hr & Hp).
    destruct (AuditRunner.pollBody _ _ _ _ _ _) as [[[ls|]|e|] w1]; simpl in *;
      [|by exists rs..].
    destruct (IH (S pollCount) ls w1) as (rs' & Hr' & Hp'). exists (rs ++ rs')%list.
    rewrite Hr', Hr, <- app_assoc. split; [done|]. by apply Forall_app.
Qed.

(** X16: an audit talks to the configured backend only: every request it
    issues, however it ends, goes to a URL under [baseUrl], and the
    requests issued before it are left as they were. *)
Theorem runAudit_talks_to_backend_only (p : C4Project) (w : World) :
  exists rs,
    requests (snd (runAudit p w)) = (requests w ++ rs)%list /\
    Forall (toBackend this) rs.
Proof.
  revert w. change (talks (toBackend this) (runAudit p)).
  unfold AuditRunner.runAudit, createProject, ensureContainer, createSession,
    AuditRunner.sendMessage, AuditRunner.getFindingsFromProject, AuditRunner.saveResults.
  quiet.
  all: try apply pollLoop_talks.
  all: try (apply talks_tryCatch; [|intros ?]; quiet).
Qed.

End AuditMore.

(** ** More of the benchmark runner *)

Section RunnerMore.

Variable h : Host.
Variable backendOf : C4Project -> Backend.
Variable this : BenchmarkRunner.t.

Abbreviation runAudit := (BenchmarkRunner.runAudit h backendOf this).

(** X17: the ground truth comes first.  When the indexer fails for a
    project, the run of the project fails with the same error before the
    audit runner is called: no request is issued and no file written. *)
Theorem ground_truth_failure_precedes_audit (p : C4Project) (e : string) (w : World) :
  BenchmarkRunner.getGroundTruth (BenchmarkRunner.indexer this) p = Thrown e ->
  exists w',
    runAudit p w = (Thrown e, w') /\
    requests w' = requests w /\
    disk w' = disk w /\
    lastSessionLogs w' = lastSessionLogs w.
Proof.
  intros Hgt.
  unfold BenchmarkRunner.runAudit, BenchmarkRunner.fetchGroundTruth, bind, now, consoleLog.
  simpl. rewrite Hgt. eexists. split; [reflexivity|]. done.
Qed.

Lemma saveRunResult_outcome (result : RunResult) (w : World) :
  let f := {| path := pathJoin (pathJoin (pathJoin (BenchmarkRunner.DATA_DIR this) "runs")
                                  (project result))
                        ("run-" +:+ dashed (timestamp result) +:+ ".json");
              data := RunResultJson result |} in
  BenchmarkRunner.saveRunResult h this result w
  = match writeError h w f with
    | Some e => (Thrown e, w)
    | None => (Returned tt, addFile f w)
    end.
Proof. reflexivity. Qed.

Lemma runner_runAudit_outcome (p : C4Project) (w : World) :
  match runAudit p w with
  | (Returned result, w') =>
      exists t,
        disk w' = (disk w ++ [findingArtifact h (BenchmarkRunner.auditRunner this) p t
                                (dd_list (dd_findings result));
                              runResultFile h this p (clock w') result])%list /\
        BenchmarkRunner.getGroundTruth (BenchmarkRunner.indexer this) p
        = Returned (gt_findings (ground_truth result)) /\
        project result = name p /\
        duration_seconds result = Js.roundDiv1000 (clock w' - clock w)
  | (Thrown _, w') =>
      disk w' = disk w \/
      exists t findings,
        disk w' = (disk w ++ [findingArtifact h (BenchmarkRunner.auditRunner this) p t
                                findings])%list
  | (Diverged, w') =>
      disk w' = disk w /\
      BenchmarkRunner.getGroundTruth (BenchmarkRunner.indexer this) p = Diverged
  end.
Proof.
  unfold BenchmarkRunner.runAudit, BenchmarkRunner.fetchGroundTruth.
  unfold bind at 1, now at 1. unfold bind at 1, consoleLog at 1.
  unfold bind at 1, consoleLog at 1. unfold bind at 1.
  destruct (BenchmarkRunner.getGroundTruth _ p) as [gt|e|]; [|by left|done].
  unfold bind at 1, consoleLog at 1. unfold bind at 1, consoleLog at 1.
  unfold bind at 1.
  match goal with
  | |- context [AuditRunner.runAudit h ?b0 ?r0 p ?w0] =>
      pose proof (runAudit_outcome h b0 r0 p w0) as Ho;
      destruct (AuditRunner.runAudit h b0 r0 p w0) as [[findings|e|] w1]
  end; [|left; by destruct Ho|done].
  destruct Ho as [Hd _].
  unfold bind at 1, consoleLog at 1. unfold bind at 1, now at 1.
  unfold bind at 1, now at 1. unfold bind at 1.
  rewrite saveRunResult_outcome. cbv zeta.
  match goal with
  | |- context [writeError h ?w0 ?f] => destruct (writeError h w0 f)
  end.
  - right. exists (clock w1), findings. simpl. by rewrite Hd.
  - unfold bind, consoleLog, ret. simpl.
    exists (clock w1). split; [|done].
    rewrite Hd. simpl. by rewrite <- app_assoc.
Qed.

(** X18: the run of a project writes the finding artifact before the run
    result.  A run that returns has written the finding artifact of the
    audit and, after it, the run result file, which holds the very result
    it returns: the ground truth of the indexer, the findings of the
    artifact, the name of the project, and the time the run took, in
    seconds.  A run that does not return has written nothing, or the
    finding artifact of its audit and nothing after it. *)
Theorem runAudit_writes_artifact_before_result (p : C4Project) (w : World) :
  match runAudit p w with
  | (Returned result, w') =>
      exists t,
        disk w' = (disk w ++ [findingArtifact h (BenchmarkRunner.auditRunner this) p t
                                (dd_list (dd_findings result));
                              runResultFile h this p (clock w') result])%list /\
        BenchmarkRunner.getGroundTruth (BenchmarkRunner.indexer this) p
        = Returned (gt_findings (ground_truth result)) /\
        project result = name p /\
        duration_seconds result = Js.roundDiv1000 (clock w' - clock w)
  | (_, w') =>
      disk w' = disk w \/
      exists t findings,
        disk w' = (disk w ++ [findingArtifact h (BenchmarkRunner.auditRunner this) p t
                                findings])%list
  end.
Proof.
  pose proof (runner_runAudit_outcome p w) as H.
  destruct (BenchmarkRunner.runAudit h backendOf this p w) as [[result|e|] w']; [done|done|].
  left. by destruct H.
Qed.

End RunnerMore.

(** ** A successful audit, end to end *)

Section HappyPath.

Variable h : Host.
Variable backendOf : C4Project -> Backend.
Variable runner : BenchmarkRunner.t.
Variable signalled : nat -> bool.

(** The audit runner returns what it retrieved when its five calls before
    finding retrieval succeed in time and the artifact is written. *)
Lemma auditRunner_succeeds (b : Backend) (this : AuditRunner.t) (p : C4Project) (w : World)
    (projectId sessionId : string) (c : ContainerData) (sd : StartData)
    (messages : list Message) :
  let n := length (requests w) in
  writable h ->
  Z.of_N (latency b (S n)) < 300000 ->
  Z.of_N (latency b (S (S (S n)))) < 30000 ->
  prompt_from b (n + 4) ->
  polls_answered b ->
  succeeds (createProject_res b) projectId ->
  succeeds (ensureContainer_res b) c ->
  succeeds (createSession_res b) sessionId ->
  succeeds (chatStream_res b) sd ->
  succeeds (messages_res b) messages ->
  exists w', AuditRunner.runAudit h b this p w = (Returned (retrieved b), w').
Proof.
  intros n Hw Hin1 Hin3 Hlat Hans H1 H2 H3 H4 (rm & Hrm & Hokm & Hjm). subst n.
  destruct (runAudit_after_wait h b this p w projectId sessionId c sd H1 Hin1 H2 H3 Hin3 H4)
    as (w1 & startTime & (Hr1 & _ & Hc1 & _ & _) & Hrest).
  set (n := length (requests w)) in *.
  assert (Hn1 : length (requests w1) = (n + 4)%nat).
  { rewrite Hr1, length_app. cbn [length]. subst n. lia. }
  set (T := AuditRunner.timeout (AuditRunner.config this)) in *.
  destruct (pollLoop_answered b this (AuditRunner.pollFuel T) sessionId startTime T 0 "" w1)
    as (polled & w2 & rs & E & _ & _ & Hr2 & _); [by rewrite Hn1|done| |].
  { pose proof (pollFuel_enough T). lia. }
  assert (Hn2 : (n + 4 <= length (requests w2))%nat).
  { rewrite Hr2, length_app. lia. }
  destruct (Hrest polled w2 rm E) as (_ & w3 & Hr3 & _ & _ & Erun); [by apply Hlat|done|].
  rewrite Hokm, Hjm in Erun. rewrite Erun.
  destruct (runAudit_finish h b this p projectId w3) as (w4 & _ & _ & _ & _ & _ & E4).
  rewrite E4, Hw.
  replace (Z.of_N (latency b (length (requests w3))) <? 30000) with true.
  - by eexists.
  - symmetry. apply Z.ltb_lt.
    assert (Z.of_N (latency b (length (requests w3))) < 10000); [|lia].
    apply Hlat. rewrite Hr3, length_app. lia.
Qed.

Lemma runner_runAudit_succeeds (p : C4Project) (w : World)
    (projectId sessionId : string) (c : ContainerData) (sd : StartData)
    (messages : list Message) (gt : list Finding) :
  let n := length (requests w) in
  writable h ->
  Z.of_N (latency (backendOf p) (S n)) < 300000 ->
  Z.of_N (latency (backendOf p) (S (S (S n)))) < 30000 ->
  prompt_from (backendOf p) (n + 4) ->
  polls_answered (backendOf p) ->
  succeeds (createProject_res (backendOf p)) projectId ->
  succeeds (ensureContainer_res (backendOf p)) c ->
  succeeds (createSession_res (backendOf p)) sessionId ->
  succeeds (chatStream_res (backendOf p)) sd ->
  succeeds (messages_res (backendOf p)) messages ->
  BenchmarkRunner.getGroundTruth (BenchmarkRunner.indexer runner) p = Returned gt ->
  exists result w' t,
    BenchmarkRunner.runAudit h backendOf runner p w = (Returned result, w') /\
    disk w' = (disk w ++ [findingArtifact h (BenchmarkRunner.auditRunner runner) p t
                            (retrieved (backendOf p));
                          runResultFile h runner p (clock w') result])%list /\
    gt_findings (ground_truth result) = gt /\
    dd_list (dd_findings result) = retrieved (backendOf p) /\
    gt_total (ground_truth result) = length gt /\
    dd_total (dd_findings result) = length (retrieved (backendOf p)).
Proof.
  intros n Hw Hin1 Hin3 Hlat Hans H1 H2 H3 H4 H5 Hgt. subst n.
  unfold BenchmarkRunner.runAudit, BenchmarkRunner.fetchGroundTruth.
  unfold bind at 1, now at 1. unfold bind at 1, consoleLog at 1.
  unfold bind at 1, consoleLog at 1. unfold bind at 1. rewrite Hgt.
  unfold bind at 1, consoleLog at 1. unfold bind at 1, consoleLog at 1.
  unfold bind at 1.
  match goal with
  | |- context [AuditRunner.runAudit h ?b0 ?r0 p ?w0] =>
      destruct (auditRunner_succeeds b0 r0 p w0 projectId sessionId c sd messages
                  Hw Hin1 Hin3 Hlat Hans H1 H2 H3 H4 H5) as (w1 & E);
      pose proof (runAudit_outcome h b0 r0 p w0) as Ho;
      rewrite E in Ho |- *
  end.
  destruct Ho as [Hd _].
  unfold bind at 1, consoleLog at 1. unfold bind at 1, now at 1.
  unfold bind at 1, now at 1. unfold bind at 1.
  rewrite saveRunResult_outcome. cbv zeta. rewrite Hw.
  unfold bind, consoleLog, ret. simpl.
  eexists _, _, (clock w1). split; [reflexivity|]. simpl.
  split; [|done]. rewrite Hd. simpl. by rewrite <- app_assoc.
Qed.

(** The handler of the benchmark runner issues no request and writes no
    file. *)
Lemma emit_handleEvent_quiet (ev : BenchmarkEvent) (s : BenchmarkScheduler.t) (w : World) :
  exists w', BenchmarkScheduler.emit [BenchmarkRunner.handleEvent] ev (s, w)
             = (Returned tt, (s, w')) /\
             disk w' = disk w /\ requests w' = requests w.
Proof.
  unfold BenchmarkScheduler.emit, BenchmarkScheduler.inWorld, BenchmarkScheduler.emitTo,
    bind, tryCatch, ret.
  destruct ev; simpl; eexists; (split; [reflexivity|]); done.
Qed.

Ltac hear :=
  match goal with
  | |- context [BenchmarkScheduler.emit _ ?ev (?s, ?w)] =>
      let w' := fresh "w" in
      let E := fresh "E" in
      let He := fresh "He" in
      let Hq := fresh "Hq" in
      destruct (emit_handleEvent_quiet ev s w) as (w' & E & He & Hq); rewrite E; simpl
  end.

(** X19: a successful audit, end to end.  When the indexer has the ground
    truth of a project that is not completed, the file system accepts
    every write, and the backend answers the calls of the audit in time
    and with a success (the container within 300 seconds, the dispatch of
    the instruction within 30, every later request within 10, each poll
    with a response), a run of that project returns with the project added
    to [completedProjects] and to nothing else, and with three files
    written in this order: the finding artifact, the run result, whose two
    lists are the ground truth and the findings retrieved, with their
    lengths as totals, and the checkpoint. *)
Theorem successful_audit_is_recorded_completed (p : C4Project) (s : BenchmarkScheduler.t)
    (w : World) (projectId sessionId : string) (c : ContainerData) (sd : StartData)
    (messages : list Message) (gt : list Finding) :
  let n := length (requests w) in
  BenchmarkScheduler.isRunning s = false ->
  name p ∉ completedProjects (BenchmarkScheduler.checkpoint s) ->
  writable h ->
  Z.of_N (latency (backendOf p) (S n)) < 300000 ->
  Z.of_N (latency (backendOf p) (S (S (S n)))) < 30000 ->
  prompt_from (backendOf p) (n + 4) ->
  polls_answered (backendOf p) ->
  succeeds (createProject_res (backendOf p)) projectId ->
  succeeds (ensureContainer_res (backendOf p)) c ->
  succeeds (createSession_res (backendOf p)) sessionId ->
  succeeds (chatStream_res (backendOf p)) sd ->
  succeeds (messages_res (backendOf p)) messages ->
  BenchmarkRunner.getGroundTruth (BenchmarkRunner.indexer runner) p = Returned gt ->
  exists s' w' result t1 t2,
    ExtendedScheduler.start h backendOf runner signalled [p] (s, w) = (Returned tt, (s', w')) /\
    completedProjects (BenchmarkScheduler.checkpoint s')
    = (completedProjects (BenchmarkScheduler.checkpoint s) ++ [name p])%list /\
    failedProjects (BenchmarkScheduler.checkpoint s')
    = failedProjects (BenchmarkScheduler.checkpoint s) /\
    currentProject (BenchmarkScheduler.checkpoint s') = None /\
    disk w' = (disk w ++ [findingArtifact h (BenchmarkRunner.auditRunner runner) p t1
                            (retrieved (backendOf p));
                          runResultFile h runner p t2 result;
                          {| path := pathJoin (BenchmarkScheduler.dataDir s) "checkpoint.json";
                             data := CheckpointJson (BenchmarkScheduler.checkpoint s') |}])%list /\
    gt_findings (ground_truth result) = gt /\
    dd_list (dd_findings result) = retrieved (backendOf p) /\
    gt_total (ground_truth result) = length gt /\
    dd_total (dd_findings result) = length (retrieved (backendOf p)).
Proof.
  intros n Hrun Hnew Hw Hin1 Hin3 Hlat Hans H1 H2 H3 H4 H5 Hgt. subst n.
  unfold ExtendedScheduler.start, BenchmarkScheduler.start.
  unfold bind at 1, BenchmarkScheduler.self at 1. simpl. rewrite Hrun.
  unfold bind at 1, BenchmarkScheduler.update at 1. simpl.
  unfold bind at 1, BenchmarkScheduler.update at 1. simpl.
  unfold bind at 1, BenchmarkScheduler.inWorld at 1, consoleLog at 1. simpl.
  unfold BenchmarkScheduler.tryFinally, BenchmarkScheduler.runBenchmark.
  unfold bind at 1. unfold BenchmarkScheduler.loop.
  unfold bind at 1, BenchmarkScheduler.self at 1. simpl.
  rewrite bool_decide_false by done.
  unfold bind at 1. unfold BenchmarkScheduler.attempt.
  unfold bind at 1, BenchmarkScheduler.update at 1. simpl.
  unfold bind at 1, BenchmarkScheduler.inWorld at 1, now at 1. simpl.
  unfold bind at 1.
  hear.
  unfold bind at 1, tryCatch at 1. unfold bind at 1.
  unfold BenchmarkScheduler.awaitAudit at 1.
  unfold bind at 1, BenchmarkScheduler.self at 1. simpl.
  unfold bind at 1, BenchmarkScheduler.update at 1. simpl.
  unfold bind at 1.
  destruct (signalled _);
    unfold BenchmarkScheduler.stop, ret, BenchmarkScheduler.inWorld, consoleLog, consoleError,
      BenchmarkScheduler.update, bind; simpl;
    match goal with
    | |- context [BenchmarkRunner.runAudit _ _ _ _ ?w0] =>
        assert (Hq0 : requests w0 = requests w) by (simpl; by rewrite Hq);
        rewrite <- Hq0 in Hin1, Hin3, Hlat;
        destruct (runner_runAudit_succeeds p w0 projectId sessionId c sd messages gt
                    Hw Hin1 Hin3 Hlat Hans H1 H2 H3 H4 H5 Hgt)
          as (result & w2 & t1 & -> & Hd2 & Hg & Hdd & Hgn & Hdn)
    end; simpl.
  all: unfold BenchmarkScheduler.saveCheckpoint, bind, BenchmarkScheduler.inWorld, now,
         BenchmarkScheduler.update, BenchmarkScheduler.self, writeFile; simpl;
       rewrite Hw; simpl.
  all: eexists _, _, result, t1, (clock w2); (split; [reflexivity|]); simpl.
  all: do 3 (split; [reflexivity|]).
  all: split; [|done].
  all: rewrite Hd2; simpl; rewrite He; simpl; rewrite <- !app_assoc; reflexivity.
Qed.

End HappyPath.

Lemma setAdd_elem (x y : string) (s : list string) :
  y ∈ Js.setAdd x s <-> y ∈ s \/ y = x.
Proof.
  unfold Js.setAdd. case_bool_decide; set_solver.
Qed.

Lemma setAdd_NoDup (x : string) (s : list string) :
  NoDup s -> NoDup (Js.setAdd x s).
Proof.
  intros Hs. unfold Js.setAdd. case_bool_decide; [done|].
  apply list.NoDup_app. split; [done|]. split; [set_solver|]. apply list.NoDup_singleton.
Qed.

Lemma addAll_elem (xs s : list string) (y : string) :
  y ∈ BenchmarkRunner.addAll xs s <-> y ∈ s \/ y ∈ xs.
Proof.
  unfold BenchmarkRunner.addAll. revert s. induction xs as [|x xs IH]; intros s; simpl.
  - set_solver.
  - rewrite IH, setAdd_elem. set_solver.
Qed.

Lemma addAll_NoDup (xs s : list string) :
  NoDup s -> NoDup (BenchmarkRunner.addAll xs s).
Proof.
  unfold BenchmarkRunner.addAll. revert s. induction xs as [|x xs IH]; intros s Hs; simpl; [done|].
  by apply IH, setAdd_NoDup.
Qed.

Lemma collect_spec (acc : list string * list string) (f : Finding) :
  let acc' := BenchmarkRunner.collect acc f in
  (NoDup (fst acc) -> NoDup (fst acc')) /\
  (NoDup (snd acc) -> NoDup (snd acc')) /\
  (forall x, x ∈ fst acc' <-> x ∈ fst acc \/ namesTool f x) /\
  (forall x, x ∈ snd acc' <-> x ∈ snd acc \/ namesMethod f x).
Proof.
  destruct acc as [ts ms]. unfold BenchmarkRunner.collect, namesTool, namesMethod. simpl.
  split; [|split; [|split]].
  - intros Hts.
    assert (NoDup match detector f with
                  | Some d => if Js.truthy d then Js.setAdd d ts else ts
                  | None => ts
                  end).
    { destruct (detector f) as [d|]; [destruct (Js.truthy d)|]; auto using setAdd_NoDup. }
    destruct (analysis f) as [a|]; [destruct (tools a)|]; auto using addAll_NoDup.
  - intros Hms.
    destruct (analysis f) as [a|]; [destruct (methods a)|]; auto using addAll_NoDup.
  - intros x.
    assert (Hd : x ∈ match detector f with
                     | Some d => if Js.truthy d then Js.setAdd d ts else ts
                     | None => ts
                     end <-> x ∈ ts \/ (detector f = Some x /\ x <> "")).
    { destruct (detector f) as [d|]; [destruct d as [|c d]|]; simpl; rewrite ?setAdd_elem.
      - split; [by left|]. intros [H|[[= <-] H]]; done.
      - split.
        + intros [H| ->]; [by left|by right].
        + intros [H|[[= <-] H]]; [by left|by right].
      - split; [by left|]. intros [H|[[=] H]]. done. }
    destruct (analysis f) as [a|]; [destruct (tools a) as [tl|] eqn:Et|];
      rewrite ?addAll_elem, Hd.
    + split.
      * intros [[H|H]|H]; [by left|right; by left|right; right; by exists a, tl].
      * intros [H|[H|(a' & ts' & [= <-] & Et' & H)]]; [left; by left|left; by right|].
        right. congruence.
    + split.
      * intros [H|H]; [by left|right; by left].
      * intros [H|[H|(a' & ts' & [= <-] & Et' & H)]]; [by left|by right|congruence].
    + split.
      * intros [H|H]; [by left|right; by left].
      * intros [H|[H|(a' & ts' & [=] & _)]]; [by left|by right].
  - intros x.
    destruct (analysis f) as [a|]; [destruct (methods a) as [ml|] eqn:Em|];
      rewrite ?addAll_elem.
    + split.
      * intros [H|H]; [by left|right; by exists a, ml].
      * intros [H|(a' & ms' & [= <-] & Em' & H)]; [by left|right; congruence].
    + split; [by left|]. intros [H|(a' & ms' & [= <-] & Em' & H)]; [done|congruence].
    + split; [by left|]. intros [H|(a' & ms' & [=] & _)]. done.
Qed.

Lemma collect_foldl (D : list Finding) (acc : list string * list string) :
  let used := foldl BenchmarkRunner.collect acc D in
  (NoDup (fst acc) -> NoDup (fst used)) /\
  (NoDup (snd acc) -> NoDup (snd used)) /\
  (forall x, x ∈ fst used <-> x ∈ fst acc \/ exists f, f ∈ D /\ namesTool f x) /\
  (forall x, x ∈ snd used <-> x ∈ snd acc \/ exists f, f ∈ D /\ namesMethod f x).
Proof.
  revert acc. induction D as [|f D IH]; intros acc; simpl.
  - repeat split; try done; set_solver.
  - destruct (IH (BenchmarkRunner.collect acc f)) as (H1 & H2 & H3 & H4).
    destruct (collect_spec acc f) as (C1 & C2 & C3 & C4).
    split; [auto|]. split; [auto|]. split; intros x.
    + rewrite H3, C3. set_solver.
    + rewrite H4, C4. set_solver.
Qed.

(** X20: the tools and the methods of a run result are sets: neither list
    repeats a name, [tools_used] holds exactly the non-empty detectors of
    the findings of the audit and the tools their analyses name, and
    [methods_used] exactly the methods their analyses name. *)
Theorem buildRunResult_collects_tools_and_methods (h : Host) (instant : Z) (p : C4Project)
    (G D : list Finding) (duration : Z) :
  let m := metadata (BenchmarkRunner.buildRunResult h instant p G D duration) in
  NoDup (tools_used m) /\
  NoDup (methods_used m) /\
  (forall x, x ∈ tools_used m <-> exists f, f ∈ D /\ namesTool f x) /\
  (forall x, x ∈ methods_used m <-> exists f, f ∈ D /\ namesMethod f x).
Proof.
  simpl. destruct (collect_foldl D ([], [])) as (H1 & H2 & H3 & H4). simpl in *.
  split; [apply H1, base.NoDup_nil_2|]. split; [apply H2, base.NoDup_nil_2|].
  split; intros x; [rewrite H3|rewrite H4]; set_solver.
Qed.

(** X21: the names of the result files hold no colon and no dot from the
    timestamp: [dashed] keeps the length of its text, leaves neither
    character in it, and applied once more changes nothing. *)
Theorem dashed_leaves_no_colon_or_dot (s : string) :
  String.length (dashed s) = String.length s /\
  Js.includes (dashed s) ":" = false /\
  Js.includes (dashed s) "." = false /\
  dashed (dashed s) = dashed s.
Proof.
  induction s as [|c s (Hl & Hc & Hd & Hi)]; [done|].
  cbn [dashed String.length Js.includes Js.startsWith].
  set (d := if (Ascii.eqb c ":" || Ascii.eqb c ".")%bool then "-"%char else c).
  assert (Hd' : Ascii.eqb ":" d = false /\ Ascii.eqb "." d = false /\
                (Ascii.eqb d ":" || Ascii.eqb d ".")%bool = false).
  { unfold d. destruct (Ascii.eqb_spec c ":") as [->|Hn1]; [done|].
    destruct (Ascii.eqb_spec c ".") as [->|Hn2]; [done|].
    cbn [orb]. rewrite !(proj2 (Ascii.eqb_neq _ _)); done. }
  destruct Hd' as (H1 & H2 & H3). rewrite H1, H2, H3, Hl, Hc, Hd, Hi. done.
Qed.

(** ** The severity vocabularies *)

(** X22: the audit runner and the indexer read severities alike wherever
    the indexer recognises the text: each maps the name of a severity to
    that severity, and whenever the indexer gives something other than
    [info], the audit runner gives the same. *)
Theorem normalizeSeverity_agrees_with_indexer :
  (forall s, AuditRunner.normalizeSeverity (Some (Severity_str s)) = s /\
             C4Indexer.normalizeSeverity (Some (Severity_str s)) = s) /\
  (forall o, C4Indexer.normalizeSeverity o <> info ->
             AuditRunner.normalizeSeverity o = C4Indexer.normalizeSeverity o).
Proof.
  split.
  - intros []; by vm_compute.
  - intros [s|]; [|done]. unfold C4Indexer.normalizeSeverity, AuditRunner.normalizeSeverity.
    destruct (negb (Js.truthy s)); [done|]. cbv zeta.
    destruct (String.eqb_spec (Js.toLowerCase s) "critical") as [->|_]; [done|].
    destruct (String.eqb_spec (Js.toLowerCase s) "high") as [->|_]; [done|].
    destruct (String.eqb_spec (Js.toLowerCase s) "medium") as [->|_]; [done|].
    destruct (String.eqb_spec (Js.toLowerCase s) "low") as [->|_]; [done|].
    done.
Qed.

(** ** The command line *)

Lemma split_head (sep : ascii) (s : string) :
  exists x xs, Js.split sep s = x :: xs /\ x = upTo sep s.
Proof.
  induction s as [|c s (x & xs & E & Hx)]; simpl; [by eexists _, _|].
  destruct (Ascii.eqb c sep); [by eexists _, _|].
  rewrite E. eexists _, _. split; [done|]. by rewrite Hx.
Qed.

Lemma split_second (sep : ascii) (p v : string) :
  upTo sep p = p ->
  Js.split sep (p +:+ String sep v) !! 1%nat = Some (upTo sep v).
Proof.
  induction p as [|c p IH]; intros Hp.
  - change (Js.split sep (String sep v) !! 1%nat = Some (upTo sep v)).
    simpl. rewrite Ascii.eqb_refl. simpl.
    destruct (split_head sep v) as (x & xs & -> & ->). done.
  - change (Js.split sep (String c (p +:+ String sep v)) !! 1%nat = Some (upTo sep v)).
    simpl in *. destruct (Ascii.eqb c sep); [done|]. injection Hp as Hp.
    specialize (IH Hp).
    destruct (Js.split sep (p +:+ String sep v)) as [|x xs]; [done|]. done.
Qed.

Lemma startsWith_append (p s : string) : Js.startsWith (p +:+ s) p = true.
Proof.
  induction p as [|c p IH]; [done|].
  change (Js.startsWith (String c (p +:+ s)) (String c p) = true).
  simpl. by rewrite Ascii.eqb_refl.
Qed.

Lemma find_first {A} (f : A -> bool) (pre post : list A) (x : A) :
  Forall (fun a => f a = false) pre -> f x = true ->
  List.find f (pre ++ x :: post) = Some x.
Proof.
  intros Hpre Hx. induction Hpre as [|a pre Ha Hpre IH]; simpl; [by rewrite Hx|by rewrite Ha].
Qed.

(** X23: the project filter is the text between the first and the second
    equals sign of the first argument that starts with [--project=]: a
    name without an equals sign comes back whole, a name with one is cut at
    it, and [--project=] alone gives the empty text. *)
Theorem projectFilterOf_reads_first_option (pre post : list string) (v : string) :
  Forall (fun a => Js.startsWith a "--project=" = false) pre ->
  Index.projectFilterOf (pre ++ ("--project=" +:+ v) :: post) = Some (upTo "=" v).
Proof.
  intros Hpre. unfold Index.projectFilterOf.
  assert (Hfind : List.find (fun a => Js.startsWith a "--project=")
                    (pre ++ ("--project=" +:+ v) :: post) = Some ("--project=" +:+ v)).
  { apply find_first; [done|]. apply startsWith_append. }
  rewrite Hfind.
  change ("--project=" +:+ v) with ("--project" +:+ String "=" v).
  by apply split_second.
Qed.

Section Sorting.

Context {A : Type} (key : A -> Z).

Lemma insertBy_perm (x : A) (l : list A) : Js.insertBy key x l ≡ₚ x :: l.
Proof.
  induction l as [|y l IH]; simpl; [done|].
  destruct (key x <=? key y); [done|]. rewrite IH. apply Permutation_swap.
Qed.

Lemma insertBy_sorted (x : A) (l : list A) :
  StronglySorted (fun a b => key a <= key b) l ->
  StronglySorted (fun a b => key a <= key b) (Js.insertBy key x l).
Proof.
  induction 1 as [|y l Hl IH Hy]; simpl.
  { by repeat constructor. }
  destruct (key x <=? key y) eqn:E; [apply Z.leb_le in E | apply Z.leb_gt in E].
  - constructor; [by constructor|]. constructor; [done|].
    eapply list.Forall_impl; [exact Hy|]. simpl. intros; lia.
  - constructor; [done|]. rewrite insertBy_perm. constructor; [lia|done].
Qed.

Lemma insertBy_stable (k : Z) (x : A) (l : list A) :
  List.filter (fun a => key a =? k) (Js.insertBy key x l)
  = List.filter (fun a => key a =? k) (x :: l).
Proof.
  induction l as [|y l IH]; [done|].
  simpl in *. destruct (key x <=? key y) eqn:E; [done|]. apply Z.leb_gt in E.
  simpl. rewrite IH.
  destruct (key x =? k) eqn:Ex; destruct (key y =? k) eqn:Ey; try done.
  apply Z.eqb_eq in Ex, Ey. lia.
Qed.

Lemma sortBy_spec (l : list A) :
  StronglySorted (fun a b => key a <= key b) (Js.sortBy key l) /\
  Js.sortBy key l ≡ₚ l /\
  (forall k, List.filter (fun a => key a =? k) (Js.sortBy key l)
             = List.filter (fun a => key a =? k) l).
Proof.
  unfold Js.sortBy. induction l as [|x l (Hs & Hp & Hk)]; simpl.
  { split; [constructor|done]. }
  split; [by apply insertBy_sorted|]. split; [by rewrite insertBy_perm, Hp|].
  intros k. rewrite insertBy_stable. simpl. by rewrite Hk.
Qed.

End Sorting.

Section IndexMore.

Variable h : Host.
Variable setup : Index.Setup.
Variable backendOf : C4Project -> Backend.
Variable signalled : nat -> bool.

Abbreviation run := (Index.run h setup backendOf signalled).
Abbreviation main := (Index.main h setup backendOf signalled).

(** X24: the order of a run.  [run] hands the projects to the scheduler in
    ascending priority, projects of equal priority in the order of the
    file; so an unfiltered run over projects with pairwise distinct names
    that receives no stop request and returns has audited the projects the
    checkpoint did not list as completed, lowest priority number first. *)
Theorem run_audits_in_priority_order (runner : BenchmarkRunner.t)
    (registered : list BenchmarkScheduler.EventHandler) (ps : list C4Project)
    (s s' : BenchmarkScheduler.t) (w w' : World) :
  Index.loadProjects setup = Returned ps ->
  BenchmarkScheduler.isRunning s = false ->
  NoDup (map name ps) ->
  (forall n, signalled n = false) ->
  run runner registered None (s, w) = (Returned tt, (s', w')) ->
  let order := Js.sortBy priority ps in
  BenchmarkScheduler.audited s'
  = (BenchmarkScheduler.audited s
     ++ remaining (completedProjects (BenchmarkScheduler.checkpoint s)) order)%list /\
  StronglySorted (fun a b => priority a <= priority b) order /\
  order ≡ₚ ps /\
  (forall k, List.filter (fun a => priority a =? k) order
             = List.filter (fun a => priority a =? k) ps).
Proof.
  intros Hps Hrun Hnd Hsig E order.
  destruct (sortBy_spec priority ps) as (Hs & Hp & Hk).
  split; [|done].
  unfold Index.run in E.
  unfold bind at 1, BenchmarkScheduler.inWorld at 1, consoleLog at 1 in E. simpl in E.
  unfold bind at 1, BenchmarkScheduler.inWorld at 1 in E. simpl in E. rewrite Hps in E.
  unfold bind at 1, ret at 1 in E.
  unfold bind at 1, BenchmarkScheduler.inWorld at 1, consoleLog at 1 in E. simpl in E.
  apply start_inv in E as (s1 & w0 & w1 & Hloop & ->); [|done].
  assert (Hnd' : NoDup (map name order)) by (unfold order; by rewrite Hp).
  by apply loop_remaining in Hloop.
Qed.

Lemma handleEvent_returns (ev : BenchmarkEvent) (w : World) :
  fst (BenchmarkRunner.handleEvent ev w) = Returned tt.
Proof. by destruct ev. Qed.

Lemma filter_name_absent (wanted : string) (ps : list C4Project) :
  wanted ∉ map name ps -> List.filter (fun p => String.eqb (name p) wanted) ps = [].
Proof.
  induction ps as [|p ps IH]; intros Hn; [done|]. simpl in *.
  destruct (String.eqb_spec (name p) wanted) as [E|E]; [set_solver|]. apply IH. set_solver.
Qed.

Lemma filter_name_present (wanted : string) (ps : list C4Project) :
  wanted ∈ map name ps ->
  (length (List.filter (fun p => String.eqb (name p) wanted) ps) =? 0)%nat = false.
Proof.
  induction ps as [|p ps IH]; intros Hn; [set_solver|]. simpl in *.
  destruct (String.eqb_spec (name p) wanted) as [E|E]; [done|]. apply IH. set_solver.
Qed.

(** X25: a filter selects by name.  With a non-empty filter that names no
    configured project, [run] throws before the scheduler is started,
    leaving it as it was; otherwise every audit the run starts is for a
    project of that name. *)
Theorem run_filter_selects_by_name (runner : BenchmarkRunner.t)
    (registered : list BenchmarkScheduler.EventHandler) (ps : list C4Project)
    (wanted : string) (s : BenchmarkScheduler.t) (w : World) :
  Index.loadProjects setup = Returned ps ->
  wanted <> "" ->
  if bool_decide (wanted ∈ map name ps)
  then exists new,
         BenchmarkScheduler.audited (fst (snd (run runner registered (Some wanted) (s, w))))
         = (BenchmarkScheduler.audited s ++ new)%list /\
         forall P, P ∈ new -> P = wanted
  else run runner registered (Some wanted) (s, w)
       = (Thrown ("Project not found: " +:+ wanted),
          (s, addLine (Log "[Benchmark] Starting benchmark run...") w)).
Proof.
  intros Hps Hw. assert (Ht : Js.truthy wanted = true) by by destruct wanted.
  case_bool_decide as Hin.
  all: unfold Index.run.
  all: unfold bind at 1, BenchmarkScheduler.inWorld at 1, consoleLog at 1; simpl.
  all: unfold bind at 1, BenchmarkScheduler.inWorld at 1; simpl; rewrite Hps, Ht.
  all: unfold bind at 1.
  - rewrite filter_name_present by done. unfold ret at 1.
    unfold bind at 1, BenchmarkScheduler.inWorld at 1, consoleLog at 1. simpl.
    match goal with
    | |- context [BenchmarkScheduler.start ?h0 ?hs ?ra ?sg ?prj (?s0, ?w0)] =>
        destruct (start_order h0 hs ra sg prj s0 w0) as (new & Ha & Hs)
    end.
    exists new. split; [done|]. intros P HP.
    assert (HP' : P ∈ map name (Js.sortBy priority
                    (List.filter (fun p => String.eqb (name p) wanted) ps))).
    { eapply sublist_submseteq, elem_of_submseteq in Hs; done. }
    destruct (sortBy_spec priority (List.filter (fun p => String.eqb (name p) wanted) ps))
      as (_ & Hp & _).
    rewrite Hp in HP'. apply list_elem_of_fmap in HP' as (p & -> & Hp').
    apply list_elem_of_In, List.filter_In in Hp' as [_ Hp'].
    by apply String.eqb_eq in Hp'.
  - by rewrite filter_name_absent.
Qed.

Lemma run_settles (runner : BenchmarkRunner.t) (projectFilter : option string)
    (ps : list C4Project) (s : BenchmarkScheduler.t) (w : World) :
  Index.loadProjects setup = Returned ps ->
  BenchmarkScheduler.isRunning s = false ->
  match projectFilter with
  | Some wanted => wanted = "" \/ wanted ∈ map name ps
  | None => True
  end ->
  match run runner [] projectFilter (s, w) with
  | (Returned _, _) => True
  | (Thrown e, _) => checkpoint_rejected h s e
  | (Diverged, _) =>
      exists p, p ∈ ps /\
                BenchmarkRunner.getGroundTruth (BenchmarkRunner.indexer runner) p = Diverged
  end.
Proof.
  intros Hps Hrun Hfilter.
  unfold Index.run.
  unfold bind at 1, BenchmarkScheduler.inWorld at 1, consoleLog at 1. simpl.
  unfold bind at 1, BenchmarkScheduler.inWorld at 1. simpl. rewrite Hps.
  unfold bind at 1.
  assert (Htail : forall projects w0,
             (forall p, p ∈ projects -> p ∈ ps) ->
             match bind (BenchmarkScheduler.inWorld
                           (consoleLog ("[Benchmark] Running "
                                        +:+ pretty (length (Js.sortBy priority projects))
                                        +:+ " projects")))
                     (fun _ => BenchmarkScheduler.start h ([] ++ [BenchmarkRunner.handleEvent])
                                 (BenchmarkRunner.runAudit h backendOf runner) signalled
                                 (Js.sortBy priority projects)) (s, w0)
                   : Outcome unit * (BenchmarkScheduler.t * World)
             with
             | (Returned _, _) => True
             | (Thrown e, _) => checkpoint_rejected h s e
             | (Diverged, _) =>
                 exists p, p ∈ ps /\
                   BenchmarkRunner.getGroundTruth (BenchmarkRunner.indexer runner) p = Diverged
             end).
  { intros projects w0 Hsub.
    unfold bind at 1, BenchmarkScheduler.inWorld at 1, consoleLog at 1. simpl.
    match goal with
    | |- context [BenchmarkScheduler.start ?h0 ?hs ?ra ?sg ?prj (?s1, ?w1)] =>
        pose proof (start_settles h0 hs ra sg prj s1 w1 Hrun) as Hst;
        destruct (BenchmarkScheduler.start h0 hs ra sg prj (s1, w1)) as [[[]|e|] [s2 w2]]
    end; [done|by destruct Hst|].
    destruct Hst as [(p & Hp & w3 & Hd)|(hd & ev & w3 & Hin & Hd)].
    - exists p. split.
      + apply Hsub. destruct (sortBy_spec priority projects) as (_ & Hperm & _).
        by rewrite <- Hperm.
      + pose proof (runner_runAudit_outcome h backendOf runner p w3) as Ho.
        destruct (BenchmarkRunner.runAudit h backendOf runner p w3) as [[r|e|] w4];
          [done|done|by destruct Ho].
    - apply list_elem_of_singleton in Hin. subst hd.
      by rewrite handleEvent_returns in Hd. }
  destruct projectFilter as [wanted|]; [destruct (Js.truthy wanted) eqn:Ht|].
  - destruct Hfilter as [->|Hin]; [done|].
    cbv zeta. rewrite filter_name_present by done. unfold ret at 1.
    apply Htail. intros p Hp. apply list_elem_of_In, List.filter_In in Hp as [Hp _].
    by apply list_elem_of_In.
  - unfold ret at 1. by apply Htail.
  - unfold ret at 1. by apply Htail.
Qed.

(** X26: the exit code tells fatal errors, not failed audits.  When the two
    configuration files load, the command is [run] and the filter, if any,
    names a configured project or is empty, [main] does not throw, and
    when it returns it has called [process.exit] only if the file system
    rejected a write of the checkpoint, and then with code 1: no number of
    failed audits makes it do so. *)
Theorem main_exit_code_ignores_audit_failures (args : list string)
    (st : Index.Settings) (ps : list C4Project) (w : World) :
  Index.loadSettings setup = Returned st ->
  Index.loadProjects setup = Returned ps ->
  Js.orElse (default "" (head args)) "run" = "run" ->
  match Index.projectFilterOf args with
  | Some wanted => wanted = "" \/ wanted ∈ map name ps
  | None => True
  end ->
  match main args w with
  | (Returned e, _) =>
      e = Index.Completed \/
      (e = Index.Exited 1 /\
       exists err w0 c,
         writeError h w0 {| path := pathJoin (Index.DATA_DIR setup) "checkpoint.json";
                            data := CheckpointJson c |} = Some err)
  | (Thrown _, _) => False
  | (Diverged, _) => True
  end.
Proof.
  intros Hst Hps Hcmd Hfilter.
  unfold Index.main. rewrite Hcmd. unfold tryCatch, bind at 1. rewrite Hst.
  unfold bind at 1, now at 1. rewrite String.eqb_refl.
  match goal with
  | |- context [Index.run ?h0 ?su ?bo ?sg ?rn [] ?pf (?s0, ?w0)] =>
      pose proof (run_settles rn pf ps s0 w0 Hps eq_refl Hfilter) as Hr;
      destruct (Index.run h0 su bo sg rn [] pf (s0, w0)) as [[[]|e|] [s1 w1]]
  end; [by left| |done].
  unfold bind, consoleError, ret. simpl. right. split; [done|].
  destruct Hr as (w0 & c & Hr). by exists e, w0, c.
Qed.

(** X27: the fatal paths of [main].  When the settings do not load, every
    command, even an unknown one, ends in [process.exit(1)] after the
    error is shown, and the usage is not; when they load and the command is
    none of [run], [discover] and [report], [main] shows the usage and ends
    in [process.exit(1)]; in both cases without a request or a file. *)
Theorem main_exits_with_1_on_fatal_paths (args : list string) (w : World) :
  (forall e,
     Index.loadSettings setup = Thrown e ->
     main args w = (Returned (Index.Exited 1), addLine (Err ("Fatal error: " +:+ e)) w)) /\
  (forall st,
     Index.loadSettings setup = Returned st ->
     known (Js.orElse (default "" (head args)) "run") = false ->
     main args w
     = (Returned (Index.Exited 1),
        addLine (Log "       pnpm report")
          (addLine (Log "       pnpm discover")
             (addLine (Log "Usage: pnpm run [--project=<name>]") w)))).
Proof.
  split.
  - intros e He. unfold Index.main, tryCatch, bind at 1. by rewrite He.
  - intros st Hst Hk. unfold Index.main, tryCatch, bind at 1. rewrite Hst.
    unfold bind at 1, now at 1. unfold known in Hk.
    apply orb_false_iff in Hk as [Hk Hk3]. apply orb_false_iff in Hk as [Hk1 Hk2].
    rewrite Hk1, Hk2, Hk3. done.
Qed.

End IndexMore.

(** ** The dataset command line *)

Section DatasetMore.

Variable preparer : DatasetCli.DatasetPreparer.
Variable loadProjects : Outcome (list C4Project).
Variable listDatasets : M World unit.
Variable showDataset : string -> M World unit.

Abbreviation prepareProject := (DatasetCli.prepareProject preparer).
Abbreviation prepareEach := (DatasetCli.prepareEach preparer).
Abbreviation main := (DatasetCli.main preparer loadProjects listDatasets showDataset).

Lemma logEntries_returns (entries : list (string * nat)) (w : World) :
  exists w', DatasetCli.logEntries entries w = (Returned tt, w').
Proof.
  revert w. induction entries as [|[sev count] entries IH]; intros w; simpl; [by eexists|].
  unfold bind, consoleLog. apply IH.
Qed.

(** A failed preparation is reported, not thrown. *)
Lemma prepareProject_settles (p : C4Project) (w : World) :
  match prepareProject p w with
  | (Returned _, _) => True
  | (Thrown _, _) => False
  | (Diverged, _) => exists w0, fst (DatasetCli.prepare preparer p w0) = Diverged
  end.
Proof.
  unfold DatasetCli.prepareProject, tryCatch.
  unfold bind at 1, consoleLog at 1. unfold bind at 1, consoleLog at 1.
  unfold bind at 1, consoleLog at 1. unfold bind at 1, consoleLog at 1.
  unfold bind at 1.
  match goal with
  | |- context [DatasetCli.prepare preparer p ?w0] =>
      destruct (DatasetCli.prepare preparer p w0) as [[dataset|e|] w1] eqn:E
  end; [| done | eexists; by rewrite E].
  unfold bind at 1, consoleLog at 1. unfold bind at 1, consoleLog at 1.
  unfold bind at 1, consoleLog at 1. unfold bind at 1.
  match goal with
  | |- context [DatasetCli.logEntries ?es ?w0] =>
      destruct (logEntries_returns es w0) as [w2 ->]
  end.
  done.
Qed.

Lemma prepareEach_counts (projects : list C4Project) (success failed : nat) (w : World) :
  match prepareEach projects success failed w with
  | (Returned counts, _) =>
      (fst counts + snd counts = success + failed + length projects)%nat
  | (Thrown _, _) => False
  | (Diverged, _) =>
      exists p w0, p ∈ projects /\ fst (DatasetCli.prepare preparer p w0) = Diverged
  end.
Proof.
  revert success failed w.
  induction projects as [|p projects IH]; intros success failed w; simpl; [lia|].
  unfold bind at 1.
  pose proof (prepareProject_settles p w) as Hp.
  destruct (DatasetCli.prepareProject preparer p w) as [[[]|e|] w1]; [| |done|].
  - specialize (IH (S success) failed w1).
    destruct (DatasetCli.prepareEach _ _ _ _ _) as [[counts|e|] w2]; [lia|done|].
    destruct IH as (q & w0 & Hq & Hd). exists q, w0. set_solver.
  - specialize (IH success (S failed) w1).
    destruct (DatasetCli.prepareEach _ _ _ _ _) as [[counts|e|] w2]; [lia|done|].
    destruct IH as (q & w0 & Hq & Hd). exists q, w0. set_solver.
  - destruct Hp as [w0 Hd]. exists p, w0. set_solver.
Qed.

(** X28: [prepare --all] accounts for every configured project.  However
    many preparations fail, the command returns without calling
    [process.exit], and the two counts it prints last, of the successes
    and of the failures, add up to the number of the projects; only a
    preparation that never settles keeps it from returning. *)
Theorem prepare_all_counts_every_project (rest : list string) (ps : list C4Project)
    (w : World) :
  loadProjects = Returned ps ->
  "--all" ∈ rest ->
  match main ("prepare" :: rest) w with
  | (Returned e, w') =>
      e = Index.Completed /\
      exists succeeded failed before,
        (succeeded + failed = length ps)%nat /\
        console w' = (before ++ [Log "
=== Complete ==="; Log ("Success: " +:+ pretty succeeded);
                                 Log ("Failed: " +:+ pretty failed)])%list
  | (Thrown _, _) => False
  | (Diverged, _) =>
      exists p w0, p ∈ ps /\ fst (DatasetCli.prepare preparer p w0) = Diverged
  end.
Proof.
  intros Hps Hall.
  assert (Hflag : DatasetCli.hasFlag ("prepare" :: rest) "--all" = true).
  { unfold DatasetCli.hasFlag. apply bool_decide_eq_true. set_solver. }
  unfold DatasetCli.main.
  change (Js.orElse (default "" (head ("prepare" :: rest))) "help") with "prepare".
  rewrite String.eqb_refl. cbv zeta. rewrite Hflag, Hps.
  rewrite andb_false_r. cbn [negb andb].
  unfold tryCatch. unfold bind at 1. unfold bind at 1, consoleLog at 1.
  unfold bind at 1.
  match goal with
  | |- context [DatasetCli.prepareEach preparer ps 0 0 ?w0] =>
      pose proof (prepareEach_counts ps 0 0 w0) as Hc;
      destruct (DatasetCli.prepareEach preparer ps 0 0 w0) as [[[k m]|e|] w1]
  end; [|done|done].
  unfold DatasetCli.complete, bind, consoleLog, ret. simpl.
  split; [done|]. exists k, m, (console w1). split; [simpl in Hc; lia|].
  by rewrite <- !app_assoc.
Qed.

(** X29: the selection of [prepare] goes by precedence: [--all] wins over
    [--with-reports] and over a project name, and [--with-reports] over a
    project name; what else the arguments hold is not looked at. *)
Theorem prepare_selection_precedence (rest : list string) (w : World) :
  ("--all" ∈ rest -> main ("prepare" :: rest) w = main ["prepare"; "--all"] w) /\
  ("--all" ∉ rest -> "--with-reports" ∈ rest ->
   main ("prepare" :: rest) w = main ["prepare"; "--with-reports"] w).
Proof.
  split.
  - intros Hall.
    assert (Hflag : DatasetCli.hasFlag ("prepare" :: rest) "--all" = true).
    { unfold DatasetCli.hasFlag. apply bool_decide_eq_true. set_solver. }
    unfold DatasetCli.main.
    change (Js.orElse (default "" (head ("prepare" :: rest))) "help") with "prepare".
    change (Js.orElse (default "" (head ["prepare"; "--all"])) "help") with "prepare".
    rewrite String.eqb_refl. cbv zeta. rewrite Hflag.
    change (DatasetCli.hasFlag ["prepare"; "--all"] "--all") with true.
    by rewrite !andb_false_r.
  - intros Hall Hrep.
    assert (Hflag : DatasetCli.hasFlag ("prepare" :: rest) "--all" = false).
    { unfold DatasetCli.hasFlag. apply bool_decide_eq_false. set_solver. }
    assert (Hflag' : DatasetCli.hasFlag ("prepare" :: rest) "--with-reports" = true).
    { unfold DatasetCli.hasFlag. apply bool_decide_eq_true. set_solver. }
    unfold DatasetCli.main.
    change (Js.orElse (default "" (head ("prepare" :: rest))) "help") with "prepare".
    change (Js.orElse (default "" (head ["prepare"; "--with-reports"])) "help") with "prepare".
    rewrite String.eqb_refl. cbv zeta. rewrite Hflag, Hflag'.
    change (DatasetCli.hasFlag ["prepare"; "--with-reports"] "--all") with false.
    change (DatasetCli.hasFlag ["prepare"; "--with-reports"] "--with-reports") with true.
    by rewrite !andb_false_r.
Qed.

(** X30: the exit code of [check] tells whether the dataset exists: 0 when
    it does, 1 when it does not, after the word that says so is printed;
    an error of the lookup is fatal and ends with 1 as well. *)
Theorem check_exit_code_tells_existence (rest : list string) (projectName : string)
    (w : World) :
  DatasetCli.getArg ("check" :: rest) "--project=" = Some projectName ->
  projectName <> "" ->
  match DatasetCli.hasDataset preparer projectName w with
  | (Returned found, w1) =>
      main ("check" :: rest) w
      = (Returned (Index.Exited (if found then 0 else 1)),
         addLine (Log (if found then "exists" else "not_found")) w1)
  | (Thrown e, w1) =>
      main ("check" :: rest) w
      = (Returned (Index.Exited 1), addLine (Err ("Fatal error: " +:+ e)) w1)
  | (Diverged, w1) => main ("check" :: rest) w = (Diverged, w1)
  end.
Proof.
  intros Harg Hne.
  assert (Hm : DatasetCli.missing (Some projectName) = false) by by destruct projectName.
  unfold DatasetCli.main.
  change (Js.orElse (default "" (head ("check" :: rest))) "help") with "check".
  change ("check" =? "prepare")%string with false.
  change ("check" =? "list")%string with false.
  change ("check" =? "show")%string with false.
  rewrite String.eqb_refl. cbv zeta. rewrite Harg, Hm.
  unfold tryCatch, bind, consoleLog, consoleError, ret.
  change (default "" (Some projectName)) with projectName.
  destruct (DatasetCli.hasDataset preparer projectName w) as [[found|e|] w1]; [|done|done].
  by destruct found.
Qed.

End DatasetMore.

(** ** The further properties at work on sample data *)

(** Two listeners, the first of which fails. *)
Lemma emitTo_reaches_every_listener_witness :
  BenchmarkScheduler.emitTo [Sample.grumpy; BenchmarkRunner.handleEvent]
    (project_completed "demo-proj") Sample.world
  = (Returned tt,
     foldl (heard (project_completed "demo-proj")) Sample.world
       [Sample.grumpy; BenchmarkRunner.handleEvent]).
Proof.
  apply emitTo_reaches_every_listener.
  intros hd w Hin.
  apply elem_of_cons in Hin as [->|Hin]; [discriminate|].
  apply list_elem_of_singleton in Hin. subst hd. discriminate.
Defined.


(** A run of two projects under the listener of the benchmark runner. *)
Lemma start_leaves_checkpoint_on_disk_witness :
  let r := BenchmarkScheduler.start Sample.host [BenchmarkRunner.handleEvent] Sample.audit
             Sample.never [Sample.demo; Sample.other] (Sample.fresh, Sample.world) in
  exists c,
    BenchmarkScheduler.getCheckpoint (snd r) = (Returned c, snd r) /\
    BenchmarkScheduler.loadCheckpoint (snd r) = (Returned (Some (CheckpointJson c)), snd r) /\
    currentProject c = None.
Proof.
  intros r.
  assert (H1 : leave_files [BenchmarkRunner.handleEvent]).
  { intros hd ev w Hin. apply list_elem_of_singleton in Hin. subst hd. by destruct ev. }
  assert (H2 : BenchmarkScheduler.isRunning Sample.fresh = false) by reflexivity.
  assert (H3 : r = (Returned tt, (fst (snd r), snd (snd r)))) by (vm_compute; reflexivity).
  pose proof (start_leaves_checkpoint_on_disk Sample.host [BenchmarkRunner.handleEvent]
                Sample.audit Sample.never [Sample.demo; Sample.other] Sample.fresh
                (fst (snd r)) Sample.world (snd (snd r)) H1 H2 H3) as H.
  destruct H as [[Ha _]|[_ H]].
  - vm_compute in Ha. discriminate.
  - destruct (snd r) as [s' w']. exact H.
Defined.

(** A signal during the first of two projects. *)
Lemma start_records_each_audit_once_witness :
  let r := BenchmarkScheduler.start Sample.host [] Sample.audit Sample.always
             [Sample.demo; Sample.other] (Sample.fresh, Sample.world) in
  exists new c f,
    BenchmarkScheduler.audited (fst (snd r)) = ([] ++ new)%list /\
    completedProjects (BenchmarkScheduler.checkpoint (fst (snd r))) = ([] ++ c)%list /\
    failedProjects (BenchmarkScheduler.checkpoint (fst (snd r))) = ([] ++ f)%list /\
    (c ++ f)%list ≡ₚ new.
Proof.
  intros r.
  assert (H1 : BenchmarkScheduler.isRunning Sample.fresh = false) by reflexivity.
  assert (H2 : r = (Returned tt, (fst (snd r), snd (snd r)))) by (vm_compute; reflexivity).
  exact (start_records_each_audit_once Sample.host [] Sample.audit Sample.always
           [Sample.demo; Sample.other] Sample.fresh (fst (snd r)) Sample.world (snd (snd r))
           H1 H2).
Defined.


(** A session that is idle from the start while the agent asks for the
    repository, awaited for up to 5 minutes. *)
Lemma idle_session_wait_is_capped_witness :
  exists exit n w',
    AuditRunner.pollLoop Sample.asksForRepository (Sample.auditRunner 300000)
      (AuditRunner.pollFuel 300000) "session-1" 0 300000 0 "" (advance 10000 Sample.world)
    = (Returned (exit, n), w') /\
    (n <= 12)%nat /\ (mute Sample.asksForRepository -> (n <= 6)%nat).
Proof.
  assert (H1 : idle Sample.asksForRepository).
  { intros k. eexists. repeat split; reflexivity. }
  assert (H2 : in_time Sample.asksForRepository) by (intros n; reflexivity).
  assert (H3 : forall k, answered (messagesCheck_res Sample.asksForRepository k)).
  { intros k. eexists. split; [reflexivity|]. intros _. discriminate. }
  assert (H4 : 0 + 10000 <= clock (advance 10000 Sample.world)) by (vm_compute; discriminate).
  exact (idle_session_wait_is_capped Sample.asksForRepository (Sample.auditRunner 300000)
           "session-1" 0 300000 (advance 10000 Sample.world) H1 H2 H3 H4).
Defined.

(** The wait of 60 seconds that finds the report at the third poll. *)
Lemma wait_polls_are_bounded_by_timeout_witness :
  let r := AuditRunner.pollLoop Sample.backend (Sample.auditRunner 60000)
             (AuditRunner.pollFuel 60000) "session-1" 0 60000 0 ""
             (advance 10000 Sample.world) in
  fst r = Returned (AuditRunner.Broke, 3%nat) /\
  5000 * Z.of_nat 3 <= Z.max 0 (60000 - 5000).
Proof.
  intros r.
  assert (H1 : 0 + 10000 <= clock (advance 10000 Sample.world)) by (vm_compute; discriminate).
  assert (H2 : r = (Returned (AuditRunner.Broke, 3%nat), snd r)) by (vm_compute; reflexivity).
  split; [by rewrite H2|].
  exact (wait_polls_are_bounded_by_timeout Sample.backend (Sample.auditRunner 60000)
           "session-1" 0 60000 (advance 10000 Sample.world) (snd r) AuditRunner.Broke 3 H1 H2).
Defined.

(** The first status request takes 10 seconds. *)
Lemma status_request_error_aborts_wait_witness :
  exists w',
    AuditRunner.sendMessage Sample.stalled (Sample.auditRunner 30000) "session-1" "audit"
      Sample.world
    = (Thrown "TimeoutError: The operation was aborted due to timeout", w') /\
    requests w'
    = (requests Sample.world
       ++ [chatRequest (Sample.auditRunner 30000) "session-1" "audit";
           statusRequest (Sample.auditRunner 30000) "session-1"])%list /\
    disk w' = disk Sample.world /\
    lastSessionLogs w' = lastSessionLogs Sample.world.
Proof.
  assert (H1 : Z.of_N (latency Sample.stalled (length (requests Sample.world))) < 30000)
    by reflexivity.
  assert (H2 : 10000 < AuditRunner.timeout (AuditRunner.config (Sample.auditRunner 30000)))
    by reflexivity.
  assert (H3 : 10000 <= Z.of_N (latency Sample.stalled (S (length (requests Sample.world)))))
    by (vm_compute; discriminate).
  exact (status_request_error_aborts_wait Sample.stalled (Sample.auditRunner 30000)
           "session-1" "audit" Sample.world
           {| res_status := 200; statusText := "OK"; res_text := "";
              res_json := Some {| started_runningId := "run-1"; eventStreamUrl := "/events" |} |}
           {| started_runningId := "run-1"; eventStreamUrl := "/events" |}
           "TimeoutError: The operation was aborted due to timeout"
           eq_refl eq_refl eq_refl H1 H2 (or_introl (conj H3 eq_refl))).
Defined.

(** A backend that answers at once. *)
Lemma runAudit_duration_is_bounded_witness :
  let r := AuditRunner.runAudit Sample.host Sample.backend (Sample.auditRunner 30000)
             Sample.demo Sample.world in
  fst r <> Diverged /\
  clock Sample.world <= clock (snd r) <= clock Sample.world + 2 * 0 + 30000 + 407000.
Proof.
  assert (H1 : forall n, Z.of_N (latency Sample.backend n) <= 0) by (intros n; discriminate).
  assert (H2 : 0 <= AuditRunner.timeout (AuditRunner.config (Sample.auditRunner 30000)))
    by discriminate.
  exact (runAudit_duration_is_bounded Sample.host Sample.backend (Sample.auditRunner 30000)
           0 Sample.demo Sample.world H1 H2).
Defined.

(** The indexer finds no report for the project. *)
Lemma ground_truth_failure_precedes_audit_witness :
  exists w',
    BenchmarkRunner.runAudit Sample.host (fun _ => Sample.backend) Sample.blindRunner
      Sample.demo Sample.world
    = (Thrown "no report", w') /\
    requests w' = requests Sample.world /\
    disk w' = disk Sample.world /\
    lastSessionLogs w' = lastSessionLogs Sample.world.
Proof.
  exact (ground_truth_failure_precedes_audit Sample.host (fun _ => Sample.backend)
           Sample.blindRunner Sample.demo "no report" Sample.world eq_refl).
Defined.

(** A backend that answers every call with a success. *)
Lemma successful_audit_is_recorded_completed_witness :
  exists s' w',
    ExtendedScheduler.start Sample.host (fun _ => Sample.backend) Sample.benchmarkRunner
      Sample.never [Sample.demo] (Sample.fresh, Sample.world)
    = (Returned tt, (s', w')) /\
    completedProjects (BenchmarkScheduler.checkpoint s') = ["demo-proj"] /\
    failedProjects (BenchmarkScheduler.checkpoint s') = [] /\
    map path (disk w')
    = ["data/runs/demo-proj/findings-2026-01-01T00-00-00-000Z.json";
       "data/runs/demo-proj/run-2026-01-01T00-00-00-000Z.json";
       "data/checkpoint.json"].
Proof.
  assert (Hw : writable Sample.host) by (intros w f; reflexivity).
  assert (Hlat : prompt_from Sample.backend (length (requests Sample.world) + 4))
    by (intros m _; reflexivity).
  assert (Hans : polls_answered Sample.backend).
  { split.
    - intros k. unfold Sample.backend, Sample.script, session_res.
      destruct (k <? 3)%nat; eexists; (split; [reflexivity|]); intros; discriminate.
    - intros k. eexists. split; [reflexivity|]. intros _. discriminate. }
  assert (Hnew : name Sample.demo ∉ completedProjects (BenchmarkScheduler.checkpoint Sample.fresh)).
  { change ("demo-proj" ∉ @nil string). set_solver. }
  destruct (successful_audit_is_recorded_completed Sample.host (fun _ => Sample.backend)
              Sample.benchmarkRunner Sample.never Sample.demo Sample.fresh Sample.world
              "project-1" "session-1"
              {| containerId := "container-1"; wasCreated := true; wasRestarted := false |}
              {| started_runningId := "run-1"; eventStreamUrl := "/events" |}
              Sample.report
              [Sample.groundTruthFinding high; Sample.groundTruthFinding medium]
              eq_refl Hnew Hw eq_refl eq_refl Hlat Hans
              (ex_intro _ _ (conj eq_refl (conj eq_refl eq_refl)))
              (ex_intro _ _ (conj eq_refl (conj eq_refl eq_refl)))
              (ex_intro _ _ (conj eq_refl (conj eq_refl eq_refl)))
              (ex_intro _ _ (conj eq_refl (conj eq_refl eq_refl)))
              (ex_intro _ _ (conj eq_refl (conj eq_refl eq_refl)))
              eq_refl)
    as (s' & w' & result & t1 & t2 & E & Hc & Hf & _ & Hd & _).
  exists s', w'. split; [exact E|]. split; [exact Hc|]. split; [exact Hf|].
  rewrite Hd. reflexivity.
Defined.

(** A name with an equals sign in it. *)
Lemma projectFilterOf_reads_first_option_witness :
  Index.projectFilterOf ["run"; "--project=a=b"] = Some "a".
Proof.
  assert (H : Forall (fun a => Js.startsWith a "--project=" = false) ["run"]).
  { constructor; [reflexivity|constructor]. }
  exact (projectFilterOf_reads_first_option ["run"] [] "a=b" H).
Defined.

(** Two projects, the second of the file first by priority. *)
Lemma run_audits_in_priority_order_witness :
  let r := Index.run Sample.host Sample.setup (fun _ => Sample.backend) Sample.never
             Sample.benchmarkRunner [] None (Sample.fresh, Sample.world) in
  BenchmarkScheduler.audited (fst (snd r)) = ["demo-proj"; "late-proj"].
Proof.
  intros r.
  assert (H1 : Index.loadProjects Sample.setup = Returned [Sample.ranked "late-proj" 2; Sample.demo])
    by reflexivity.
  assert (H2 : BenchmarkScheduler.isRunning Sample.fresh = false) by reflexivity.
  assert (H3 : NoDup (map name [Sample.ranked "late-proj" 2; Sample.demo])).
  { change (NoDup ["late-proj"; "demo-proj"]). repeat constructor; set_solver. }
  assert (H4 : forall n, Sample.never n = false) by (intros n; reflexivity).
  assert (H5 : r = (Returned tt, (fst (snd r), snd (snd r)))) by (vm_compute; reflexivity).
  pose proof (run_audits_in_priority_order Sample.host Sample.setup (fun _ => Sample.backend)
                Sample.never Sample.benchmarkRunner [] [Sample.ranked "late-proj" 2; Sample.demo]
                Sample.fresh (fst (snd r)) Sample.world (snd (snd r)) H1 H2 H3 H4 H5) as H.
  destruct H as [H _]. exact H.
Defined.

(** A filter that names no configured project. *)
Lemma run_filter_selects_by_name_witness :
  Index.run Sample.host Sample.setup (fun _ => Sample.backend) Sample.never
    Sample.benchmarkRunner [] (Some "missing") (Sample.fresh, Sample.world)
  = (Thrown "Project not found: missing",
     (Sample.fresh, addLine (Log "[Benchmark] Starting benchmark run...") Sample.world)).
Proof.
  assert (H1 : Index.loadProjects Sample.setup = Returned [Sample.ranked "late-proj" 2; Sample.demo])
    by reflexivity.
  assert (H2 : "missing" <> "") by discriminate.
  exact (run_filter_selects_by_name Sample.host Sample.setup (fun _ => Sample.backend)
           Sample.never Sample.benchmarkRunner [] [Sample.ranked "late-proj" 2; Sample.demo]
           "missing" Sample.fresh Sample.world H1 H2).
Defined.

(** Every audit fails at the container, and the run still completes. *)
Lemma main_exit_code_ignores_audit_failures_witness :
  match Index.main Sample.host Sample.setup (fun _ => Sample.containerDown) Sample.never
          ["run"] Sample.world with
  | (Returned e, _) =>
      e = Index.Completed \/
      (e = Index.Exited 1 /\
       exists err w0 c,
         writeError Sample.host w0
           {| path := pathJoin (Index.DATA_DIR Sample.setup) "checkpoint.json";
              data := CheckpointJson c |} = Some err)
  | (Thrown _, _) => False
  | (Diverged, _) => True
  end.
Proof.
  exact (main_exit_code_ignores_audit_failures Sample.host Sample.setup
           (fun _ => Sample.containerDown) Sample.never ["run"]
           {| Index.scheduler := Sample.settings;
              Index.github := {| Index.organization := "code-423n4";
                                 Index.projectPattern := "*";
                                 Index.requireFindings := true |} |}
           [Sample.ranked "late-proj" 2; Sample.demo] Sample.world
           eq_refl eq_refl eq_refl I).
Defined.

(** Two projects, the second of which has no report. *)
Lemma prepare_all_counts_every_project_witness :
  match DatasetCli.main Sample.preparer (Returned [Sample.demo; Sample.other]) (ret tt)
          (fun _ => ret tt) ["prepare"; "--all"] Sample.world with
  | (Returned e, w') =>
      e = Index.Completed /\
      exists succeeded failed before,
        (succeeded + failed = length [Sample.demo; Sample.other])%nat /\
        console w' = (before ++ [Log "
=== Complete ==="; Log ("Success: " +:+ pretty succeeded);
                                 Log ("Failed: " +:+ pretty failed)])%list
  | (Thrown _, _) => False
  | (Diverged, _) =>
      exists p w0, p ∈ [Sample.demo; Sample.other] /\
                   fst (DatasetCli.prepare Sample.preparer p w0) = Diverged
  end.
Proof.
  assert (H : "--all" ∈ ["--all"]) by set_solver.
  exact (prepare_all_counts_every_project Sample.preparer
           (Returned [Sample.demo; Sample.other]) (ret tt) (fun _ => ret tt)
           ["--all"] [Sample.demo; Sample.other] Sample.world eq_refl H).
Defined.

(** The dataset of the project exists. *)
Lemma check_exit_code_tells_existence_witness :
  DatasetCli.main Sample.preparer (Returned [Sample.demo; Sample.other]) (ret tt)
    (fun _ => ret tt) ["check"; "--project=demo-proj"] Sample.world
  = (Returned (Index.Exited 0), addLine (Log "exists") Sample.world).
Proof.
  assert (H : "demo-proj" <> "") by discriminate.
  exact (check_exit_code_tells_existence Sample.preparer
           (Returned [Sample.demo; Sample.other]) (ret tt) (fun _ => ret tt)
           ["--project=demo-proj"] "demo-proj" Sample.world eq_refl H).
Defined.

(** A file system that rejects the checkpoint: the first audit succeeds and
    is recorded, the write of the checkpoint that follows it is rejected,
    and the run ends there with that error, [isRunning] cleared; [main]
    ends in [process.exit(1)]. *)
Lemma rejected_checkpoint_write_ends_the_run :
  let r := BenchmarkScheduler.start Sample.readOnly [] Sample.audit Sample.never
             [Sample.demo; Sample.other] (Sample.fresh, Sample.world) in
  fst r = Thrown "EROFS: read-only file system" /\
  BenchmarkScheduler.isRunning (fst (snd r)) = false /\
  BenchmarkScheduler.audited (fst (snd r)) = ["demo-proj"] /\
  completedProjects (BenchmarkScheduler.checkpoint (fst (snd r))) = ["demo-proj"] /\
  disk (snd (snd r)) = [] /\
  fst (Index.main Sample.readOnly Sample.setup (fun _ => Sample.backend) Sample.never
         ["run"] Sample.world)
  = Returned (Index.Exited 1).
Proof. vm_compute. repeat split. Qed.

(** A file system that rejects the run result: the run of the project
    throws with the finding artifact of its audit written. *)
Lemma rejected_result_write_leaves_artifact :
  let r := BenchmarkRunner.runAudit Sample.noResults (fun _ => Sample.backend)
             Sample.benchmarkRunner Sample.demo Sample.world in
  fst r = Thrown "ENOSPC: no space left on device" /\
  map path (disk (snd r))
  = ["data/runs/demo-proj/findings-2026-01-01T00-00-00-000Z.json"].
Proof. vm_compute. repeat split. Qed.
